(* ===== verification/_CoqProject ===== *)
-Q . S2P
Prelude.v
Stage.v
Prompts.v
StageData.v
Contradiction.v
StateMachine.v
Adapter.v
Plan.v
Renderer.v
Store.v
Api.v
App.v
