(* ===== verification/Prelude.v ===== *)
(** * pm-assistant: a verification development of the stage progression engine

    The program (src/app) is a FastAPI service that drives a five-stage
    planning conversation. Each chat turn goes through
    [PlanningStateMachine.process_message] (agent/state_machine.py): it
    appends the user's message to the [Session] (models/session.py), asks
    the model for a reply and, in a second call, for a structured record of
    the current stage; the stage's handler (agent/stage_handlers.py) keeps
    the record only if it passes the stage's completeness predicate; the
    [ContradictionDetector] (agent/contradiction_detector.py) compares a
    tasks record with the committed constraints; a record that passes is
    committed under the stage's key and the stage advances. Once all five
    stages are committed, [PlanCompiler] (agent/plan_compiler.py) and
    [MarkdownRenderer] (utils/markdown_renderer.py) build the plan, and the
    routes (api/routes) serve sessions through a [SessionStore].

    ** Files and what they model
    - [Prelude] (this file): Python's [str] operations used by the code
      ([strip], [lower], [upper], [capitalize], [join], [in], [split(sep, 1)],
      [split(c)], [rstrip(c)], [endswith(c)], [str(int)], truthiness,
      [list.index], [sorted], [dict.get] on an association list) on ASCII
      strings, the
      [pm] hint databases, the [solve_contains] tactic, and the error monad
      [sum_bind] with its [let*] notation and the [inv_sum_bind] tactic.
    - [Stage] (Module [Stages]): [PlanningStage], [STAGE_ORDER],
      [Session.advance_stage]'s stage update, the transition messages of
      agent/prompts.py, and [STAGE_LABELS] and [_progress] of the chat route.
    - [Prompts] (Module [Prompts]): every text of agent/prompts.py, the
      master context, the five stage system prompts, the five extraction
      instructions, and the tables [STAGE_SYSTEM_PROMPTS] and
      [STAGE_EXTRACTION_PROMPTS] as functions of the stage ([None] where the
      dict has no key: COMPLETE).
    - [StageData]: the pydantic models of models/stage_data.py (one Module
      per model, type [t], fields as in the source), [StageRecord] (what
      [stage_data] holds), and Module [Handlers]: the stage-indexed
      [extraction_model], the handlers with their [_has_required_fields],
      [STAGE_HANDLER_CLASSES] and the decision part of [attempt_extraction].
    - [Contradiction] (Module [ContradictionDetector]): [check] and
      [_check_tasks_vs_constraints] with both rules and their messages.
    - [StateMachine]: [ConversationMessage], [Session] with its mutators,
      the [Oracle] (the two model calls: a record of operations that every
      theorem quantifies over), [TurnResult] (a reply and the session, or the
      exception with the session as the exception left it), and Module
      [PlanningStateMachine] with [commit] and [process_message]; the turn
      relation, [reachable] sessions, scripted oracles and concrete runs.
    - [Adapter]: what the oracle is made of. Module [Anthropic] gives the
      shape of the client's [messages.create] (request record, content
      blocks, tool definition, JSON values) with the client an abstract
      record; [Pydantic] gives [model_json_schema] and [model_validate];
      Module [Settings] the fields and defaults of config.py; Module
      [BaseStageHandler] the requests both calls of a handler send and how
      they read the response ([generate_reply], [extraction_response]);
      [oracle_of] assembles them into the [Oracle] of [StateMachine].
    - [Plan]: the pydantic models of models/plan.py (one Module per model)
      and Module [PlanCompiler]: [compile] in the error monad (the five
      re-parses raise [KeyError] or a validation error), [assemble] (the rest
      of [compile]), [tasks_by_phase], [_build_tasks], the general and the
      program structures (the pillar dict is a list of pillars in insertion
      order, updated by [add_to_pillar]) and the governance block; the
      first-seen grouping [group_first_seen] is the specification the pillar
      dict is proved against.
    - [Renderer] (Module [MarkdownRenderer]): [render] as the list of lines
      it builds ([header_lines], [structure_lines] with [_render_milestone],
      [governance_lines]) joined with newlines, every conditional line with
      the truthiness test of the source.
    - [Store]: the [SessionStore] class (get, save, delete and their laws)
      and its instance, [InMemorySessionStore] on a [gmap]; a read returns a
      value, as [Session( **data)] returns a fresh object.
    - [Api] (Module [Routes], over any [SessionStore] instance): the
      request and response schemas, [chat] (also as its two atomic store
      steps [chat_load] and [chat_finish]), [get_plan], [get_session],
      [delete_session], and the concurrent system [step] whose states are
      the store and the sessions loaded by pending chats.
    - [App]: the application around the routes. Module [Logging]:
      [configure_logging] (utils/logging.py) with the part of Python 3.11's
      [logging] it reaches, and the log lines of main.py's [lifespan].
      Module [Routing]: the route table of main.py (the pages [FastAPI()]
      adds, [/health], [/], the [/static] mount, the three routers under
      [/api/v1]) and the framework's dispatch: first full match, 405 on a
      path matched with another method, 307 on a trailing slash, else 404.
      Module [Main]: [handle], one request with the store singleton and the
      client factory of dependencies.py, and [serve], a sequence of them.

    ** What the theorems show
    - Controller (StateMachine): the session invariant holds on every
      reachable session, by rule induction over turns (C1); complete
      sessions hold tasks that respect the constraints (C2); every branch of
      a turn: commit (C3), reject on contradiction (C4), incomplete
      extraction (C12), the message log and the raising reply call (C13),
      terminal absorption (C8); stage monotonicity (C9); progress (C11) and
      its exception, a committed negative team size that blocks the tasks
      stage forever (C10); turns that change the stage form a well-founded
      relation (C21).
    - Detector (Contradiction): exactly when it is silent, the case without
      committed constraints included (C5); owner-rule precedence and the
      counts it quotes (C6); the duration rule and its 400-day boundary
      (C7).
    - Stages (Stage): the progress percentage, with the fallback of an
      unknown value (C15).
    - Plan compiler (Plan): compilation succeeds on every reachable complete
      session (C16), and otherwise fails only on a missing key or a record
      of another stage (C23); the task grouping is a filter by phase (C17);
      the pillar dict is the first-seen grouping, with distinct pillars and
      no milestone lost (C18, C19); general plans attach each milestone's
      tasks (C20).
    - Renderer (Renderer): the governance headings are present in the
      section exactly for the non-empty lists (C24), but in every program
      plan with a milestone labelled like a heading the text shows that
      heading for an empty list, against the spec's "empty list, no
      header" (C26); a compiled plan is rendered in the branch the
      compiler took (C27).
    - Adapter: a reply without content raises [IndexError] through the
      turn, while every error of the extraction call, API errors included,
      is absorbed as "no record" (C29).
    - Routes (Api): the store invariant under every interleaving of
      requests (C30); the plan route never raises on such a store (C31);
      the chat route refines the turn relation (C32); a raising model call
      saves nothing for a stored session (C33) but leaves an orphan new
      session (C34); two chats on one session that both load before either
      saves lose the first exchange (C35), while two chats handled one
      after the other keep both (C36).
    - Application (App): the application refines the routes: each API
      path and method reaches its route handler on the store singleton
      (C14); other methods answer 405, a trailing slash 307, an empty
      session id 404 and a chat body that does not validate 422, all
      without touching the store (C22); from the empty singleton, any
      sequence of requests keeps the store invariant, and only the chat and
      delete routes write (C28); the start-up's logging level, its
      fallback to INFO and the two names that crash the start-up (C25).

    ** Modelling choices, bounds and what is not modelled
    - The controller's theorems hold for every [Oracle]: the model may
      answer anything, and pydantic's validation of the tool input is part
      of the answer (raised, no tool use, invalid, or a validated record).
      [Adapter] shows how the source builds that oracle from the client,
      the prompts and pydantic, which stay abstract records.
    - [stage_data] is a [gmap string StageRecord]: the dict keyed by stage
      value, holding the dump of one of the five models. A dump is the
      validated record tagged with its model, and [compile]'s re-parse
      under a model is a match on the tag: that [Model( **record.model_dump())]
      gives the record back is assumed by this representation, not proved.
      Re-parsing a foreign dump as [ConstraintsData] gives its defaults
      (no shared key, extra keys ignored).
    - Python ints are [Z] (no width: Python ints are unbounded); strings are
      Stdlib strings of bytes, case folding and white space act on ASCII.
    - [_progress] computes [idx / 5 * 100] exactly; the doubles of the
      source give the same six integers.
    - Time stamps ([created_at], [updated_at], message timestamps) are not
      modelled: nothing reads them. Logging is modelled only where the
      start-up depends on it ([App.Logging]). The clock reading of
      [generated_at] is a parameter of [compile].
    - No function needs fuel: every recursion is structural.
    - Concurrency: each store operation runs under the store's lock and is
      one atomic step; the chat route suspends between its load and its
      save (the model calls), which is where requests interleave. A failed
      load (404) changes nothing and is not a step; the read-only routes
      are not steps either.

    ** Not modelled
    - The model provider's HTTP API behind [messages.create] and pydantic's
      schema generation and validation: external libraries, abstract
      records in [Adapter].
    - Reading config.py's settings from the environment (pydantic-settings)
      and the caching of [get_settings]: the settings are a value of
      [App.Main.Deps].
    - The CORS middleware of main.py: it only adds headers, and answers
      preflight requests (which carry CORS headers the request model does
      not have) before the router. A request of [App] is a plain request.
    - The framework's path matching is modelled for the paths of this
      table (whole-segment parameters with the [str] convertor, a mount
      under a literal prefix); the contents of the static files and of the
      documentation pages are not.
    - The clock fields and the [uuid4] identifiers: the identifier of a new
      session is a parameter of the chat route.

    ** Further work
    1. The chat response's label and progress bounds on every stored
       session, and the parse of a subtask timeline back to its duration.
    2. Fairness of the concurrent system: a chat that loads after the last
       save of the same session loses no turn.
    3. The concurrent system of [Api] driven by [App.Main.handle], with the
       two halves of the chat route as separate steps of the application.
*)

From Stdlib Require Export String Ascii ZArith DecimalString.
From stdpp Require Export base list gmap strings sorting.

(** ** Notation, automation and Python string primitives shared by all files *)

Declare Scope pm_scope.
Delimit Scope pm_scope with pm.

(** String concatenation (Python's [+] and f-string splicing) is stdpp's
    [+:+]; string literals are read in [stdpp_scope]. *)

Create HintDb pm discriminated.
Create Rewrite HintDb pm_rw.

Local Open Scope pm_scope.

(** A computation that may raise: [inl] carries the exception. *)
Definition sum_bind {E A B} (c : E + A) (k : A -> E + B) : E + B :=
  match c with
  | inl e => inl e
  | inr a => k a
  end.

Notation "'let*' x ':=' c 'in' k" := (sum_bind c (fun x => k))
  (at level 10, x name, c at level 100, k at level 200) : pm_scope.

(** Python's [str] methods on the ASCII range. Characters are bytes of the
    UTF-8 encoding; [lower], [upper] and [isspace] act on ASCII letters and
    ASCII whitespace, as Python does on those characters. *)
Module Py.

Definition isspace (c : ascii) : bool :=
  let n := nat_of_ascii c in
  ((9 <=? n) && (n <=? 13)) || ((28 <=? n) && (n <=? 32)).

Definition lower_char (c : ascii) : ascii :=
  let n := nat_of_ascii c in
  if (65 <=? n) && (n <=? 90) then ascii_of_nat (n + 32) else c.

Definition upper_char (c : ascii) : ascii :=
  let n := nat_of_ascii c in
  if (97 <=? n) && (n <=? 122) then ascii_of_nat (n - 32) else c.

Fixpoint lower (s : string) : string :=
  match s with
  | EmptyString => EmptyString
  | String c s' => String (lower_char c) (lower s')
  end.

Fixpoint upper (s : string) : string :=
  match s with
  | EmptyString => EmptyString
  | String c s' => String (upper_char c) (upper s')
  end.

Fixpoint lstrip (s : string) : string :=
  match s with
  | EmptyString => EmptyString
  | String c s' => if isspace c then lstrip s' else s
  end.

Fixpoint rstrip (s : string) : string :=
  match s with
  | EmptyString => EmptyString
  | String c s' =>
      match rstrip s' with
      | EmptyString => if isspace c then EmptyString else String c EmptyString
      | r => String c r
      end
  end.

(** [s.strip()] *)
Definition strip (s : string) : string := rstrip (lstrip s).

(** [s.capitalize()]: first character upper case, the rest lower case. *)
Definition capitalize (s : string) : string :=
  match s with
  | EmptyString => EmptyString
  | String c s' => String (upper_char c) (lower s')
  end.

(** The newline character ["\n"]. *)
Definition nl : string := String (ascii_of_nat 10) EmptyString.

(** The double quote character, spliced into texts that contain it. *)
Definition dquote : string := String (ascii_of_nat 34) EmptyString.

(** [sep.join(l)] *)
Definition join (sep : string) (l : list string) : string := String.concat sep l.

(** [s] with the prefix [p] removed, when [s] starts with [p]. *)
Fixpoint strip_prefix (p s : string) : option string :=
  match p, s with
  | EmptyString, _ => Some s
  | String c p', String d s' => if Ascii.eqb c d then strip_prefix p' s' else None
  | String _ _, EmptyString => None
  end.

(** [sub in s] *)
Fixpoint contains (sub s : string) : bool :=
  match strip_prefix sub s with
  | Some _ => true
  | None =>
      match s with
      | EmptyString => false
      | String _ s' => contains sub s'
      end
  end.

(** [s.split(sep, 1)] when [sep in s]: the text before the first occurrence
    and the text after it. *)
Fixpoint split_once (sep s : string) : option (string * string) :=
  match strip_prefix sep s with
  | Some rest => Some (EmptyString, rest)
  | None =>
      match s with
      | EmptyString => None
      | String c s' =>
          match split_once sep s' with
          | Some (a, b) => Some (String c a, b)
          | None => None
          end
      end
  end.

(** [s.split(c)] for a one-character separator [c]: the pieces between the
    occurrences of [c], empty ones included (there is always one more piece
    than occurrences). *)
Fixpoint split_char (c : ascii) (s : string) : list string :=
  match s with
  | EmptyString => [EmptyString]
  | String a s' =>
      if Ascii.eqb a c then EmptyString :: split_char c s'
      else match split_char c s' with
           | [] => [String a EmptyString]
           | x :: xs => String a x :: xs
           end
  end.

(** [s.rstrip(c)] for one character [c]. *)
Fixpoint rstrip_char (c : ascii) (s : string) : string :=
  match s with
  | EmptyString => EmptyString
  | String a s' =>
      match rstrip_char c s' with
      | EmptyString => if Ascii.eqb a c then EmptyString else String a EmptyString
      | r => String a r
      end
  end.

(** [s.endswith(c)] for one character [c]. *)
Fixpoint endswith_char (c : ascii) (s : string) : bool :=
  match s with
  | EmptyString => false
  | String a EmptyString => Ascii.eqb a c
  | String _ s' => endswith_char c s'
  end.

(** [d.get(k)] for a dict written as an association list: the first value
    bound to [k]. *)
Fixpoint assoc {A} (k : string) (l : list (string * A)) : option A :=
  match l with
  | [] => None
  | (k', v) :: l' => if String.eqb k k' then Some v else assoc k l'
  end.

(** [str(n)] for a Python [int]. *)
Definition str_of_Z (z : Z) : string := NilZero.string_of_int (Z.to_int z).

(** [bool(s)] for a [str] *)
Definition truthy (s : string) : bool := negb (String.eqb s EmptyString).

(** Python truthiness of [Optional[str]] and [Optional[int]] values. *)
Definition truthy_str (o : option string) : bool :=
  match o with
  | Some s => truthy s
  | None => false
  end.

Definition truthy_int (o : option Z) : bool :=
  match o with
  | Some z => negb (Z.eqb z 0)
  | None => false
  end.

(** [l.index(x)]: the first position of [x], [None] for a [ValueError]. *)
Fixpoint index {A} `{EqDecision A} (x : A) (l : list A) : option nat :=
  match l with
  | [] => None
  | y :: l' => if decide (x = y) then Some 0 else S <$> index x l'
  end.

(** [sorted(xs)] on strings: stdpp's lexicographic [String.le] is the order
    of Python's [str] comparison (byte order of UTF-8 is code point order). *)
Definition sorted_strings (xs : list string) : list string := merge_sort String.le xs.

End Py.

(** ** Generic lemmas *)

Lemma app_nil_l_pm (b : string) : EmptyString +:+ b = b.
Proof. reflexivity. Qed.

Lemma app_cons_pm (c : ascii) (a b : string) : String c a +:+ b = String c (a +:+ b).
Proof. reflexivity. Qed.

Lemma append_assoc_pm (a b c : string) : (a +:+ b) +:+ c = a +:+ (b +:+ c).
Proof. induction a as [|x a IH]; [done|by rewrite !app_cons_pm, IH]. Qed.

Lemma append_empty_r_pm (a : string) : a +:+ EmptyString = a.
Proof. induction a as [|x a IH]; [done|by rewrite !app_cons_pm, IH]. Qed.

Lemma strip_prefix_app (p r : string) : Py.strip_prefix p (p +:+ r) = Some r.
Proof. induction p as [|c p IH]; [done|]. rewrite app_cons_pm. simpl. by rewrite Ascii.eqb_refl. Qed.

Lemma strip_prefix_Some (p s r : string) :
  Py.strip_prefix p s = Some r -> s = p +:+ r.
Proof.
  revert s. induction p as [|c p IH]; intros [|d s] H; simpl in H; simplify_eq; try done.
  destruct (Ascii.eqb_spec c d) as [->|]; [|done]. by rewrite app_cons_pm, (IH s H).
Qed.

(** A string contains itself spliced between any two others. *)
Lemma contains_app_mid (x a b : string) : Py.contains x (a +:+ x +:+ b) = true.
Proof.
  induction a as [|c a IH].
  - rewrite app_nil_l_pm. destruct x as [|d x]; [by destruct b|].
    rewrite app_cons_pm. simpl. by rewrite Ascii.eqb_refl, strip_prefix_app.
  - rewrite app_cons_pm. simpl. destruct (Py.strip_prefix x _); [done|exact IH].
Qed.

Lemma contains_spec (x s : string) :
  Py.contains x s = true <-> exists a b, s = a +:+ x +:+ b.
Proof.
  split.
  - induction s as [|c s IH]; simpl; destruct (Py.strip_prefix x _) as [r|] eqn:E; intros H;
      try (exists EmptyString, r; rewrite app_nil_l_pm; by apply strip_prefix_Some).
    + by simpl in H.
    + destruct (IH H) as (a & b & ->). by exists (String c a), b.
  - intros (a & b & ->). apply contains_app_mid.
Qed.

Lemma contains_app_l (x a b : string) :
  Py.contains x a = true -> Py.contains x (a +:+ b) = true.
Proof.
  rewrite !contains_spec. intros (a1 & b1 & ->).
  exists a1, (b1 +:+ b). by rewrite !append_assoc_pm.
Qed.

Lemma contains_app_r (x a b : string) :
  Py.contains x b = true -> Py.contains x (a +:+ b) = true.
Proof.
  rewrite !contains_spec. intros (a1 & b1 & ->).
  exists (a +:+ a1), b1. by rewrite !append_assoc_pm.
Qed.

#[export] Hint Resolve contains_app_mid contains_app_l contains_app_r : pm.

Lemma contains_refl (x : string) : Py.contains x x = true.
Proof. apply contains_spec. exists EmptyString, EmptyString. by rewrite append_empty_r_pm. Qed.

#[export] Hint Resolve contains_refl : pm.

(** Find a string inside a concatenation, searching both operands. *)
Ltac solve_contains :=
  unfold id;
  lazymatch goal with
  | |- Py.contains ?x ?x = true => apply contains_refl
  | |- Py.contains ?x (_ +:+ _) = true =>
      first [ apply contains_app_mid
            | apply contains_app_l; solve_contains
            | apply contains_app_r; solve_contains ]
  end.
#[export] Hint Rewrite app_nil_l_pm app_cons_pm append_assoc_pm append_empty_r_pm strip_prefix_app : pm_rw.

(** ** The error monad *)

Lemma sum_bind_inr {E A B} (c : E + A) (k : A -> E + B) (b : B) :
  sum_bind c k = inr b <-> exists a, c = inr a /\ k a = inr b.
Proof. destruct c; naive_solver. Qed.

Lemma sum_bind_inl {E A B} (c : E + A) (k : A -> E + B) (e : E) :
  sum_bind c k = inl e <-> c = inl e \/ exists a, c = inr a /\ k a = inl e.
Proof. destruct c; naive_solver. Qed.

(** Split every [let*] of a hypothesis into the step that produced the value
    and the rest of the computation. *)
Ltac inv_sum_bind :=
  repeat match goal with
  | H : sum_bind _ _ = inr _ |- _ => apply sum_bind_inr in H as (? & ? & H)
  end.

Lemma contains_trans (x y z : string) :
  Py.contains x y = true -> Py.contains y z = true -> Py.contains x z = true.
Proof.
  rewrite !contains_spec. intros (a & b & ->) (c & d & ->).
  exists (c +:+ a), (b +:+ d). by rewrite !append_assoc_pm.
Qed.

(** A substring of a line of a joined list is a substring of the joined
    text. *)
Lemma contains_join (sep x y : string) (l : list string) :
  Py.contains x y = true -> y ∈ l -> Py.contains x (Py.join sep l) = true.
Proof.
  intros Hxy Hy. apply (contains_trans _ _ _ Hxy). clear Hxy.
  unfold Py.join. induction l as [|a l IH]; [set_solver|]. simpl.
  destruct l as [|b l'].
  - apply list_elem_of_singleton in Hy as ->. apply contains_refl.
  - apply elem_of_cons in Hy as [->|Hy].
    + apply contains_app_l, contains_refl.
    + by apply contains_app_r, contains_app_r, IH.
Qed.

(** [s.split(c)] on a concatenation [x + c + y] where [x] has no [c]. *)
Lemma contains_char_cons (c a : ascii) (x : string) :
  Py.contains (String c EmptyString) (String a x) = false <->
  Ascii.eqb a c = false /\ Py.contains (String c EmptyString) x = false.
Proof.
  simpl. rewrite (Ascii.eqb_sym a c). destruct (Ascii.eqb c a); naive_solver.
Qed.

Lemma split_char_no_sep (c : ascii) (x : string) :
  Py.contains (String c EmptyString) x = false -> Py.split_char c x = [x].
Proof.
  induction x as [|a x IH]; [done|].
  intros [Hac Hx]%contains_char_cons. cbn [Py.split_char]. by rewrite Hac, IH.
Qed.

Lemma split_char_app_sep (c : ascii) (x y : string) :
  Py.contains (String c EmptyString) x = false ->
  Py.split_char c (x +:+ String c y) = x :: Py.split_char c y.
Proof.
  induction x as [|a x IH].
  - intros _. rewrite app_nil_l_pm. cbn [Py.split_char]. by rewrite Ascii.eqb_refl.
  - intros [Hac Hx]%contains_char_cons. rewrite app_cons_pm. cbn [Py.split_char].
    by rewrite Hac, IH.
Qed.
