(* ===== verification/Stage.v ===== *)
(** * Planning stages

    [PlanningStage] and [STAGE_ORDER] of [src/app/models/session.py], the
    stage part of [Session.advance_stage], the stage-transition messages of
    [src/app/agent/prompts.py], and the stage labels and progress percentage
    of [src/app/api/routes/chat.py]. *)

From S2P Require Import Prelude.
Local Open Scope pm_scope.

Module Stages.

(** [class PlanningStage(str, Enum)] *)
Inductive PlanningStage :=
  | DEFINE_OUTCOME
  | STRATEGIC_CONSTRAINTS
  | PHASES_AND_MILESTONES
  | TASKS_AND_SUBTASKS
  | RISK_AND_GOVERNANCE
  | COMPLETE.

#[export] Instance PlanningStage_eq_dec : EqDecision PlanningStage.
Proof. solve_decision. Defined.

(** [PlanningStage.value] *)
Definition value (s : PlanningStage) : string :=
  match s with
  | DEFINE_OUTCOME => "define_outcome"
  | STRATEGIC_CONSTRAINTS => "strategic_constraints"
  | PHASES_AND_MILESTONES => "phases_and_milestones"
  | TASKS_AND_SUBTASKS => "tasks_and_subtasks"
  | RISK_AND_GOVERNANCE => "risk_and_governance"
  | COMPLETE => "complete"
  end.

(** [PlanningStage(v)]: the member with value [v], [None] for a [ValueError]. *)
Definition of_value (v : string) : option PlanningStage :=
  if decide (v = "define_outcome") then Some DEFINE_OUTCOME
  else if decide (v = "strategic_constraints") then Some STRATEGIC_CONSTRAINTS
  else if decide (v = "phases_and_milestones") then Some PHASES_AND_MILESTONES
  else if decide (v = "tasks_and_subtasks") then Some TASKS_AND_SUBTASKS
  else if decide (v = "risk_and_governance") then Some RISK_AND_GOVERNANCE
  else if decide (v = "complete") then Some COMPLETE
  else None.

Lemma of_value_value (s : PlanningStage) : of_value (value s) = Some s.
Proof. by destruct s. Qed.

#[export] Instance PlanningStage_countable : Countable PlanningStage :=
  inj_countable value of_value of_value_value.

(** [STAGE_ORDER] *)
Definition STAGE_ORDER : list PlanningStage :=
  [DEFINE_OUTCOME; STRATEGIC_CONSTRAINTS; PHASES_AND_MILESTONES;
   TASKS_AND_SUBTASKS; RISK_AND_GOVERNANCE; COMPLETE].

(** The stage update of [Session.advance_stage]:
    [idx = STAGE_ORDER.index(self.current_stage)];
    [if idx < len(STAGE_ORDER) - 1: self.current_stage = STAGE_ORDER[idx + 1]]. *)
Definition advance_stage (current_stage : PlanningStage) : PlanningStage :=
  match Py.index current_stage STAGE_ORDER with
  | Some idx =>
      if idx <? length STAGE_ORDER - 1
      then default current_stage (STAGE_ORDER !! (idx + 1))
      else current_stage
  | None => current_stage
  end.

(** [STAGE_TRANSITION_MESSAGES] *)
Definition STAGE_TRANSITION_MESSAGES (s : PlanningStage) : option string :=
  match s with
  | STRATEGIC_CONSTRAINTS => Some (
      "**Stage 1 complete** — I have a clear picture of your project outcome." +:+ Py.nl +:+ Py.nl +:+
      "**Stage 2: Strategic Constraints** — Let's talk about your timeline, budget, " +:+
      "team, and any non-negotiable constraints.")
  | PHASES_AND_MILESTONES => Some (
      "**Stage 2 complete** — Constraints captured." +:+ Py.nl +:+ Py.nl +:+
      "**Stage 3: Phases and Milestones** — Let's break the project into major phases " +:+
      "and define the key milestone deliverables for each.")
  | TASKS_AND_SUBTASKS => Some (
      "**Stage 3 complete** — Phases and milestones defined." +:+ Py.nl +:+ Py.nl +:+
      "**Stage 4: Tasks and Subtasks** — Now let's decompose each phase into specific " +:+
      "tasks with owners, durations, and dependencies.")
  | RISK_AND_GOVERNANCE => Some (
      "**Stage 4 complete** — Full task breakdown captured." +:+ Py.nl +:+ Py.nl +:+
      "**Stage 5: Risk and Governance** — The final stage. Let's identify risks, " +:+
      "confirm stakeholders, define KPIs, and establish your governance model.")
  | COMPLETE => Some (
      "**All 5 planning stages complete.**" +:+ Py.nl +:+ Py.nl +:+
      "Your structured project plan has been generated and is ready to retrieve.")
  | DEFINE_OUTCOME => None
  end.

(** [get_stage_transition_message] *)
Definition get_stage_transition_message (next_stage : PlanningStage) : string :=
  default "Moving to the next stage." (STAGE_TRANSITION_MESSAGES next_stage).

(** [STAGE_LABELS] of the chat route, keyed by stage value. *)
Definition STAGE_LABELS (v : string) : option string :=
  if decide (v = "define_outcome") then Some "Stage 1: Define Outcome"
  else if decide (v = "strategic_constraints") then Some "Stage 2: Strategic Constraints"
  else if decide (v = "phases_and_milestones") then Some "Stage 3: Phases & Milestones"
  else if decide (v = "tasks_and_subtasks") then Some "Stage 4: Tasks & Subtasks"
  else if decide (v = "risk_and_governance") then Some "Stage 5: Risk & Governance"
  else if decide (v = "complete") then Some "Complete"
  else None.

(** [_progress(stage_value)]: [int((idx / (len(stages) - 1)) * 100)]. The
    quotient is computed here exactly and truncated; for the six possible
    indices the IEEE double computation of the source yields the same
    integers 0, 20, 40, 60, 80, 100. *)
Definition _progress (stage_value : string) : Z :=
  let stages := map value STAGE_ORDER in
  let idx := default (length stages - 1) (Py.index stage_value stages) in
  (Z.of_nat idx * 100) `div` Z.of_nat (length stages - 1).

(** The position of a stage in the stage order: the abstract order that
    [STAGE_ORDER] lists. *)
Definition rank (s : PlanningStage) : nat :=
  match s with
  | DEFINE_OUTCOME => 0
  | STRATEGIC_CONSTRAINTS => 1
  | PHASES_AND_MILESTONES => 2
  | TASKS_AND_SUBTASKS => 3
  | RISK_AND_GOVERNANCE => 4
  | COMPLETE => 5
  end.

(** The stages strictly before [s] in stage order. *)
Definition stages_before (s : PlanningStage) : list PlanningStage :=
  take (rank s) STAGE_ORDER.

Lemma index_STAGE_ORDER (s : PlanningStage) : Py.index s STAGE_ORDER = Some (rank s).
Proof. by destruct s. Qed.

Lemma rank_inj (s t : PlanningStage) : rank s = rank t -> s = t.
Proof. by destruct s, t. Qed.

Lemma STAGE_ORDER_lookup_rank (s : PlanningStage) : STAGE_ORDER !! rank s = Some s.
Proof. by destruct s. Qed.

Lemma value_inj (s t : PlanningStage) : value s = value t -> s = t.
Proof. intros H. apply (inj Some). by rewrite <- !of_value_value, H. Qed.

Lemma rank_advance_stage (s : PlanningStage) :
  s <> COMPLETE -> rank (advance_stage s) = S (rank s).
Proof. by destruct s. Qed.

Lemma stages_before_advance_stage (s : PlanningStage) :
  s <> COMPLETE -> stages_before (advance_stage s) = stages_before s ++ [s].
Proof. by destruct s. Qed.

Lemma value_not_before (s : PlanningStage) : value s ∉ map value (stages_before s).
Proof. destruct s; cbv; set_solver. Qed.

Lemma stages_before_COMPLETE (s : PlanningStage) : s <> COMPLETE -> s ∈ stages_before COMPLETE.
Proof. destruct s; cbv; set_solver. Qed.

End Stages.

#[export] Hint Resolve Stages.of_value_value Stages.index_STAGE_ORDER
  Stages.value_not_before : pm.

Import Stages.

(** [advance_stage] follows the stage order: every stage but [COMPLETE]
    moves to the next one in [STAGE_ORDER], and [COMPLETE] is absorbing. *)
Theorem advance_stage_order (s : PlanningStage) :
  rank (advance_stage s) = Nat.min (S (rank s)) 5
  /\ (advance_stage s = s <-> s = COMPLETE).
Proof. by destruct s. Qed.

Lemma index_values (v : string) :
  Py.index v (map value STAGE_ORDER) = rank <$> of_value v.
Proof. unfold of_value. simpl. by repeat case_decide. Qed.

(** C15: The progress percentage of the chat response is [20 * rank] of the
    stage whose value it is given (0, 20, ..., 100), and 100 for a string
    that is no stage value. *)
Theorem progress_rank (v : string) :
  _progress v = (20 * Z.of_nat (rank (default COMPLETE (of_value v))))%Z.
Proof.
  unfold _progress. rewrite index_values.
  destruct (of_value v) as [[]|]; reflexivity.
Qed.
