(* ===== verification/StageData.v ===== *)
(** * Extraction records and stage handlers

    The pydantic models of [src/app/models/stage_data.py] as records (one
    Module per model, fields with the source's names), the committed form of
    a record in [Session.stage_data] ([StageRecord], what
    [model_dump(mode="json")] stores), and the stage handlers of
    [src/app/agent/stage_handlers.py]: the extraction model and the
    completeness predicate [_has_required_fields] of each stage, the
    dispatch table [STAGE_HANDLER_CLASSES], and the decision part of
    [attempt_extraction]. *)

From S2P Require Import Prelude Stage.
Import Stages.
Local Open Scope pm_scope.

Module OutcomeData.
Record t := mk {
  project_name : string;
  project_type : string;
  success_definition : string;
  measurable_result : string;
  key_stakeholders : list string }.
End OutcomeData.

Module ConstraintsData.
Record t := mk {
  deadline : option string;
  budget : option string;
  team_size : option Z;
  methodology : option string;
  key_constraints : list string;
  assumptions : list string }.

(** [ConstraintsData()]: every field at its default. *)
Definition default : t := mk None None None None [] [].
End ConstraintsData.

Module MilestoneDefinition.
Record t := mk {
  name : string;
  deliverable : string;
  timeline : option string;
  owner : option string }.
End MilestoneDefinition.

Module PhasesData.
Record t := mk {
  phases : list string;
  milestones : list MilestoneDefinition.t }.
End PhasesData.

Module SubTaskDefinition.
Record t := mk {
  name : string;
  owner : option string;
  duration_days : option Z;
  dependencies : list string;
  deliverable : option string }.
End SubTaskDefinition.

Module TaskDefinition.
Record t := mk {
  name : string;
  phase : string;
  owner : option string;
  duration_days : option Z;
  dependencies : list string;
  subtasks : list SubTaskDefinition.t }.
End TaskDefinition.

Module TasksData.
Record t := mk { tasks : list TaskDefinition.t }.
End TasksData.

Module RiskDefinition.
Record t := mk {
  description : string;
  severity : string;
  mitigation : option string }.
End RiskDefinition.

Module KPIDefinition.
Record t := mk {
  metric : string;
  target : option string }.
End KPIDefinition.

Module RiskGovernanceData.
Record t := mk {
  risks : list RiskDefinition.t;
  stakeholders : list string;
  kpis : list KPIDefinition.t;
  external_vendors : list string;
  review_cadence : option string }.
End RiskGovernanceData.

(** A value of [Session.stage_data]: the dump of the record of one of the
    five extraction models. *)
Inductive StageRecord :=
  | RecOutcome (d : OutcomeData.t)
  | RecConstraints (d : ConstraintsData.t)
  | RecPhases (d : PhasesData.t)
  | RecTasks (d : TasksData.t)
  | RecRiskGovernance (d : RiskGovernanceData.t).

(** [ConstraintsData( **raw)] on a committed record. The dump of a constraints
    record validates back to itself. The dumps of the other four models share
    no key with [ConstraintsData], whose fields are all optional, and pydantic
    ignores unknown keys: they validate to [ConstraintsData()]. *)
Definition ConstraintsData_of_record (raw : StageRecord) : ConstraintsData.t :=
  match raw with
  | RecConstraints c => c
  | _ => ConstraintsData.default
  end.

Module Handlers.

(** The class attribute [extraction_model] of each stage's handler. No
    handler exists for [COMPLETE], so no model either. *)
Definition extraction_model (s : PlanningStage) : Type :=
  match s with
  | DEFINE_OUTCOME => OutcomeData.t
  | STRATEGIC_CONSTRAINTS => ConstraintsData.t
  | PHASES_AND_MILESTONES => PhasesData.t
  | TASKS_AND_SUBTASKS => TasksData.t
  | RISK_AND_GOVERNANCE => RiskGovernanceData.t
  | COMPLETE => Empty_set
  end.

(** A stage handler: [BaseStageHandler] with the class attribute [stage]
    and the method [_has_required_fields] that each subclass gives; [dump]
    is [model_dump] of its extraction model. *)
Record StageHandler := {
  stage : PlanningStage;
  dump : extraction_model stage -> StageRecord;
  _has_required_fields : extraction_model stage -> bool }.

Definition MISSING : string := "MISSING".

(** [DefineOutcomeHandler._has_required_fields] *)
Definition outcome_has_required_fields (data : OutcomeData.t) : bool :=
  Py.truthy (OutcomeData.project_name data)
  && negb (String.eqb (OutcomeData.project_name data) MISSING)
  && Py.truthy (OutcomeData.success_definition data)
  && negb (String.eqb (OutcomeData.success_definition data) MISSING)
  && Py.truthy (OutcomeData.measurable_result data)
  && negb (String.eqb (OutcomeData.measurable_result data) MISSING)
  && (String.eqb (OutcomeData.project_type data) "general"
      || String.eqb (OutcomeData.project_type data) "program").

(** [StrategicConstraintsHandler._has_required_fields] *)
Definition constraints_has_required_fields (data : ConstraintsData.t) : bool :=
  Py.truthy_str (ConstraintsData.deadline data)
  || (0 <? length (ConstraintsData.key_constraints data)).

(** [PhasesAndMilestonesHandler._has_required_fields] *)
Definition phases_has_required_fields (data : PhasesData.t) : bool :=
  (2 <=? length (PhasesData.phases data)) && (1 <=? length (PhasesData.milestones data)).

(** [TasksAndSubtasksHandler._has_required_fields] *)
Definition tasks_has_required_fields (data : TasksData.t) : bool :=
  (1 <=? length (TasksData.tasks data))
  && existsb (fun t => Py.truthy_str (TaskDefinition.owner t)) (TasksData.tasks data).

(** [RiskAndGovernanceHandler._has_required_fields] *)
Definition risk_has_required_fields (data : RiskGovernanceData.t) : bool :=
  (1 <=? length (RiskGovernanceData.risks data))
  && (1 <=? length (RiskGovernanceData.stakeholders data)).

Definition DefineOutcomeHandler : StageHandler :=
  {| stage := DEFINE_OUTCOME;
     dump := RecOutcome; _has_required_fields := outcome_has_required_fields |}.

Definition StrategicConstraintsHandler : StageHandler :=
  {| stage := STRATEGIC_CONSTRAINTS;
     dump := RecConstraints; _has_required_fields := constraints_has_required_fields |}.

Definition PhasesAndMilestonesHandler : StageHandler :=
  {| stage := PHASES_AND_MILESTONES;
     dump := RecPhases; _has_required_fields := phases_has_required_fields |}.

Definition TasksAndSubtasksHandler : StageHandler :=
  {| stage := TASKS_AND_SUBTASKS;
     dump := RecTasks; _has_required_fields := tasks_has_required_fields |}.

Definition RiskAndGovernanceHandler : StageHandler :=
  {| stage := RISK_AND_GOVERNANCE;
     dump := RecRiskGovernance; _has_required_fields := risk_has_required_fields |}.

(** [STAGE_HANDLER_CLASSES[stage]]; [None] is the [KeyError] for [COMPLETE]. *)
Definition STAGE_HANDLER_CLASSES (s : PlanningStage) : option StageHandler :=
  match s with
  | DEFINE_OUTCOME => Some DefineOutcomeHandler
  | STRATEGIC_CONSTRAINTS => Some StrategicConstraintsHandler
  | PHASES_AND_MILESTONES => Some PhasesAndMilestonesHandler
  | TASKS_AND_SUBTASKS => Some TasksAndSubtasksHandler
  | RISK_AND_GOVERNANCE => Some RiskAndGovernanceHandler
  | COMPLETE => None
  end.

(** What the extraction call of [attempt_extraction] comes back with: the
    call raised, the response holds no [tool_use] block, or it holds one whose
    input [model_validate] rejects ([None]) or accepts ([Some data]). *)
Inductive ToolResponse (A : Type) :=
  | ToolRaised
  | NoToolUse
  | ToolUse (validated : option A).
Arguments ToolRaised {A}.
Arguments NoToolUse {A}.
Arguments ToolUse {A} validated.

(** The decision part of [BaseStageHandler.attempt_extraction]. *)
Definition attempt_extraction (h : StageHandler)
    (response : ToolResponse (extraction_model (stage h)))
    : option (extraction_model (stage h)) :=
  match response with
  | ToolRaised => None
  | NoToolUse => None
  | ToolUse None => None
  | ToolUse (Some data) => if _has_required_fields h data then Some data else None
  end.

(** The stage a committed record belongs to. *)
Definition record_stage (r : StageRecord) : PlanningStage :=
  match r with
  | RecOutcome _ => DEFINE_OUTCOME
  | RecConstraints _ => STRATEGIC_CONSTRAINTS
  | RecPhases _ => PHASES_AND_MILESTONES
  | RecTasks _ => TASKS_AND_SUBTASKS
  | RecRiskGovernance _ => RISK_AND_GOVERNANCE
  end.

(** The completeness predicate of the handler of a committed record. *)
Definition record_complete (r : StageRecord) : bool :=
  match r with
  | RecOutcome d => outcome_has_required_fields d
  | RecConstraints d => constraints_has_required_fields d
  | RecPhases d => phases_has_required_fields d
  | RecTasks d => tasks_has_required_fields d
  | RecRiskGovernance d => risk_has_required_fields d
  end.

(** Every handler's [dump] tags its record with the handler's stage and
    keeps its completeness predicate. *)
Lemma handler_dump (s : PlanningStage) (h : StageHandler) (d : extraction_model (stage h)) :
  STAGE_HANDLER_CLASSES s = Some h ->
  stage h = s /\ record_stage (dump h d) = s
  /\ record_complete (dump h d) = _has_required_fields h d.
Proof. destruct s; intros [= <-]; auto. Qed.

Lemma STAGE_HANDLER_CLASSES_Some (s : PlanningStage) :
  s <> COMPLETE -> exists h, STAGE_HANDLER_CLASSES s = Some h.
Proof. intros Hs. destruct s; [by eexists..|done]. Qed.

End Handlers.

(** ** Sample records

    The records of [build_complete_session] in
    [src/tests/unit/test_plan_compiler.py], used by the concrete runs. *)
Module Samples.

Definition outcome (project_type : string) : OutcomeData.t :=
  OutcomeData.mk "Test Project" project_type "Launch a working product" "1000 users by Q4"
    ["CEO"; "CTO"].

Definition constraints (team_size : option Z) : ConstraintsData.t :=
  ConstraintsData.mk (Some "Q4 2026") (Some "$500,000") team_size (Some "Agile") [] [].

Definition phases : PhasesData.t :=
  PhasesData.mk ["Discovery"; "Development"]
    [MilestoneDefinition.mk "Discovery" "Requirements doc" (Some "Month 1") (Some "PM");
     MilestoneDefinition.mk "Development" "Working MVP" (Some "Month 4") (Some "Tech Lead")].

Definition program_phases : PhasesData.t :=
  PhasesData.mk ["Technology"; "People"]
    [MilestoneDefinition.mk "Technology - MVP" "Deployed product" (Some "Q3") None;
     MilestoneDefinition.mk "People - Onboarding" "Team onboarded" (Some "Q2") None].

Definition tasks : TasksData.t :=
  TasksData.mk
    [TaskDefinition.mk "Stakeholder interviews" "Discovery" (Some "PM") (Some 5%Z) []
       [SubTaskDefinition.mk "Schedule interviews" (Some "PM") (Some 1%Z) []
          (Some "Calendar invites sent")];
     TaskDefinition.mk "Build API" "Development" (Some "Backend Dev") (Some 20%Z) [] []].

Definition risk_governance : RiskGovernanceData.t :=
  RiskGovernanceData.mk
    [RiskDefinition.mk "Key engineer leaves" "high" (Some "Cross-train team members")]
    ["CEO"; "CTO"; "PM"]
    [KPIDefinition.mk "User signups" (Some "1000")]
    ["Stripe"] (Some "Weekly standup, bi-weekly steering").

End Samples.
