(* ===== verification/Contradiction.v ===== *)
(** * Cross-stage contradiction detector

    [ContradictionDetector] of [src/app/agent/contradiction_detector.py]:
    [check] dispatches on the stage, and [_check_tasks_vs_constraints] runs
    the owner-count rule and then the duration-sum rule against the
    committed constraints record. Theorems: exactly when the detector is
    silent (a missing constraints record included), its two rules'
    precedence, and the exact counts its messages quote. *)

From S2P Require Import Prelude Stage StageData.
Import Stages.
Local Open Scope pm_scope.

Module ContradictionDetector.

(** [@dataclass class Contradiction] *)
Record Contradiction := mkContradiction {
  description : string;
  clarification_question : string }.

(** [skip_labels = {"tbd", "unassigned", "n/a", "various", ""}] *)
Definition skip_labels : list string := ["tbd"; "unassigned"; "n/a"; "various"; EmptyString].

(** The element a task adds to the set comprehension [unique_owners]:
    [t.owner.strip().lower()] when [t.owner] is truthy and the normalised
    label is not a placeholder. *)
Definition owner_label (t : TaskDefinition.t) : option string :=
  match TaskDefinition.owner t with
  | Some o =>
      if Py.truthy o && negb (bool_decide (Py.lower (Py.strip o) ∈ skip_labels))
      then Some (Py.lower (Py.strip o)) else None
  | None => None
  end.

(** [unique_owners = {... for t in tasks_data.tasks if ...}] *)
Definition unique_owners (tasks : list TaskDefinition.t) : gset string :=
  list_to_set (omap owner_label tasks).

(** [sum(t.duration_days for t in tasks_data.tasks if t.duration_days is not None)] *)
Definition total_days (tasks : list TaskDefinition.t) : Z :=
  foldr Z.add 0%Z (omap TaskDefinition.duration_days tasks).

(** The contradiction of rule 1. *)
Definition owner_count_contradiction (team_size : Z) (owners : gset string) : Contradiction :=
  let names := Py.join ", " (Py.sorted_strings (elements owners)) in
  {| description :=
       "You mentioned a team of " +:+ Py.str_of_Z team_size +:+ " in Stage 2, " +:+
       "but I'm now seeing " +:+ Py.str_of_Z (Z.of_nat (size owners)) +:+
       " distinct task owners: " +:+ names +:+ ".";
     clarification_question :=
       "Should I update the team size, or are some of these the same " +:+
       "person referenced by different names?" |}.

(** The contradiction of rule 2. *)
Definition duration_contradiction (total : Z) (deadline : option string) : Contradiction :=
  let deadline_str :=
    if Py.truthy_str deadline
    then " against your deadline of '" +:+ default EmptyString deadline +:+ "'"
    else EmptyString in
  {| description :=
       "The sum of all task durations is approximately " +:+ Py.str_of_Z total +:+
       " days" +:+ deadline_str +:+ ". " +:+
       "That seems longer than a typical project timeline.";
     clarification_question :=
       "Are these tasks meant to run in parallel, or should we revisit some " +:+
       "of the duration estimates?" |}.

(** [ContradictionDetector._check_tasks_vs_constraints] *)
Definition _check_tasks_vs_constraints (tasks_data : TasksData.t)
    (existing_stage_data : gmap string StageRecord) : option Contradiction :=
  match existing_stage_data !! value STRATEGIC_CONSTRAINTS with
  | None => None
  | Some raw =>
      let constraints := ConstraintsData_of_record raw in
      let rule2 :=
        let total := total_days (TasksData.tasks tasks_data) in
        if (400 <? total)%Z
        then Some (duration_contradiction total (ConstraintsData.deadline constraints))
        else None in
      match ConstraintsData.team_size constraints with
      | Some n =>
          let owners := unique_owners (TasksData.tasks tasks_data) in
          if (n <? Z.of_nat (size owners))%Z
          then Some (owner_count_contradiction n owners)
          else rule2
      | None => rule2
      end
  end.

(** [ContradictionDetector.check]. The tasks handler's extraction model is
    [TasksData], so at the tasks stage [new_data] is a tasks record. *)
Definition check (stage : PlanningStage) (new_data : StageRecord)
    (existing_stage_data : gmap string StageRecord) : option Contradiction :=
  if decide (stage = TASKS_AND_SUBTASKS) then
    match new_data with
    | RecTasks tasks_data => _check_tasks_vs_constraints tasks_data existing_stage_data
    | _ => None
    end
  else None.

(** The condition under which the detector lets a tasks record through:
    the distinct owners fit the recorded team size, and the durations sum to
    at most 400 days. *)
Definition within_constraints (c : ConstraintsData.t) (tasks : list TaskDefinition.t) : Prop :=
  match ConstraintsData.team_size c with
  | Some n => (Z.of_nat (size (unique_owners tasks)) <= n)%Z
  | None => True
  end /\ (total_days tasks <= 400)%Z.

End ContradictionDetector.

Import ContradictionDetector.

(** ** Concrete runs: the unit tests of the repository and the spec's examples *)

Definition task_owned (i : nat) (owner : option string) (days : option Z) : TaskDefinition.t :=
  TaskDefinition.mk ("Task " +:+ Py.str_of_Z (Z.of_nat i)) "Phase 1" owner days [] [].

Definition tasks_of (owners : list string) (days : list (option Z)) : TasksData.t :=
  TasksData.mk (zip_with (fun '(i, o) d => task_owned i (Some o) d)
                  (imap pair owners) (days ++ replicate (length owners) None)).

Definition constraints_stage (team_size : option Z) (deadline : option string)
  : gmap string StageRecord :=
  {[ value STRATEGIC_CONSTRAINTS :=
       RecConstraints (ConstraintsData.mk deadline None team_size None [] []) ]}.

(** ** Theorems *)

Section Detector.

Lemma strip_lower_empty : Py.lower (Py.strip EmptyString) = EmptyString.
Proof. reflexivity. Qed.

(** A task contributes a label exactly when it has an owner whose
    normalised form is not a placeholder; the truthiness test of the source
    is implied, since the empty owner normalises to the placeholder [""]. *)
Lemma owner_label_Some (t : TaskDefinition.t) (x : string) :
  owner_label t = Some x <->
  exists o, TaskDefinition.owner t = Some o /\ x = Py.lower (Py.strip o) /\ x ∉ skip_labels.
Proof.
  unfold owner_label. destruct (TaskDefinition.owner t) as [o|]; [|naive_solver].
  case_bool_decide as Hin; simpl.
  - rewrite andb_false_r. naive_solver.
  - rewrite andb_true_r. destruct (Py.truthy o) eqn:Ho; [naive_solver|].
    unfold Py.truthy in Ho. apply negb_false_iff, String.eqb_eq in Ho as ->.
    exfalso. apply Hin. rewrite strip_lower_empty. set_solver.
Qed.

Lemma check_tasks_unfold (td : TasksData.t) (sd : gmap string StageRecord) :
  check TASKS_AND_SUBTASKS (RecTasks td) sd = _check_tasks_vs_constraints td sd.
Proof. reflexivity. Qed.

(** The tasks rules, as a condition on the committed constraints. *)
Lemma tasks_check_ok_iff (td : TasksData.t) (sd : gmap string StageRecord) :
  check TASKS_AND_SUBTASKS (RecTasks td) sd = None <->
  (forall raw, sd !! value STRATEGIC_CONSTRAINTS = Some raw ->
     within_constraints (ConstraintsData_of_record raw) (TasksData.tasks td)).
Proof.
  rewrite check_tasks_unfold. unfold _check_tasks_vs_constraints, within_constraints.
  destruct (sd !! _) as [raw|]; [|naive_solver].
  trans (within_constraints (ConstraintsData_of_record raw) (TasksData.tasks td));
    [unfold within_constraints|naive_solver].
  destruct (ConstraintsData.team_size _) as [n|];
    [destruct (Z.ltb_spec n (Z.of_nat (size (unique_owners (TasksData.tasks td)))))|];
    destruct (Z.ltb_spec 400 (total_days (TasksData.tasks td)));
    (split; [intros Hc; try discriminate; split; try done; lia
            |intros [Hc1 Hc2]; try reflexivity; lia]).
Qed.

Lemma check_stage_silent (stage : PlanningStage) (new_data : StageRecord)
    (sd : gmap string StageRecord) :
  stage <> TASKS_AND_SUBTASKS -> check stage new_data sd = None.
Proof. intros H. unfold check. by rewrite decide_False. Qed.

End Detector.

(** C5: The detector lets a tasks record through exactly when the committed
    constraints record, if there is one, is respected: the distinct owners
    fit the recorded team size and the task durations sum to at most 400
    days. *)
Theorem check_tasks_none_iff (td : TasksData.t) (sd : gmap string StageRecord) :
  check TASKS_AND_SUBTASKS (RecTasks td) sd = None <->
  (forall raw, sd !! value STRATEGIC_CONSTRAINTS = Some raw ->
     within_constraints (ConstraintsData_of_record raw) (TasksData.tasks td)).
Proof. apply tasks_check_ok_iff. Qed.

(** C6: Owner-count rule precedence and exactness: when the distinct owners
    outnumber the recorded team size, the detector returns the owner-count
    contradiction, whatever the durations, and its description quotes both
    the owner count and the team size. *)
Theorem owner_rule_precedence (td : TasksData.t) (sd : gmap string StageRecord)
    (raw : StageRecord) (n : Z) :
  sd !! value STRATEGIC_CONSTRAINTS = Some raw ->
  ConstraintsData.team_size (ConstraintsData_of_record raw) = Some n ->
  (n < Z.of_nat (size (unique_owners (TasksData.tasks td))))%Z ->
  check TASKS_AND_SUBTASKS (RecTasks td) sd
    = Some (owner_count_contradiction n (unique_owners (TasksData.tasks td)))
  /\ Py.contains (Py.str_of_Z (Z.of_nat (size (unique_owners (TasksData.tasks td)))))
       (description (owner_count_contradiction n (unique_owners (TasksData.tasks td)))) = true
  /\ Py.contains (Py.str_of_Z n)
       (description (owner_count_contradiction n (unique_owners (TasksData.tasks td)))) = true.
Proof.
  intros Hraw Hn Hlt. rewrite check_tasks_unfold.
  unfold _check_tasks_vs_constraints. rewrite Hraw, Hn.
  destruct (Z.ltb_spec n (Z.of_nat (size (unique_owners (TasksData.tasks td))))); [|lia].
  split; [done|]. unfold owner_count_contradiction; cbn [description]. split; solve_contains.
Qed.

(** C7: Duration-sum rule: when the owner-count rule does not fire and the
    task durations sum to more than 400 days, the detector returns the
    duration contradiction, whose description quotes the total and, when a
    deadline was recorded, the deadline verbatim. *)
Theorem duration_rule_fires (td : TasksData.t) (sd : gmap string StageRecord)
    (raw : StageRecord) :
  sd !! value STRATEGIC_CONSTRAINTS = Some raw ->
  (forall n, ConstraintsData.team_size (ConstraintsData_of_record raw) = Some n ->
     (Z.of_nat (size (unique_owners (TasksData.tasks td))) <= n)%Z) ->
  (400 < total_days (TasksData.tasks td))%Z ->
  check TASKS_AND_SUBTASKS (RecTasks td) sd
    = Some (duration_contradiction (total_days (TasksData.tasks td))
              (ConstraintsData.deadline (ConstraintsData_of_record raw)))
  /\ Py.contains (Py.str_of_Z (total_days (TasksData.tasks td)))
       (description (duration_contradiction (total_days (TasksData.tasks td))
                       (ConstraintsData.deadline (ConstraintsData_of_record raw)))) = true
  /\ (forall d, ConstraintsData.deadline (ConstraintsData_of_record raw) = Some d ->
        Py.truthy d = true ->
        Py.contains d (description (duration_contradiction (total_days (TasksData.tasks td))
                                      (Some d))) = true).
Proof.
  intros Hraw Hown Hgt. rewrite check_tasks_unfold.
  unfold _check_tasks_vs_constraints. rewrite Hraw.
  destruct (Z.ltb_spec 400 (total_days (TasksData.tasks td))); [|lia].
  split; [|split].
  - destruct (ConstraintsData.team_size _) as [n|] eqn:Hn; [|done].
    specialize (Hown n eq_refl).
    destruct (Z.ltb_spec n (Z.of_nat (size (unique_owners (TasksData.tasks td))))); [lia|done].
  - unfold duration_contradiction; cbn [description]. solve_contains.
  - intros d _ Htr. unfold duration_contradiction; cbn [description Py.truthy_str].
    rewrite Htr. cbn [default]. solve_contains.
Qed.

(** ** Witnesses and the spec's examples *)

Definition four_owners : TasksData.t := tasks_of ["Alice"; "Bob"; "Carol"; "Dave"] [].

Definition five_long_tasks : TasksData.t :=
  tasks_of ["Alice"; "Alice"; "Alice"; "Alice"; "Alice"]
    [Some 81%Z; Some 80%Z; Some 80%Z; Some 80%Z; Some 80%Z].

(** The owner rule at the spec's example: team size 2 and owners Alice,
    Bob, Carol and Dave. *)
Lemma owner_rule_precedence_witness :
  check TASKS_AND_SUBTASKS (RecTasks four_owners) (constraints_stage (Some 2%Z) None)
    = Some (owner_count_contradiction 2 (unique_owners (TasksData.tasks four_owners)))
  /\ Py.contains (Py.str_of_Z (Z.of_nat (size (unique_owners (TasksData.tasks four_owners)))))
       (description (owner_count_contradiction 2 (unique_owners (TasksData.tasks four_owners))))
     = true
  /\ Py.contains (Py.str_of_Z 2)
       (description (owner_count_contradiction 2 (unique_owners (TasksData.tasks four_owners))))
     = true.
Proof.
  apply (owner_rule_precedence four_owners (constraints_stage (Some 2%Z) None)
           (RecConstraints (ConstraintsData.mk None None (Some 2%Z) None [] [])) 2);
    [reflexivity|reflexivity|apply Z.ltb_lt; vm_compute; reflexivity].
Defined.

(** The description of that example quotes 4 and 2. *)
Example owner_rule_quotes_counts :
  option_map (fun c => Py.contains "4" (description c) && Py.contains "2" (description c))
    (check TASKS_AND_SUBTASKS (RecTasks four_owners) (constraints_stage (Some 2%Z) None))
  = Some true.
Proof. vm_compute. reflexivity. Qed.

Definition q2_constraints : StageRecord :=
  RecConstraints (ConstraintsData.mk (Some "Q2 2025") None None None [] []).

(** The duration rule at the repository's test: five tasks of 81 + 4 * 80
    = 401 days against the deadline "Q2 2025". *)
Lemma duration_rule_fires_witness :
  check TASKS_AND_SUBTASKS (RecTasks five_long_tasks) (constraints_stage None (Some "Q2 2025"))
    = Some (duration_contradiction (total_days (TasksData.tasks five_long_tasks))
              (ConstraintsData.deadline (ConstraintsData_of_record q2_constraints)))
  /\ Py.contains (Py.str_of_Z (total_days (TasksData.tasks five_long_tasks)))
       (description (duration_contradiction (total_days (TasksData.tasks five_long_tasks))
                       (ConstraintsData.deadline (ConstraintsData_of_record q2_constraints))))
     = true
  /\ (forall d, ConstraintsData.deadline (ConstraintsData_of_record q2_constraints) = Some d ->
        Py.truthy d = true ->
        Py.contains d (description (duration_contradiction
                                      (total_days (TasksData.tasks five_long_tasks)) (Some d)))
        = true).
Proof.
  apply (duration_rule_fires five_long_tasks (constraints_stage None (Some "Q2 2025"))
           q2_constraints).
  - reflexivity.
  - intros n Hn. discriminate Hn.
  - apply Z.ltb_lt. vm_compute. reflexivity.
Defined.

(** The description of that example quotes 401 and the deadline. *)
Example duration_rule_quotes_total :
  option_map (fun c => Py.contains "401" (description c) && Py.contains "Q2 2025" (description c))
    (check TASKS_AND_SUBTASKS (RecTasks five_long_tasks) (constraints_stage None (Some "Q2 2025")))
  = Some true.
Proof. vm_compute. reflexivity. Qed.

(** The spec's example: team size 2 and owners Alice, TBD, unassigned, Bob:
    the placeholders are not counted, so no contradiction. *)
Example placeholders_not_counted :
  check TASKS_AND_SUBTASKS (RecTasks (tasks_of ["Alice"; "TBD"; "unassigned"; "Bob"] []))
    (constraints_stage (Some 2%Z) None) = None.
Proof. vm_compute. reflexivity. Qed.

(** The boundary of the duration rule: 400 days pass. *)
Example duration_boundary_400 :
  check TASKS_AND_SUBTASKS (RecTasks (tasks_of ["Alice"; "Alice"] [Some 200%Z; Some 200%Z]))
    (constraints_stage None None) = None.
Proof. vm_compute. reflexivity. Qed.

(** Owners differing only in case and surrounding white space are one. *)
Example owners_normalised :
  size (unique_owners (TasksData.tasks (tasks_of ["Alice"; " alice "; "ALICE"; "n/a"] []))) = 1.
Proof. vm_compute. reflexivity. Qed.
