(* ===== verification/StateMachine.v ===== *)
(** * Sessions and the per-turn planning state machine

    [Session] and [ConversationMessage] of [src/app/models/session.py] and
    [PlanningStateMachine.process_message] of
    [src/app/agent/state_machine.py]. The two model calls of a turn (the
    reply of [generate_reply] and the extraction call of
    [attempt_extraction]) are the operations of an [Oracle]; the controller
    is a function of the oracle, the session and the user's message, and a
    turn either returns the reply and the session or raises, leaving the
    session with the user's message appended. Theorems: the session
    invariant and its preservation by every turn, reachability by rule
    induction, stage monotonicity, terminal absorption, the commit and
    reject branches, and progress. *)

From Stdlib Require Import Wellfounded.
From S2P Require Import Prelude Stage StageData Contradiction.
Import Stages Handlers ContradictionDetector.
Local Open Scope pm_scope.

Module ConversationMessage.
(** [class ConversationMessage]; the [timestamp] is not modelled. *)
Record t := mk { role : string; content : string }.
End ConversationMessage.

Module Session.

(** [class ProjectType(str, Enum)] *)
Inductive ProjectType := GENERAL | PROGRAM.

(** [class Session]; the clock fields [created_at] and [updated_at] are not
    modelled. *)
Record t := mk {
  session_id : string;
  project_type : option ProjectType;
  current_stage : PlanningStage;
  messages : list ConversationMessage.t;
  stage_data : gmap string StageRecord;
  is_complete : bool }.

(** [Session()] with the generated identifier [session_id]. *)
Definition new (session_id : string) : t :=
  mk session_id None DEFINE_OUTCOME [] ∅ false.

(** [Session.get_claude_messages] *)
Definition get_claude_messages (s : t) : list (string * string) :=
  map (fun m => (ConversationMessage.role m, ConversationMessage.content m)) (messages s).

(** [session.messages.append(ConversationMessage(role=role, content=content))] *)
Definition append_message (s : t) (role content : string) : t :=
  mk (session_id s) (project_type s) (current_stage s)
     (messages s ++ [ConversationMessage.mk role content]) (stage_data s) (is_complete s).

(** [session.stage_data[key] = record] *)
Definition set_stage_data (s : t) (key : string) (record : StageRecord) : t :=
  mk (session_id s) (project_type s) (current_stage s) (messages s)
     (<[key := record]> (stage_data s)) (is_complete s).

(** [Session.advance_stage] *)
Definition advance_stage (s : t) : t :=
  mk (session_id s) (project_type s) (Stages.advance_stage (current_stage s)) (messages s)
     (stage_data s) (is_complete s).

(** [session.is_complete = True] *)
Definition set_complete (s : t) : t :=
  mk (session_id s) (project_type s) (current_stage s) (messages s) (stage_data s) true.

End Session.

(** What a model call raises: the two Anthropic errors the chat route
    distinguishes, and any other exception. *)
Inductive APIError :=
  | APIStatusError (status_code : Z) (message : string)
  | APIConnectionError
  | OtherException (name : string).

(** The two model calls of a turn, as the controller sees them: the reply
    call of [BaseStageHandler.generate_reply] (the stage selects the system
    prompt; the text of [response.content[0]] or an exception), and the
    extraction call of [attempt_extraction] for a stage's handler (the stage's
    extraction prompt is appended to the messages). *)
Record Oracle := {
  generate_reply : PlanningStage -> list (string * string) -> APIError + string;
  extract : forall s : PlanningStage, list (string * string) -> ToolResponse (extraction_model s) }.

(** The result of [process_message]: the reply and the session, or the
    exception with the session object as the exception left it. *)
Inductive TurnResult :=
  | TurnOk (reply : string) (session : Session.t)
  | TurnRaised (error : APIError) (session : Session.t).

Module PlanningStateMachine.

Definition ALREADY_COMPLETE_REPLY : string :=
  "Your project plan is already complete! " +:+
  "Use `GET /api/v1/session/{session_id}/plan` to retrieve it.".

(** The reply that replaces the model's reply when a contradiction is found. *)
Definition contradiction_reply (c : Contradiction) : string :=
  "I noticed a potential conflict: " +:+ description c +:+ Py.nl +:+ Py.nl +:+
  clarification_question c.

(** Commit the extracted record, advance, and append the transition notice
    (steps 5b of [process_message]). *)
Definition commit (reply : string) (session : Session.t) (record : StageRecord)
    : string * Session.t :=
  let s1 := Session.advance_stage
              (Session.set_stage_data session (value (Session.current_stage session)) record) in
  let '(s2, transition) :=
    if decide (Session.current_stage s1 = COMPLETE)
    then (Session.set_complete s1, get_stage_transition_message COMPLETE)
    else (s1, get_stage_transition_message (Session.current_stage s1)) in
  (reply +:+ Py.nl +:+ Py.nl +:+ "---" +:+ Py.nl +:+ transition, s2).

(** [PlanningStateMachine.process_message] *)
Definition process_message (oracle : Oracle) (session : Session.t) (user_message : string)
    : TurnResult :=
  if decide (Session.current_stage session = COMPLETE) then
    let reply := ALREADY_COMPLETE_REPLY in
    TurnOk reply (Session.append_message
                    (Session.append_message session "user" user_message) "assistant" reply)
  else
    let session := Session.append_message session "user" user_message in
    match STAGE_HANDLER_CLASSES (Session.current_stage session) with
    | None => TurnRaised (OtherException "KeyError") session
    | Some handler =>
        match generate_reply oracle (stage handler) (Session.get_claude_messages session) with
        | inl e => TurnRaised e session
        | inr reply =>
            let extraction_result :=
              attempt_extraction handler
                (extract oracle (stage handler) (Session.get_claude_messages session)) in
            let '(reply, session) :=
              match extraction_result with
              | None => (reply, session)
              | Some data =>
                  match check (Session.current_stage session) (dump handler data)
                          (Session.stage_data session) with
                  | Some contradiction => (contradiction_reply contradiction, session)
                  | None => commit reply session (dump handler data)
                  end
              end in
            TurnOk reply (Session.append_message session "assistant" reply)
        end
    end.

End PlanningStateMachine.

Import PlanningStateMachine.

(** ** The session invariant *)

(** What every session the controller produces satisfies: the committed
    records are exactly those of the stages before the current one; the
    completion flag says whether the current stage is [COMPLETE]; each
    record sits under its own stage's key and passed that stage's
    completeness predicate; and a committed tasks record passes the
    contradiction check against the committed data. *)
Record session_inv (s : Session.t) : Prop := {
  inv_dom : forall k, is_Some (Session.stage_data s !! k)
                      <-> k ∈ map value (stages_before (Session.current_stage s));
  inv_complete : Session.is_complete s = bool_decide (Session.current_stage s = COMPLETE);
  inv_records : forall k r, Session.stage_data s !! k = Some r ->
                            k = value (Handlers.record_stage r) /\ Handlers.record_complete r = true;
  inv_consistent : forall td, Session.stage_data s !! value TASKS_AND_SUBTASKS = Some (RecTasks td) ->
                              check TASKS_AND_SUBTASKS (RecTasks td) (Session.stage_data s) = None }.

(** The sessions a conversation can reach: a new session, and the session
    after any turn that returns (a raising turn is not saved by the route). *)
Inductive reachable : Session.t -> Prop :=
  | reachable_new (id : string) : reachable (Session.new id)
  | reachable_turn (s : Session.t) (oracle : Oracle) (u r : string) (s' : Session.t) :
      reachable s -> process_message oracle s u = TurnOk r s' -> reachable s'.

Section Invariant.

Lemma inv_new (id : string) : session_inv (Session.new id).
Proof.
  split; simpl; intros *; rewrite ?lookup_empty; try done.
  split; [by intros []|cbv; set_solver].
Qed.

Lemma inv_append (s : Session.t) (role content : string) :
  session_inv s -> session_inv (Session.append_message s role content).
Proof. intros []. by split. Qed.

Lemma check_lookup_ext (r : StageRecord) (sd1 sd2 : gmap string StageRecord) :
  sd1 !! value STRATEGIC_CONSTRAINTS = sd2 !! value STRATEGIC_CONSTRAINTS ->
  check TASKS_AND_SUBTASKS r sd1 = check TASKS_AND_SUBTASKS r sd2.
Proof.
  intros H. destruct r; try reflexivity.
  rewrite !check_tasks_unfold. unfold _check_tasks_vs_constraints. by rewrite H.
Qed.

(** Committing a record that the stage's handler produced, that passed its
    completeness predicate and the contradiction check, keeps the invariant. *)
Lemma inv_commit (s : Session.t) (h : StageHandler) (d : extraction_model (stage h))
    (reply : string) :
  session_inv s -> Session.current_stage s <> COMPLETE ->
  STAGE_HANDLER_CLASSES (Session.current_stage s) = Some h ->
  _has_required_fields h d = true ->
  check (Session.current_stage s) (dump h d) (Session.stage_data s) = None ->
  session_inv (commit reply s (dump h d)).2.
Proof.
  intros [Hdom Hcpl Hrec Hcons] Hnc Hh Hreq Hchk.
  destruct (handler_dump _ h d Hh) as (_ & Hst & Hcomplete).
  set (cur := Session.current_stage s) in *.
  assert (Hfresh : Session.stage_data s !! value cur = None).
  { apply eq_None_not_Some. rewrite Hdom. apply value_not_before. }
  set (sd' := <[value cur := dump h d]> (Session.stage_data s)).
  assert (D : forall k, is_Some (sd' !! k) <-> k ∈ map value (stages_before (advance_stage cur))).
  { intros k. rewrite stages_before_advance_stage by done.
    rewrite map_app, elem_of_app, <- Hdom. unfold sd'. rewrite lookup_insert.
    cbn [map]. rewrite list_elem_of_singleton.
    destruct (decide (value cur = k)) as [<-|Hk]; [by split; [right|]|].
    split; [by left|]. intros [?|?]; [done|congruence]. }
  assert (R : forall k r, sd' !! k = Some r ->
                k = value (record_stage r) /\ record_complete r = true).
  { intros k r. unfold sd'. rewrite lookup_insert.
    destruct (decide (value cur = k)) as [<-|Hk].
    - intros [= <-]. split; [by rewrite Hst|by rewrite Hcomplete].
    - apply Hrec. }
  assert (K : forall td, sd' !! value TASKS_AND_SUBTASKS = Some (RecTasks td) ->
                check TASKS_AND_SUBTASKS (RecTasks td) sd' = None).
  { intros td. unfold sd'. rewrite lookup_insert.
    destruct (decide (value cur = value TASKS_AND_SUBTASKS)) as [Hk|Hk].
    - apply value_inj in Hk as Hk'. rewrite Hk' in Hchk. intros [= Htd].
      rewrite <- Htd, <- Hchk. apply check_lookup_ext.
      by rewrite lookup_insert_ne by (by rewrite Hk).
    - intros Htd. rewrite <- (Hcons td Htd). apply check_lookup_ext.
      rewrite lookup_insert_ne; [done|]. intros Heq. apply value_inj in Heq.
      assert (Hin : value TASKS_AND_SUBTASKS ∈ map value (stages_before cur))
        by (apply Hdom; by eexists).
      rewrite Heq in Hin. cbv in Hin. set_solver. }
  unfold commit. simpl. fold cur. fold sd'.
  destruct (decide (advance_stage cur = COMPLETE)) as [Hc|Hc]; split; simpl; try done.
  - by rewrite bool_decide_true.
  - by rewrite Hcpl, !bool_decide_false.
Qed.

(** Every returning turn is the "no commit" path or a commit of a record
    the stage's handler accepted and the detector let through. *)
Lemma process_message_ok_cases (oracle : Oracle) (s : Session.t) (u r : string) (s' : Session.t) :
  process_message oracle s u = TurnOk r s' ->
  exists s2, s' = Session.append_message s2 "assistant" r /\
  (s2 = Session.append_message s "user" u \/
   exists h d reply,
     Session.current_stage s <> COMPLETE
     /\ STAGE_HANDLER_CLASSES (Session.current_stage s) = Some h
     /\ _has_required_fields h d = true
     /\ check (Session.current_stage s) (dump h d) (Session.stage_data s) = None
     /\ (r, s2) = commit reply (Session.append_message s "user" u) (dump h d)).
Proof.
  unfold process_message. case_decide as Hc.
  { intros [= <- <-]. eauto. }
  simpl. destruct (STAGE_HANDLER_CLASSES _) as [h|] eqn:Hh; [|done].
  destruct (generate_reply _ _ _) as [e|reply]; [done|].
  unfold attempt_extraction.
  destruct (extract _ _ _) as [| |[d|]]; try (intros [= <- <-]; eauto).
  destruct (_has_required_fields h d) eqn:Hreq; [|intros [= <- <-]; eauto].
  destruct (check _ _ _) as [c|] eqn:Hchk; [intros [= <- <-]; eauto|].
  destruct (commit reply _ _) as [r2 s2] eqn:Hcm. intros [= <- <-].
  exists s2. split; [done|]. right. exists h, d, reply. by repeat split.
Qed.

Lemma commit_append (reply : string) (s : Session.t) (u : string) (rec : StageRecord) :
  commit reply (Session.append_message s "user" u) rec
  = let '(r, s2) := commit reply s rec in (r, Session.append_message s2 "user" u).
Proof. unfold commit. simpl. by case_decide. Qed.

Lemma commit_messages (reply : string) (s : Session.t) (rec : StageRecord) :
  Session.messages (commit reply s rec).2 = Session.messages s.
Proof. unfold commit. simpl. by case_decide. Qed.

Lemma commit_state (reply : string) (s : Session.t) (rec : StageRecord) :
  Session.current_stage (commit reply s rec).2 = advance_stage (Session.current_stage s)
  /\ Session.stage_data (commit reply s rec).2
     = <[value (Session.current_stage s) := rec]> (Session.stage_data s).
Proof. unfold commit. simpl. by case_decide. Qed.

(** The log of a returning turn: the user's message, then the reply. *)
Lemma process_message_ok_messages (oracle : Oracle) (s : Session.t) (u r : string) (s' : Session.t) :
  process_message oracle s u = TurnOk r s' ->
  Session.messages s' = Session.messages s ++
    [ConversationMessage.mk "user" u; ConversationMessage.mk "assistant" r].
Proof.
  intros (s2 & -> & [->|Hcm])%process_message_ok_cases; simpl.
  - by rewrite <- app_assoc.
  - destruct Hcm as (h & d & reply & _ & _ & _ & _ & Hcm).
    rewrite commit_append in Hcm.
    pose proof (commit_messages reply s (dump h d)) as Hm.
    destruct (commit reply s (dump h d)) as [r1 s1]. injection Hcm as -> ->.
    simpl in *. rewrite Hm. by rewrite <- app_assoc.
Qed.

(** A returning turn keeps the stage or moves it one step forward. *)
Lemma turn_stage (oracle : Oracle) (s : Session.t) (u r : string) (s' : Session.t) :
  process_message oracle s u = TurnOk r s' ->
  Session.current_stage s' = Session.current_stage s
  \/ (Session.current_stage s <> COMPLETE
      /\ Session.current_stage s' = advance_stage (Session.current_stage s)).
Proof.
  intros Hpm. destruct (process_message_ok_cases _ _ _ _ _ Hpm) as (s2 & -> & [->|Hcm]); [by left|].
  destruct Hcm as (h & d & reply & Hnc & _ & _ & _ & Hcm).
  rewrite commit_append in Hcm. pose proof (commit_state reply s (dump h d)) as [Hst _].
  destruct (commit reply s (dump h d)) as [r1 s1]. injection Hcm as -> ->. right. by split.
Qed.

Lemma process_message_inv (oracle : Oracle) (s : Session.t) (u r : string) (s' : Session.t) :
  session_inv s -> process_message oracle s u = TurnOk r s' -> session_inv s'.
Proof.
  intros Hinv Hpm. destruct (process_message_ok_cases _ _ _ _ _ Hpm) as (s2 & -> & [->|Hcm]).
  { by do 2 apply inv_append. }
  destruct Hcm as (h & d & reply & Hnc & Hh & Hreq & Hchk & Hcm).
  apply inv_append.
  rewrite commit_append in Hcm. destruct (commit reply s (dump h d)) as [r1 s1] eqn:E.
  injection Hcm as -> ->. apply inv_append.
  change s1 with (r1, s1).2. rewrite <- E. by apply inv_commit.
Qed.

End Invariant.

(** ** Scripted oracles and runs of several turns *)

(** An oracle that always replies and whose extraction call returns the
    given record for each stage (no tool use where there is none). *)
Definition scripted_oracle (answer : forall s : PlanningStage, option (extraction_model s))
  : Oracle :=
  {| generate_reply := fun _ _ => inr "Noted.";
     extract := fun s _ => match answer s with
                           | Some d => ToolUse (Some d)
                           | None => NoToolUse
                           end |}.

(** The records of the repository's test session, with the given project
    type and team size. *)
Definition sample_answer (project_type : string) (team_size : option Z)
    (s : PlanningStage) : option (extraction_model s) :=
  match s return option (extraction_model s) with
  | DEFINE_OUTCOME => Some (Samples.outcome project_type)
  | STRATEGIC_CONSTRAINTS => Some (Samples.constraints team_size)
  | PHASES_AND_MILESTONES => Some Samples.phases
  | TASKS_AND_SUBTASKS => Some Samples.tasks
  | RISK_AND_GOVERNANCE => Some Samples.risk_governance
  | COMPLETE => None
  end.

(** A record for each stage that passes its completeness predicate and,
    for the tasks stage, every owner-count check with a team size of at
    least 0: a single task owned by a placeholder. *)
Definition progress_answer (s : PlanningStage) : option (extraction_model s) :=
  match s return option (extraction_model s) with
  | TASKS_AND_SUBTASKS =>
      Some (TasksData.mk [TaskDefinition.mk "Plan" "Plan" (Some "TBD") None [] []])
  | s' => sample_answer "general" None s'
  end.

(** Run the user messages as successive turns, as long as they return. *)
Fixpoint run_turns (oracle : Oracle) (s : Session.t) (us : list string) : option Session.t :=
  match us with
  | [] => Some s
  | u :: us' =>
      match process_message oracle s u with
      | TurnOk _ s' => run_turns oracle s' us'
      | TurnRaised _ _ => None
      end
  end.

Lemma run_turns_reachable (oracle : Oracle) (s s' : Session.t) (us : list string) :
  reachable s -> run_turns oracle s us = Some s' -> reachable s'.
Proof.
  revert s. induction us as [|u us IH]; intros s Hs; simpl; [by intros [= <-]|].
  destruct (process_message oracle s u) as [r s1|] eqn:E; [|done].
  intros Hrun. apply (IH s1); [|done]. by apply (reachable_turn s oracle u r s1).
Qed.

Definition five_turns : list string :=
  ["We are launching an app."; "Budget and team are set."; "Two phases.";
   "Here are the tasks."; "Risks and governance."].

(** The session after the five turns of the test conversation. *)
Definition sample_session (project_type : string) (team_size : option Z) (turns : nat)
  : option Session.t :=
  run_turns (scripted_oracle (sample_answer project_type team_size)) (Session.new "s-1")
    (take turns five_turns).

Lemma process_message_commit (oracle : Oracle) (s : Session.t) (u reply : string)
    (h : StageHandler) (d : extraction_model (stage h)) :
  let s1 := Session.append_message s "user" u in
  Session.current_stage s <> COMPLETE ->
  STAGE_HANDLER_CLASSES (Session.current_stage s) = Some h ->
  generate_reply oracle (stage h) (Session.get_claude_messages s1) = inr reply ->
  attempt_extraction h (extract oracle (stage h) (Session.get_claude_messages s1)) = Some d ->
  check (Session.current_stage s) (dump h d) (Session.stage_data s) = None ->
  exists s',
    process_message oracle s u
      = TurnOk (reply +:+ Py.nl +:+ Py.nl +:+ "---" +:+ Py.nl +:+
                get_stage_transition_message (advance_stage (Session.current_stage s))) s'
    /\ Session.current_stage s' = advance_stage (Session.current_stage s)
    /\ Session.stage_data s' = <[value (Session.current_stage s) := dump h d]> (Session.stage_data s)
    /\ Session.is_complete s'
       = Session.is_complete s || bool_decide (advance_stage (Session.current_stage s) = COMPLETE).
Proof.
  intros s1 Hnc Hh Hrep Hext Hchk. unfold process_message.
  rewrite decide_False by done. simpl. rewrite Hh. fold s1. rewrite Hrep.
  rewrite Hext. simpl. rewrite Hchk. unfold commit. simpl.
  destruct (decide (advance_stage _ = COMPLETE)) as [Hc|Hc]; simpl.
  - rewrite <- Hc. eexists. split; [done|]. simpl. rewrite bool_decide_true by done.
    by rewrite orb_true_r.
  - eexists. split; [done|]. simpl. rewrite bool_decide_false by done.
    by rewrite orb_false_r.
Qed.

Lemma reachable_inv (s : Session.t) : reachable s -> session_inv s.
Proof.
  induction 1 as [id|s oracle u r s' _ IH Hpm]; [apply inv_new|].
  by apply (process_message_inv oracle s u r s').
Qed.

(** A complete session holds, under each stage's key, a record of that
    stage that passed the stage's completeness predicate. *)
Lemma complete_lookup (s : Session.t) (st : PlanningStage) :
  session_inv s -> Session.is_complete s = true -> st <> COMPLETE ->
  exists r, Session.stage_data s !! value st = Some r
            /\ Handlers.record_stage r = st /\ Handlers.record_complete r = true.
Proof.
  intros [Hdom Hcpl Hrec _] Hc Hst. rewrite Hc in Hcpl. symmetry in Hcpl.
  apply bool_decide_eq_true in Hcpl.
  destruct (proj2 (Hdom (value st))) as [r Hr].
  { rewrite Hcpl. apply list_elem_of_fmap_2. by apply stages_before_COMPLETE. }
  destruct (Hrec _ _ Hr) as [Hk Hok]. apply value_inj in Hk. by exists r.
Qed.

(** ** Theorems of the controller *)

(** C1: Invariant (rule induction over turns): every reachable session has
    committed records for exactly the stages before its current stage, is
    complete exactly at [COMPLETE], holds under each stage's key a record of
    that stage that passed the stage's completeness predicate, and holds no
    tasks record that contradicts the committed constraints. *)
Theorem reachable_session_inv (s : Session.t) : reachable s -> session_inv s.
Proof. apply reachable_inv. Qed.

(** C8: Terminal absorption: at [COMPLETE] a turn appends the user's message
    and the fixed notice and changes nothing else, whatever the oracle would
    answer (neither model call is made). The notice is a plain string, not
    an f-string: it shows the literal placeholder [{session_id}]. *)
Theorem complete_absorbs (oracle : Oracle) (s : Session.t) (u : string) :
  Session.current_stage s = COMPLETE ->
  process_message oracle s u
  = TurnOk ALREADY_COMPLETE_REPLY
      (Session.append_message (Session.append_message s "user" u)
         "assistant" ALREADY_COMPLETE_REPLY)
  /\ Py.contains "{session_id}" ALREADY_COMPLETE_REPLY = true.
Proof. intros H. unfold process_message. rewrite decide_True by done. by split. Qed.

(** C3: Commit branch: when the stage's handler accepts the extracted record
    and the detector finds no contradiction, the turn stores the record under
    the current stage's key, advances the stage, sets the completion flag on
    reaching [COMPLETE], and appends the transition notice of the new stage
    to the model's reply. *)
Theorem turn_commit (oracle : Oracle) (s : Session.t) (u reply : string)
    (h : StageHandler) (d : extraction_model (stage h)) :
  let s1 := Session.append_message s "user" u in
  Session.current_stage s <> COMPLETE ->
  STAGE_HANDLER_CLASSES (Session.current_stage s) = Some h ->
  generate_reply oracle (stage h) (Session.get_claude_messages s1) = inr reply ->
  attempt_extraction h (extract oracle (stage h) (Session.get_claude_messages s1)) = Some d ->
  check (Session.current_stage s) (dump h d) (Session.stage_data s) = None ->
  exists s',
    process_message oracle s u
      = TurnOk (reply +:+ Py.nl +:+ Py.nl +:+ "---" +:+ Py.nl +:+
                get_stage_transition_message (advance_stage (Session.current_stage s))) s'
    /\ Session.current_stage s' = advance_stage (Session.current_stage s)
    /\ Session.stage_data s' = <[value (Session.current_stage s) := dump h d]> (Session.stage_data s)
    /\ Session.is_complete s'
       = Session.is_complete s || bool_decide (advance_stage (Session.current_stage s) = COMPLETE).
Proof. apply process_message_commit. Qed.

(** C4: Reject branch: when the detector reports a contradiction, the turn
    replaces the reply by the conflict message and discards the record: the
    stage and the committed records are unchanged, only the two messages are
    appended. *)
Theorem turn_reject (oracle : Oracle) (s : Session.t) (u reply : string)
    (h : StageHandler) (d : extraction_model (stage h)) (c : Contradiction) :
  let s1 := Session.append_message s "user" u in
  Session.current_stage s <> COMPLETE ->
  STAGE_HANDLER_CLASSES (Session.current_stage s) = Some h ->
  generate_reply oracle (stage h) (Session.get_claude_messages s1) = inr reply ->
  attempt_extraction h (extract oracle (stage h) (Session.get_claude_messages s1)) = Some d ->
  check (Session.current_stage s) (dump h d) (Session.stage_data s) = Some c ->
  process_message oracle s u
    = TurnOk (contradiction_reply c)
        (Session.append_message s1 "assistant" (contradiction_reply c)).
Proof.
  intros s1 Hnc Hh Hrep Hext Hchk. unfold process_message.
  rewrite decide_False by done. simpl. rewrite Hh. fold s1. rewrite Hrep.
  rewrite Hext. simpl. by rewrite Hchk.
Qed.

(** C12: Incomplete extraction: when the extraction call raises, returns no
    tool use, fails validation, or yields a record that fails the stage's
    completeness predicate, the turn returns the model's reply and changes
    nothing but the message log. *)
Theorem turn_no_record (oracle : Oracle) (s : Session.t) (u reply : string) (h : StageHandler) :
  let s1 := Session.append_message s "user" u in
  Session.current_stage s <> COMPLETE ->
  STAGE_HANDLER_CLASSES (Session.current_stage s) = Some h ->
  generate_reply oracle (stage h) (Session.get_claude_messages s1) = inr reply ->
  attempt_extraction h (extract oracle (stage h) (Session.get_claude_messages s1)) = None ->
  process_message oracle s u = TurnOk reply (Session.append_message s1 "assistant" reply).
Proof.
  intros s1 Hnc Hh Hrep Hext. unfold process_message.
  rewrite decide_False by done. simpl. rewrite Hh. fold s1. rewrite Hrep. by rewrite Hext.
Qed.

(** C13: The message log: a returning turn appends exactly the user's message
    and then the reply; a raising turn (the reply call failed) leaves the
    user's message appended with no reply after it, and the stage and the
    committed records unchanged. *)
Theorem turn_log (oracle : Oracle) (s : Session.t) (u : string) :
  match process_message oracle s u with
  | TurnOk r s' =>
      Session.messages s' = Session.messages s ++
        [ConversationMessage.mk "user" u; ConversationMessage.mk "assistant" r]
  | TurnRaised _ s' =>
      Session.messages s' = Session.messages s ++ [ConversationMessage.mk "user" u]
      /\ Session.current_stage s' = Session.current_stage s
      /\ Session.stage_data s' = Session.stage_data s
  end.
Proof.
  destruct (process_message oracle s u) as [r s'|e s'] eqn:E.
  - by apply process_message_ok_messages in E.
  - revert E. unfold process_message. case_decide; [done|]. simpl.
    destruct (STAGE_HANDLER_CLASSES _); [|by intros [= <- <-]].
    destruct (generate_reply _ _ _); [by intros [= <- <-]|].
    destruct (attempt_extraction _ _) as [d|]; [|done].
    destruct (check _ _ _); [done|]. by destruct (commit _ _ _).
Qed.

(** One returning turn, with any oracle and any message. *)
Definition turn (s s' : Session.t) : Prop :=
  exists oracle u r, process_message oracle s u = TurnOk r s'.

(** C9: Stage monotonicity: a turn from a reachable session moves the stage
    forward by at most one step and never removes or revises a committed
    record. *)
Theorem turn_monotone (oracle : Oracle) (s : Session.t) (u r : string) (s' : Session.t) :
  reachable s -> process_message oracle s u = TurnOk r s' ->
  rank (Session.current_stage s) <= rank (Session.current_stage s') <= S (rank (Session.current_stage s))
  /\ Session.stage_data s ⊆ Session.stage_data s'.
Proof.
  intros Hr Hpm. destruct (reachable_inv s Hr) as [Hdom _ _ _].
  destruct (process_message_ok_cases _ _ _ _ _ Hpm) as (s2 & -> & [->|Hcm]).
  { simpl. split; [lia|done]. }
  destruct Hcm as (h & d & reply & Hnc & _ & _ & _ & Hcm).
  rewrite commit_append in Hcm. pose proof (commit_state reply s (dump h d)) as [Hst Hsd].
  destruct (commit reply s (dump h d)) as [r1 s1]. injection Hcm as -> ->. simpl in *.
  rewrite Hst, Hsd, rank_advance_stage by done. split; [lia|].
  apply insert_subseteq, eq_None_not_Some. rewrite Hdom. apply value_not_before.
Qed.

(** A turn that changes the stage, as a relation from the new session to
    the old one. *)
Definition stage_advance (s' s : Session.t) : Prop :=
  turn s s' /\ Session.current_stage s' <> Session.current_stage s.

(** C21: Termination of stage progress: the relation "a turn leads from
    session [s] to session [s'] with another stage" is well-founded, so
    there is no infinite chain of turns each of which changes the stage,
    whatever the oracle answers; the measure is the stage's rank, which
    every such turn raises. (Turns that keep the stage are not in the
    relation: with C9 they keep the rank.) *)
Theorem stage_progress_terminates : well_founded stage_advance.
Proof.
  apply (wf_incl _ _ (fun s' s => 5 - rank (Session.current_stage s')
                                  < 5 - rank (Session.current_stage s))).
  - intros s' s [(oracle & u & r & Hpm) Hne].
    destruct (turn_stage _ _ _ _ _ Hpm) as [Heq|[Hnc ->]]; [congruence|].
    rewrite rank_advance_stage by done. destruct (Session.current_stage s); simpl; [lia..|done].
  - apply (wf_inverse_image _ nat lt), lt_wf.
Qed.

(** C2: Safety of completed sessions: every reachable complete session holds
    a constraints record and a tasks record, and the tasks respect the
    constraints: distinct owners within the team size, durations within 400
    days. *)
Theorem complete_session_consistent (s : Session.t) :
  reachable s -> Session.is_complete s = true ->
  exists raw td,
    Session.stage_data s !! value STRATEGIC_CONSTRAINTS = Some raw
    /\ Session.stage_data s !! value TASKS_AND_SUBTASKS = Some (RecTasks td)
    /\ within_constraints (ConstraintsData_of_record raw) (TasksData.tasks td).
Proof.
  intros Hr Hc. pose proof (reachable_inv s Hr) as Hinv.
  destruct (complete_lookup s STRATEGIC_CONSTRAINTS Hinv Hc) as (raw & Hraw & _); [done|].
  destruct (complete_lookup s TASKS_AND_SUBTASKS Hinv Hc) as ([| | |td|] & Hrt & Hk & _);
    try done.
  exists raw, td. split_and!; [done|done|].
  apply (proj1 (tasks_check_ok_iff td _) (inv_consistent s Hinv td Hrt) raw Hraw).
Qed.

(** C11: Progress: from any stage before [COMPLETE], a turn whose extraction
    yields a complete record advances the stage, unless the committed team
    size is negative. *)
Theorem turn_progress (s : Session.t) :
  Session.current_stage s <> COMPLETE ->
  (forall raw n, Session.stage_data s !! value STRATEGIC_CONSTRAINTS = Some raw ->
     ConstraintsData.team_size (ConstraintsData_of_record raw) = Some n -> (0 <= n)%Z) ->
  exists r s', process_message (scripted_oracle progress_answer) s "continue" = TurnOk r s'
               /\ Session.current_stage s' = advance_stage (Session.current_stage s).
Proof.
  intros Hnc Hteam.
  assert (Hchk : forall (h : StageHandler) (d : extraction_model (stage h)),
            STAGE_HANDLER_CLASSES (Session.current_stage s) = Some h ->
            progress_answer (stage h) = Some d ->
            check (Session.current_stage s) (dump h d) (Session.stage_data s) = None).
  { intros h d Hh Hd. destruct (Session.current_stage s) eqn:Hc;
      try (apply check_stage_silent; done).
    injection Hh as <-. injection Hd as <-. apply tasks_check_ok_iff.
    intros raw Hraw. split; [|done].
    destruct (ConstraintsData.team_size _) as [n|] eqn:Hn; [|done].
    specialize (Hteam raw n Hraw Hn). vm_compute. destruct n; done. }
  destruct (STAGE_HANDLER_CLASSES_Some _ Hnc) as [h Hh].
  destruct (progress_answer (stage h)) as [d|] eqn:Hd;
    [|by (destruct (Session.current_stage s); simplify_eq/=)].
  destruct (process_message_commit (scripted_oracle progress_answer) s "continue" "Noted." h d)
    as (s' & Hpm & Hst & _); try done.
  - simpl. rewrite Hd. unfold attempt_extraction.
    by (destruct (Session.current_stage s); simplify_eq/=).
  - by apply Hchk.
  - eexists. by exists s'.
Qed.

(** C10: A liveness failure: once a negative team size is committed, the
    tasks stage can never be passed: every sequence of turns leaves the
    session at the tasks stage with the same committed records, since even a
    tasks record with no named owner has more owners (zero) than the team
    size. *)
Theorem negative_team_size_blocks (s : Session.t) (raw : StageRecord) (n : Z) :
  Session.current_stage s = TASKS_AND_SUBTASKS ->
  Session.stage_data s !! value STRATEGIC_CONSTRAINTS = Some raw ->
  ConstraintsData.team_size (ConstraintsData_of_record raw) = Some n ->
  (n < 0)%Z ->
  forall s', rtc turn s s' ->
  Session.current_stage s' = TASKS_AND_SUBTASKS /\ Session.stage_data s' = Session.stage_data s.
Proof.
  intros Hst Hraw Hn Hneg s' Hrtc. induction Hrtc as [s|s s1 s' Hturn _ IH]; [done|].
  destruct Hturn as (oracle & u & r & Hpm).
  destruct (process_message_ok_cases _ _ _ _ _ Hpm) as (s2 & -> & [->|Hcm]).
  { by apply IH. }
  exfalso. destruct Hcm as (h & d & reply & _ & Hh & _ & Hchk & _).
  rewrite Hst in Hh, Hchk. injection Hh as <-. simpl in Hchk.
  destruct (proj1 (tasks_check_ok_iff d _) Hchk raw Hraw) as [Hown _].
  rewrite Hn in Hown. lia.
Qed.

(** ** Witnesses *)

(** The test conversation after five turns: complete. *)
Definition sample_complete : Session.t :=
  default (Session.new "s-1") (sample_session "general" (Some 5%Z) 5).

(** The test conversation with a team size of -1 after three turns: at the
    tasks stage. *)
Definition sample_blocked : Session.t :=
  default (Session.new "s-1") (sample_session "general" (Some (-1)%Z) 3).

(** The test conversation with a team size of 1 after three turns. *)
Definition sample_small_team : Session.t :=
  default (Session.new "s-1") (sample_session "general" (Some 1%Z) 3).

Definition sample_oracle (team_size : option Z) : Oracle :=
  scripted_oracle (sample_answer "general" team_size).

Lemma sample_session_reachable (pt : string) (ts : option Z) (n : nat) (s : Session.t) :
  sample_session pt ts n = Some s -> reachable s.
Proof. apply run_turns_reachable. constructor. Qed.

Lemma sample_complete_reachable : reachable sample_complete.
Proof. apply (sample_session_reachable "general" (Some 5%Z) 5). vm_compute. reflexivity. Qed.

Lemma sample_blocked_reachable : reachable sample_blocked.
Proof. apply (sample_session_reachable "general" (Some (-1)%Z) 3). vm_compute. reflexivity. Qed.

Lemma reachable_session_inv_witness : session_inv sample_complete.
Proof. apply reachable_session_inv. exact sample_complete_reachable. Defined.

Lemma complete_absorbs_witness :
  process_message (sample_oracle None) sample_complete "Anything else?"
  = TurnOk ALREADY_COMPLETE_REPLY
      (Session.append_message (Session.append_message sample_complete "user" "Anything else?")
         "assistant" ALREADY_COMPLETE_REPLY)
  /\ Py.contains "{session_id}" ALREADY_COMPLETE_REPLY = true.
Proof. apply complete_absorbs. vm_compute. reflexivity. Defined.

Lemma turn_commit_witness :
  exists s',
    process_message (sample_oracle None) (Session.new "s-2") "Launch"
      = TurnOk ("Noted." +:+ Py.nl +:+ Py.nl +:+ "---" +:+ Py.nl +:+
                get_stage_transition_message (advance_stage DEFINE_OUTCOME)) s'
    /\ Session.current_stage s' = advance_stage DEFINE_OUTCOME
    /\ Session.stage_data s' = <[value DEFINE_OUTCOME := RecOutcome (Samples.outcome "general")]> ∅
    /\ Session.is_complete s' = false || bool_decide (advance_stage DEFINE_OUTCOME = COMPLETE).
Proof.
  apply (turn_commit (sample_oracle None) (Session.new "s-2") "Launch" "Noted."
           DefineOutcomeHandler (Samples.outcome "general")); reflexivity || discriminate.
Defined.

Lemma turn_reject_witness :
  let c := owner_count_contradiction 1 (unique_owners (TasksData.tasks Samples.tasks)) in
  process_message (sample_oracle (Some 1%Z)) sample_small_team "Tasks"
  = TurnOk (contradiction_reply c)
      (Session.append_message (Session.append_message sample_small_team "user" "Tasks")
         "assistant" (contradiction_reply c)).
Proof.
  apply (turn_reject (sample_oracle (Some 1%Z)) sample_small_team "Tasks" "Noted."
           TasksAndSubtasksHandler Samples.tasks); vm_compute; reflexivity || discriminate.
Defined.

Lemma turn_no_record_witness :
  process_message (scripted_oracle (fun _ => None)) (Session.new "s-3") "Hello"
  = TurnOk "Noted." (Session.append_message (Session.append_message (Session.new "s-3")
                                               "user" "Hello") "assistant" "Noted.").
Proof.
  apply (turn_no_record _ _ _ _ DefineOutcomeHandler); reflexivity || discriminate.
Defined.

Definition sample_step1 : Session.t :=
  default (Session.new "s-1") (sample_session "general" None 1).

Lemma turn_monotone_witness :
  rank (Session.current_stage (Session.new "s-1")) <= rank (Session.current_stage sample_step1)
    <= S (rank (Session.current_stage (Session.new "s-1")))
  /\ Session.stage_data (Session.new "s-1") ⊆ Session.stage_data sample_step1.
Proof.
  apply (turn_monotone (sample_oracle None) (Session.new "s-1") "We are launching an app."
           ("Noted." +:+ Py.nl +:+ Py.nl +:+ "---" +:+ Py.nl +:+
            get_stage_transition_message STRATEGIC_CONSTRAINTS)).
  - constructor.
  - vm_compute. reflexivity.
Defined.

Lemma complete_session_consistent_witness :
  exists raw td,
    Session.stage_data sample_complete !! value STRATEGIC_CONSTRAINTS = Some raw
    /\ Session.stage_data sample_complete !! value TASKS_AND_SUBTASKS = Some (RecTasks td)
    /\ within_constraints (ConstraintsData_of_record raw) (TasksData.tasks td).
Proof.
  apply complete_session_consistent; [exact sample_complete_reachable|vm_compute; reflexivity].
Defined.

Lemma turn_progress_witness :
  exists r s', process_message (scripted_oracle progress_answer) (Session.new "s-4") "continue"
               = TurnOk r s'
               /\ Session.current_stage s' = advance_stage DEFINE_OUTCOME.
Proof.
  apply (turn_progress (Session.new "s-4")); [discriminate|].
  intros raw n Hraw. discriminate Hraw.
Defined.

Definition blocked_reply : string :=
  contradiction_reply (owner_count_contradiction (-1) (unique_owners (TasksData.tasks Samples.tasks))).

(** One more turn at the blocked stage. *)
Definition sample_blocked_next : Session.t :=
  Session.append_message (Session.append_message sample_blocked "user" "Here are the tasks.")
    "assistant" blocked_reply.

Lemma negative_team_size_blocks_witness :
  Session.current_stage sample_blocked_next = TASKS_AND_SUBTASKS
  /\ Session.stage_data sample_blocked_next = Session.stage_data sample_blocked.
Proof.
  apply (negative_team_size_blocks sample_blocked
           (RecConstraints (Samples.constraints (Some (-1)%Z))) (-1)).
  - vm_compute. reflexivity.
  - vm_compute. reflexivity.
  - reflexivity.
  - lia.
  - apply rtc_once. exists (sample_oracle (Some (-1)%Z)), "Here are the tasks.", blocked_reply.
    vm_compute. reflexivity.
Defined.
