(* ===== verification/Adapter.v ===== *)
(** * The oracle adapter: the two model calls of a stage handler

    The requests [BaseStageHandler.generate_reply] and
    [BaseStageHandler.attempt_extraction] of [src/app/agent/stage_handlers.py]
    send through the Anthropic client, and how they read the response; the
    settings of [src/app/config.py] that choose the model. The client's
    [messages.create] is a [Client] (a request gives a list of content
    blocks or an API error), pydantic's JSON schema and validation are a
    [Pydantic] record; both stay abstract. [oracle_of] builds from them the
    [Oracle] the controller is proved against. Theorems: the reply call
    raises on a response without a text block first, the extraction call's
    errors are absorbed into "no record", and the prompt tables are defined
    exactly for the stages that have a handler. *)

From S2P Require Import Prelude Stage Prompts StageData Contradiction StateMachine.
Import Stages Prompts Handlers PlanningStateMachine.
Local Open Scope pm_scope.

Module Anthropic.

(** The JSON values a tool input or a schema is made of. *)
Inductive Json :=
  | JNull
  | JBool (b : bool)
  | JNumber (z : Z)
  | JString (s : string)
  | JArray (items : list Json)
  | JObject (fields : list (string * Json)).

(** The blocks of [response.content]. *)
Inductive ContentBlock :=
  | TextBlock (text : string)
  | ToolUseBlock (name : string) (input : Json)
  | OtherBlock (type : string).

Record Tool := mkTool { name : string; description : string; input_schema : Json }.

(** The arguments of [claude.messages.create]. *)
Record MessagesRequest := mkRequest {
  model : string;
  max_tokens : Z;
  system : string;
  messages : list (string * string);
  tools : list Tool;
  tool_choice : option string }.

(** [AsyncAnthropic]: [messages.create] answers the content blocks of the
    response or raises. *)
Record Client := { create : MessagesRequest -> APIError + list ContentBlock }.

End Anthropic.
Import Anthropic.

(** Pydantic on the extraction models: [model_json_schema()] and
    [model_validate(input)] ([None] for a [ValidationError]). *)
Record Pydantic := {
  model_json_schema : PlanningStage -> Json;
  model_validate : forall s : PlanningStage, Json -> option (extraction_model s) }.

(** [class Settings]: the fields the routes read, with their defaults;
    [anthropic_api_key] has no default. *)
Module Settings.
Record t := mk {
  app_env : string;
  log_level : string;
  anthropic_api_key : string;
  session_store : string;
  claude_model : string;
  claude_max_tokens : Z }.

Definition defaults (anthropic_api_key : string) : t :=
  mk "development" "INFO" anthropic_api_key "memory" "claude-opus-4-6" 2048.

(** [Settings.is_production] *)
Definition is_production (s : t) : bool := String.eqb (app_env s) "production".
End Settings.

Module BaseStageHandler.

(** [BaseStageHandler.__init__]: the client and the model settings. *)
Record config := mkConfig { claude : Client; model : string; max_tokens : Z }.

(** The configuration [PlanningStateMachine] gives its handlers in the chat
    route. *)
Definition config_of_settings (claude_client : Client) (settings : Settings.t) : config :=
  mkConfig claude_client (Settings.claude_model settings) (Settings.claude_max_tokens settings).

(** The request of [generate_reply]. *)
Definition reply_request (cfg : config) (system : string) (messages : list (string * string))
  : MessagesRequest :=
  mkRequest (model cfg) (max_tokens cfg) system messages [] None.

(** [BaseStageHandler.generate_reply]: [response.content[0].text]. *)
Definition generate_reply (cfg : config) (stage : PlanningStage)
    (messages : list (string * string)) : APIError + string :=
  match STAGE_SYSTEM_PROMPTS stage with
  | None => inl (OtherException "KeyError")
  | Some system =>
      match create (claude cfg) (reply_request cfg system messages) with
      | inl e => inl e
      | inr [] => inl (OtherException "IndexError")
      | inr (TextBlock text :: _) => inr text
      | inr (_ :: _) => inl (OtherException "AttributeError")
      end
  end.

(** The system prompt of the extraction call. *)
Definition EXTRACTION_SYSTEM : string :=
  "You are a data extraction assistant. Extract structured data from " +:+
  "the conversation and return ONLY a valid JSON object matching the " +:+
  "provided schema. Do not include any explanation or markdown fencing. " +:+
  "If a required string field has no value in the conversation, use " +:+
  "the string 'MISSING'. For optional fields, use null.".

(** The one tool of the extraction call, with the stage model's schema. *)
Definition extract_tool (schema : Json) : Tool :=
  mkTool "extract_stage_data" "Extract structured planning data from the conversation" schema.

(** The request of [attempt_extraction]: the conversation followed by the
    stage's extraction prompt as a user message. *)
Definition extraction_request (cfg : config) (schema : Json) (prompt : string)
    (messages : list (string * string)) : MessagesRequest :=
  mkRequest (model cfg) 2048 EXTRACTION_SYSTEM (messages ++ [("user", prompt)])
    [extract_tool schema] (Some "auto").

(** [next((b for b in response.content if b.type == "tool_use"), None)] *)
Fixpoint first_tool_use (content : list ContentBlock) : option Json :=
  match content with
  | [] => None
  | ToolUseBlock _ input :: _ => Some input
  | _ :: rest => first_tool_use rest
  end.

(** The model calls of [attempt_extraction] and what its [try] turns them
    into; the completeness test is [Handlers.attempt_extraction]. The
    lookup of the extraction prompt fails only at [COMPLETE], which has no
    handler. *)
Definition extraction_response (cfg : config) (py : Pydantic) (stage : PlanningStage)
    (messages : list (string * string)) : ToolResponse (extraction_model stage) :=
  match STAGE_EXTRACTION_PROMPTS stage with
  | None => ToolRaised
  | Some prompt =>
      match create (claude cfg)
              (extraction_request cfg (model_json_schema py stage) prompt messages) with
      | inl _ => ToolRaised
      | inr content =>
          match first_tool_use content with
          | None => NoToolUse
          | Some input => ToolUse (model_validate py stage input)
          end
      end
  end.

(** The oracle of a configured client. *)
Definition oracle_of (cfg : config) (py : Pydantic) : Oracle :=
  {| StateMachine.generate_reply := generate_reply cfg;
     StateMachine.extract := extraction_response cfg py |}.

End BaseStageHandler.
Import BaseStageHandler.

(** The prompt tables are defined exactly where a handler exists. *)
Lemma prompt_tables_domain (s : PlanningStage) :
  (is_Some (STAGE_SYSTEM_PROMPTS s) <-> is_Some (STAGE_HANDLER_CLASSES s))
  /\ (is_Some (STAGE_EXTRACTION_PROMPTS s) <-> is_Some (STAGE_HANDLER_CLASSES s)).
Proof. destruct s; split; split; intros [? Hx]; simplify_eq; by eexists. Qed.

(** C29: The adapter's error paths: a reply response without content makes
    the turn raise [IndexError] (the route answers 500), while any error of
    the extraction call is absorbed: the turn returns the reply and commits
    nothing. *)
Theorem adapter_error_paths (cfg : config) (py : Pydantic) (s : Session.t) (u system : string) :
  Session.current_stage s <> COMPLETE ->
  STAGE_SYSTEM_PROMPTS (Session.current_stage s) = Some system ->
  (create (claude cfg) (reply_request cfg system
                          (Session.get_claude_messages (Session.append_message s "user" u))) = inr [] ->
   process_message (oracle_of cfg py) s u
   = TurnRaised (OtherException "IndexError") (Session.append_message s "user" u))
  /\ (forall text rest prompt e,
        create (claude cfg) (reply_request cfg system
                               (Session.get_claude_messages (Session.append_message s "user" u)))
        = inr (TextBlock text :: rest) ->
        STAGE_EXTRACTION_PROMPTS (Session.current_stage s) = Some prompt ->
        create (claude cfg) (extraction_request cfg (model_json_schema py (Session.current_stage s)) prompt
                               (Session.get_claude_messages (Session.append_message s "user" u)))
        = inl e ->
        process_message (oracle_of cfg py) s u
        = TurnOk text (Session.append_message (Session.append_message s "user" u) "assistant" text)).
Proof.
  intros Hnc Hsys. unfold process_message. rewrite decide_False by done. cbn [Session.current_stage Session.append_message].
  destruct (Session.current_stage s) eqn:Hst; [..|done].
  all: cbn in Hsys |- *; injection Hsys as <-; unfold generate_reply, extraction_response; cbn.
  all: split; [intros Hc; by rewrite Hc|intros text rest prompt e Hc [= <-] He; by rewrite Hc, He].
Qed.

(** ** Witnesses *)

(** A client whose responses have no content, and pydantic that rejects
    every input. *)
Definition empty_client : Client := {| create := fun _ => inr [] |}.
Definition rejecting_pydantic : Pydantic :=
  {| model_json_schema := fun _ => JNull; model_validate := fun _ _ => None |}.
Definition default_config : config :=
  config_of_settings empty_client (Settings.defaults "sk-test").

Lemma adapter_error_paths_witness :
  Session.current_stage (Session.new "s-1") <> COMPLETE
  /\ STAGE_SYSTEM_PROMPTS (Session.current_stage (Session.new "s-1")) = Some STAGE_1_SYSTEM
  /\ (create (claude default_config)
        (reply_request default_config STAGE_1_SYSTEM
           (Session.get_claude_messages (Session.append_message (Session.new "s-1") "user" "hello")))
      = inr [] ->
      process_message (oracle_of default_config rejecting_pydantic) (Session.new "s-1") "hello"
      = TurnRaised (OtherException "IndexError")
          (Session.append_message (Session.new "s-1") "user" "hello"))
  /\ (forall text rest prompt e,
        create (claude default_config)
          (reply_request default_config STAGE_1_SYSTEM
             (Session.get_claude_messages (Session.append_message (Session.new "s-1") "user" "hello")))
        = inr (TextBlock text :: rest) ->
        STAGE_EXTRACTION_PROMPTS (Session.current_stage (Session.new "s-1")) = Some prompt ->
        create (claude default_config)
          (extraction_request default_config
             (model_json_schema rejecting_pydantic (Session.current_stage (Session.new "s-1"))) prompt
             (Session.get_claude_messages (Session.append_message (Session.new "s-1") "user" "hello")))
        = inl e ->
        process_message (oracle_of default_config rejecting_pydantic) (Session.new "s-1") "hello"
        = TurnOk text (Session.append_message
                         (Session.append_message (Session.new "s-1") "user" "hello") "assistant" text)).
Proof.
  split; [discriminate|]. split; [reflexivity|].
  apply adapter_error_paths; [discriminate|reflexivity].
Defined.
