(* ===== verification/Plan.v ===== *)
(** * Plan models and the plan compiler

    The pydantic models of [src/app/models/plan.py] (one Module per model)
    and [PlanCompiler] of [src/app/agent/plan_compiler.py]: [compile]
    re-parses the five committed records, groups the tasks by phase, builds
    the general (milestone list) or the program (pillar list) structure and
    the governance block. Theorems: the grouping is a filter by phase, the
    pillar grouping is a first-seen group-by, compilation succeeds on every
    reachable complete session and fails otherwise only on a missing key or
    a foreign record, and general plans attach each milestone's tasks. *)

From S2P Require Import Prelude Stage StageData Contradiction StateMachine.
Import Stages Handlers.
Local Open Scope pm_scope.

Module SubTask.
Record t := mk {
  name : string;
  owner : option string;
  timeline : option string;
  deliverable : option string;
  dependencies : list string }.
End SubTask.

Module Task.
Record t := mk {
  name : string;
  owner : option string;
  timeline : option string;
  duration_days : option Z;
  dependencies : list string;
  subtasks : list SubTask.t }.
End Task.

Module Milestone.
Record t := mk {
  name : string;
  deliverable : option string;
  timeline : option string;
  owner : option string;
  tasks : list Task.t }.
End Milestone.

Module Pillar.
Record t := mk {
  name : string;
  milestones : list Milestone.t }.
End Pillar.

Module Risk.
Record t := mk {
  description : string;
  severity : string;
  mitigation : option string }.
End Risk.

Module KPI.
Record t := mk {
  metric : string;
  target : option string;
  measurement_method : option string }.
End KPI.

Module GovernanceInfo.
Record t := mk {
  stakeholders : list string;
  kpis : list KPI.t;
  risks : list Risk.t;
  external_vendors : list string;
  review_cadence : option string }.
End GovernanceInfo.

Module ProjectPlan.
Record t := mk {
  project_name : string;
  project_type : string;
  success_definition : string;
  deadline : option string;
  budget : option string;
  team_size : option Z;
  methodology : option string;
  milestones : list Milestone.t;
  pillars : list Pillar.t;
  governance : option GovernanceInfo.t;
  generated_at : option string }.
End ProjectPlan.

Module PlanCompiler.

(** What [compile] raises on malformed stage data: a missing stage
    ([KeyError]) or a record that does not validate against the model. *)
Inductive CompileError :=
  | KeyError (key : string)
  | ValidationError (model : string).

(** [sd[key]] *)
Definition get_record (sd : gmap string StageRecord) (key : string) : CompileError + StageRecord :=
  match sd !! key with
  | Some raw => inr raw
  | None => inl (KeyError key)
  end.

(** [OutcomeData( **raw)] and the other re-parses. Only the dump of the same
    model has the required fields of [OutcomeData], [PhasesData],
    [TasksData] and [RiskGovernanceData]; [ConstraintsData] has none. *)
Definition parse_outcome (raw : StageRecord) : CompileError + OutcomeData.t :=
  match raw with RecOutcome d => inr d | _ => inl (ValidationError "OutcomeData") end.

Definition parse_phases (raw : StageRecord) : CompileError + PhasesData.t :=
  match raw with RecPhases d => inr d | _ => inl (ValidationError "PhasesData") end.

Definition parse_tasks (raw : StageRecord) : CompileError + TasksData.t :=
  match raw with RecTasks d => inr d | _ => inl (ValidationError "TasksData") end.

Definition parse_risk (raw : StageRecord) : CompileError + RiskGovernanceData.t :=
  match raw with
  | RecRiskGovernance d => inr d
  | _ => inl (ValidationError "RiskGovernanceData")
  end.

(** The loop [tasks_by_phase.setdefault(task_def.phase, []).append(task_def)]. *)
Definition tasks_by_phase (tasks : list TaskDefinition.t) : gmap string (list TaskDefinition.t) :=
  foldl (fun m t => <[TaskDefinition.phase t :=
                       default [] (m !! TaskDefinition.phase t) ++ [t]]> m) ∅ tasks.

(** The [SubTask(...)] of [_build_tasks]: the timeline is ["{d}d"] when the
    duration is truthy. *)
Definition build_subtask (st : SubTaskDefinition.t) : SubTask.t :=
  SubTask.mk (SubTaskDefinition.name st) (SubTaskDefinition.owner st)
    (match SubTaskDefinition.duration_days st with
     | Some d => if Py.truthy_int (Some d) then Some (Py.str_of_Z d +:+ "d") else None
     | None => None
     end)
    (SubTaskDefinition.deliverable st) (SubTaskDefinition.dependencies st).

(** [PlanCompiler._build_tasks] *)
Definition _build_tasks (task_defs : list TaskDefinition.t) : list Task.t :=
  map (fun t => Task.mk (TaskDefinition.name t) (TaskDefinition.owner t) None
                  (TaskDefinition.duration_days t) (TaskDefinition.dependencies t)
                  (map build_subtask (TaskDefinition.subtasks t))) task_defs.

(** The [Milestone(...)] built for a milestone definition, under [label]. *)
Definition build_milestone (tbp : gmap string (list TaskDefinition.t))
    (label : string) (ms : MilestoneDefinition.t) : Milestone.t :=
  Milestone.mk label (Some (MilestoneDefinition.deliverable ms))
    (MilestoneDefinition.timeline ms) (MilestoneDefinition.owner ms)
    (_build_tasks (default [] (tbp !! MilestoneDefinition.name ms))).

(** [PlanCompiler._build_general_structure]: the milestones of the plan. *)
Definition _build_general_structure (phases_data : PhasesData.t)
    (tbp : gmap string (list TaskDefinition.t)) : list Milestone.t :=
  map (fun ms => build_milestone tbp (MilestoneDefinition.name ms) ms)
    (PhasesData.milestones phases_data).

Definition PILLAR_SEPARATOR : string := " - ".

(** The pillar name and the milestone label of a milestone definition. *)
Definition pillar_and_label (phases_data : PhasesData.t) (ms : MilestoneDefinition.t)
  : string * string :=
  let name := MilestoneDefinition.name ms in
  if Py.contains PILLAR_SEPARATOR name then
    match Py.split_once PILLAR_SEPARATOR name with
    | Some (pillar_name, milestone_label) => (pillar_name, milestone_label)
    | None => (name, name)
    end
  else
    (match PhasesData.phases phases_data with
     | p :: _ => p
     | [] => "Program"
     end, name).

(** [if pillar_name not in pillars: pillars[pillar_name] = Pillar(...)];
    [pillars[pillar_name].milestones.append(milestone)], on the dict as the
    list of its values in insertion order. *)
Fixpoint add_to_pillar (pillars : list Pillar.t) (pillar_name : string) (m : Milestone.t)
  : list Pillar.t :=
  match pillars with
  | [] => [Pillar.mk pillar_name [m]]
  | p :: ps =>
      if String.eqb (Pillar.name p) pillar_name
      then Pillar.mk (Pillar.name p) (Pillar.milestones p ++ [m]) :: ps
      else p :: add_to_pillar ps pillar_name m
  end.

(** [PlanCompiler._build_program_structure]: the pillars of the plan. *)
Definition _build_program_structure (phases_data : PhasesData.t)
    (tbp : gmap string (list TaskDefinition.t)) : list Pillar.t :=
  foldl (fun pillars ms =>
           let '(pillar_name, milestone_label) := pillar_and_label phases_data ms in
           add_to_pillar pillars pillar_name (build_milestone tbp milestone_label ms))
    [] (PhasesData.milestones phases_data).

(** The [GovernanceInfo(...)] of [compile]. *)
Definition build_governance (risk_data : RiskGovernanceData.t) : GovernanceInfo.t :=
  GovernanceInfo.mk (RiskGovernanceData.stakeholders risk_data)
    (map (fun k => KPI.mk (KPIDefinition.metric k) (KPIDefinition.target k) None)
       (RiskGovernanceData.kpis risk_data))
    (map (fun r => Risk.mk (RiskDefinition.description r) (RiskDefinition.severity r)
                     (RiskDefinition.mitigation r))
       (RiskGovernanceData.risks risk_data))
    (RiskGovernanceData.external_vendors risk_data)
    (RiskGovernanceData.review_cadence risk_data).

(** The body of [PlanCompiler.compile] after the five re-parses: the
    [ProjectPlan(...)] with the scalar fields, the task grouping, the branch
    on the project type and the governance block. *)
Definition assemble (outcome : OutcomeData.t) (constraints : ConstraintsData.t)
    (phases_data : PhasesData.t) (tasks_data : TasksData.t)
    (risk_data : RiskGovernanceData.t) (generated_at : string) : ProjectPlan.t :=
  let tbp := tasks_by_phase (TasksData.tasks tasks_data) in
  let '(milestones, pillars) :=
    if String.eqb (OutcomeData.project_type outcome) "program"
    then ([], _build_program_structure phases_data tbp)
    else (_build_general_structure phases_data tbp, []) in
  ProjectPlan.mk (OutcomeData.project_name outcome) (OutcomeData.project_type outcome)
    (OutcomeData.success_definition outcome)
    (ConstraintsData.deadline constraints) (ConstraintsData.budget constraints)
    (ConstraintsData.team_size constraints) (ConstraintsData.methodology constraints)
    milestones pillars (Some (build_governance risk_data)) (Some generated_at).

(** [PlanCompiler.compile] on the session's [stage_data]; [generated_at] is
    the clock reading [datetime.now(timezone.utc).isoformat()]. *)
Definition compile (sd : gmap string StageRecord) (generated_at : string)
  : CompileError + ProjectPlan.t :=
  let* raw_outcome := get_record sd (value DEFINE_OUTCOME) in
  let* outcome := parse_outcome raw_outcome in
  let* raw_constraints := get_record sd (value STRATEGIC_CONSTRAINTS) in
  let constraints := ConstraintsData_of_record raw_constraints in
  let* raw_phases := get_record sd (value PHASES_AND_MILESTONES) in
  let* phases_data := parse_phases raw_phases in
  let* raw_tasks := get_record sd (value TASKS_AND_SUBTASKS) in
  let* tasks_data := parse_tasks raw_tasks in
  let* raw_risk := get_record sd (value RISK_AND_GOVERNANCE) in
  let* risk_data := parse_risk raw_risk in
  inr (assemble outcome constraints phases_data tasks_data risk_data generated_at).

End PlanCompiler.
Import PlanCompiler.

(** ** Grouping in first-seen order

    The specification of the pillar dict: the distinct keys in the order of
    their first occurrence, each with the values under it in order. *)
Fixpoint first_seen (l : list string) : list string :=
  match l with
  | [] => []
  | x :: xs => x :: filter (fun y => y <> x) (first_seen xs)
  end.

Definition group_first_seen (pairs : list (string * Milestone.t)) : list Pillar.t :=
  map (fun n => Pillar.mk n (map snd (filter (fun pm => pm.1 = n) pairs)))
    (first_seen (map fst pairs)).

Section Grouping.
Implicit Types (l ks : list string) (k : string) (m : Milestone.t).

Lemma elem_of_first_seen l x : x ∈ first_seen l <-> x ∈ l.
Proof.
  induction l as [|y l IH]; simpl; [done|].
  rewrite !elem_of_cons, list_elem_of_filter, IH. destruct (decide (x = y)); naive_solver.
Qed.

Lemma NoDup_first_seen l : NoDup (first_seen l).
Proof.
  induction l as [|y l IH]; simpl; constructor; [|by apply NoDup_filter].
  rewrite list_elem_of_filter. naive_solver.
Qed.

Lemma first_seen_snoc l k :
  first_seen (l ++ [k]) = if decide (k ∈ l) then first_seen l else first_seen l ++ [k].
Proof.
  induction l as [|y l IH]; simpl; [done|]. rewrite IH.
  destruct (decide (k ∈ l)), (decide (k ∈ y :: l));
    [done|exfalso; rewrite elem_of_cons in *; tauto| |];
    rewrite filter_app, filter_cons, filter_nil.
  - rewrite decide_False by (rewrite elem_of_cons in *; naive_solver). by rewrite app_nil_r.
  - rewrite decide_True by (intros ->; rewrite elem_of_cons in *; tauto). done.
Qed.

Lemma add_to_pillar_in (f : string -> list Milestone.t) ks k m :
  NoDup ks -> k ∈ ks ->
  add_to_pillar (map (fun n => Pillar.mk n (f n)) ks) k m
  = map (fun n => Pillar.mk n (if decide (n = k) then f n ++ [m] else f n)) ks.
Proof.
  induction 1 as [|x ks Hx Hnd IH]; [set_solver|]. intros Hk. simpl.
  destruct (String.eqb_spec x k) as [->|Hne].
  - rewrite decide_True by done. f_equal. apply map_ext_in. intros n Hn.
    rewrite decide_False; [done|]. intros ->. by apply Hx, list_elem_of_In.
  - rewrite decide_False by done. f_equal. apply IH. set_solver.
Qed.

Lemma add_to_pillar_notin (f : string -> list Milestone.t) ks k m :
  k ∉ ks ->
  add_to_pillar (map (fun n => Pillar.mk n (f n)) ks) k m
  = map (fun n => Pillar.mk n (f n)) ks ++ [Pillar.mk k [m]].
Proof.
  induction ks as [|x ks IH]; intros Hk; simpl; [done|].
  destruct (String.eqb_spec x k); [set_solver|]. f_equal. apply IH. set_solver.
Qed.

Lemma filter_fst_nil (pairs : list (string * Milestone.t)) k :
  k ∉ map fst pairs -> filter (fun pm => pm.1 = k) pairs = [].
Proof.
  induction pairs as [|[k' m'] pairs IH]; intros Hk; [done|].
  rewrite filter_cons, decide_False by set_solver. apply IH. set_solver.
Qed.

(** Appending a milestone to the dict refines appending the pair to the
    grouped list. *)
Lemma group_first_seen_snoc (pairs : list (string * Milestone.t)) k m :
  group_first_seen (pairs ++ [(k, m)]) = add_to_pillar (group_first_seen pairs) k m.
Proof.
  unfold group_first_seen. rewrite map_app. cbn [map fst]. rewrite first_seen_snoc.
  destruct (decide (k ∈ map fst pairs)) as [Hin|Hnin].
  - rewrite add_to_pillar_in by (apply NoDup_first_seen || by apply elem_of_first_seen).
    apply map_ext. intros n. rewrite filter_app, filter_cons, filter_nil, map_app. simpl.
    destruct (decide (k = n)), (decide (n = k)); simplify_eq; simpl; by rewrite ?app_nil_r.
  - rewrite add_to_pillar_notin by (by rewrite elem_of_first_seen). rewrite map_app. simpl.
    f_equal; [apply map_ext_in; intros n Hn%list_elem_of_In; rewrite filter_app, filter_cons, filter_nil, map_app; simpl;
              rewrite decide_False; [by rewrite app_nil_r|]; intros ->;
              by apply Hnin, elem_of_first_seen|].
    rewrite filter_app, filter_cons, filter_nil, decide_True by done. simpl.
    by rewrite filter_fst_nil.
Qed.

Lemma add_to_pillar_concat (ps : list Pillar.t) k m :
  concat (map Pillar.milestones (add_to_pillar ps k m))
  ≡ₚ concat (map Pillar.milestones ps) ++ [m].
Proof.
  induction ps as [|p ps IH]; simpl; [done|].
  destruct (String.eqb (Pillar.name p) k); simpl.
  - by rewrite <- !(assoc_L (++)), (comm (++) [m]).
  - rewrite IH. by rewrite (assoc_L (++)).
Qed.

End Grouping.

(** The (pillar name, milestone) pairs the loop of
    [_build_program_structure] files into the pillar dict, in order. *)
Definition labelled_milestones (pd : PhasesData.t) (tbp : gmap string (list TaskDefinition.t))
  : list (string * Milestone.t) :=
  map (fun ms => ((pillar_and_label pd ms).1, build_milestone tbp (pillar_and_label pd ms).2 ms))
    (PhasesData.milestones pd).

(** A plan with its timestamp replaced: the only field of [compile]'s result
    that does not come from the stage data. *)
Definition stamp (p : ProjectPlan.t) (generated_at : string) : ProjectPlan.t :=
  ProjectPlan.mk (ProjectPlan.project_name p) (ProjectPlan.project_type p)
    (ProjectPlan.success_definition p) (ProjectPlan.deadline p) (ProjectPlan.budget p)
    (ProjectPlan.team_size p) (ProjectPlan.methodology p) (ProjectPlan.milestones p)
    (ProjectPlan.pillars p) (ProjectPlan.governance p) (Some generated_at).

Section CompilerFacts.

Lemma tasks_by_phase_lookup_eq (ts : list TaskDefinition.t) (k : string) :
  tasks_by_phase ts !! k
  = match filter (fun t => TaskDefinition.phase t = k) ts with [] => None | l => Some l end.
Proof.
  induction ts as [|t ts IH] using rev_ind; [done|].
  unfold tasks_by_phase in *. rewrite foldl_app, filter_app, filter_cons, filter_nil. simpl.
  destruct (decide (TaskDefinition.phase t = k)) as [<-|Hne].
  - rewrite lookup_insert_eq, IH.
    by destruct (filter _ ts).
  - rewrite lookup_insert_ne, IH by done. by rewrite app_nil_r.
Qed.

Lemma tasks_by_phase_default (ts : list TaskDefinition.t) (k : string) :
  default [] (tasks_by_phase ts !! k) = filter (fun t => TaskDefinition.phase t = k) ts.
Proof. rewrite tasks_by_phase_lookup_eq. by destruct (filter _ ts). Qed.

Lemma group_first_seen_concat (pairs : list (string * Milestone.t)) :
  concat (map Pillar.milestones (group_first_seen pairs)) ≡ₚ map snd pairs.
Proof.
  induction pairs as [|[k m] pairs IH] using rev_ind; [done|].
  rewrite group_first_seen_snoc, add_to_pillar_concat, IH, map_app. done.
Qed.

Lemma build_program_structure_eq (pd : PhasesData.t) (tbp : gmap string (list TaskDefinition.t)) :
  _build_program_structure pd tbp = group_first_seen (labelled_milestones pd tbp).
Proof.
  unfold _build_program_structure, labelled_milestones.
  induction (PhasesData.milestones pd) as [|ms mss IH] using rev_ind; [done|].
  rewrite foldl_app, IH, map_app. simpl. rewrite group_first_seen_snoc.
  by destruct (pillar_and_label pd ms).
Qed.

Lemma compile_inr (sd : gmap string StageRecord) (g : string) (p : ProjectPlan.t) :
  compile sd g = inr p <->
  exists o rc ph td rg,
    sd !! value DEFINE_OUTCOME = Some (RecOutcome o)
    /\ sd !! value STRATEGIC_CONSTRAINTS = Some rc
    /\ sd !! value PHASES_AND_MILESTONES = Some (RecPhases ph)
    /\ sd !! value TASKS_AND_SUBTASKS = Some (RecTasks td)
    /\ sd !! value RISK_AND_GOVERNANCE = Some (RecRiskGovernance rg)
    /\ p = assemble o (ConstraintsData_of_record rc) ph td rg g.
Proof.
  split.
  - intros H. unfold compile in H. inv_sum_bind.
    unfold get_record, parse_outcome, parse_phases, parse_tasks, parse_risk in *.
    repeat (case_match; simplify_eq/=). by eexists _, _, _, _, _.
  - intros (o & rc & ph & td & rg & Ho & Hc & Hp & Ht & Hr & ->).
    unfold compile, get_record. by rewrite Ho, Hc, Hp, Ht, Hr.
Qed.

Lemma assemble_branches o c ph td rg g :
  let p := assemble o c ph td rg g in
  ProjectPlan.project_type p = OutcomeData.project_type o
  /\ ProjectPlan.generated_at p = Some g
  /\ (OutcomeData.project_type o = "program" ->
      ProjectPlan.milestones p = []
      /\ ProjectPlan.pillars p = _build_program_structure ph (tasks_by_phase (TasksData.tasks td)))
  /\ (OutcomeData.project_type o <> "program" ->
      ProjectPlan.pillars p = []
      /\ ProjectPlan.milestones p = _build_general_structure ph (tasks_by_phase (TasksData.tasks td))).
Proof.
  unfold assemble. destruct (String.eqb_spec (OutcomeData.project_type o) "program");
    simpl; naive_solver.
Qed.

Lemma program_structure_names (pd : PhasesData.t) (tbp : gmap string (list TaskDefinition.t)) :
  map Pillar.name (_build_program_structure pd tbp) = first_seen (map fst (labelled_milestones pd tbp)).
Proof.
  rewrite build_program_structure_eq. unfold group_first_seen. rewrite map_map. apply map_id.
Qed.

Lemma get_record_inl (sd : gmap string StageRecord) (k : string) (e : CompileError) :
  get_record sd k = inl e -> sd !! k = None /\ e = KeyError k.
Proof. unfold get_record. by case_match; intros [= <-]. Qed.

Lemma get_record_inr (sd : gmap string StageRecord) (k : string) (r : StageRecord) :
  get_record sd k = inr r -> sd !! k = Some r.
Proof. unfold get_record. by case_match; intros [= <-]. Qed.

(** A re-parse fails only on a record of another stage. *)
Definition parse_fails_on (st : PlanningStage) (raw : StageRecord) (e : CompileError) : Prop :=
  record_stage raw <> st /\ exists m, e = ValidationError m.

Lemma parse_inl (raw : StageRecord) (e : CompileError) :
  (parse_outcome raw = inl e -> parse_fails_on DEFINE_OUTCOME raw e)
  /\ (parse_phases raw = inl e -> parse_fails_on PHASES_AND_MILESTONES raw e)
  /\ (parse_tasks raw = inl e -> parse_fails_on TASKS_AND_SUBTASKS raw e)
  /\ (parse_risk raw = inl e -> parse_fails_on RISK_AND_GOVERNANCE raw e).
Proof. unfold parse_fails_on. destruct raw; split_and!; intros [= <-]; by eauto. Qed.

Lemma compile_restamp (sd : gmap string StageRecord) (g1 g2 : string) :
  compile sd g2 = sum_map id (fun p => stamp p g2) (compile sd g1).
Proof.
  unfold compile, get_record.
  destruct (sd !! value DEFINE_OUTCOME) as [[]|]; cbn [sum_bind parse_outcome]; try done.
  destruct (sd !! value STRATEGIC_CONSTRAINTS); cbn [sum_bind]; try done.
  destruct (sd !! value PHASES_AND_MILESTONES) as [[]|]; cbn [sum_bind parse_phases]; try done.
  destruct (sd !! value TASKS_AND_SUBTASKS) as [[]|]; cbn [sum_bind parse_tasks]; try done.
  destruct (sd !! value RISK_AND_GOVERNANCE) as [[]|]; cbn [sum_bind parse_risk]; try done.
  unfold assemble, stamp. cbn. by destruct (String.eqb _ _).
Qed.

End CompilerFacts.

(** The phases record of a reachable complete session has a milestone, so a
    compiled program plan has a pillar. *)
Lemma program_plan_has_pillars (s : Session.t) (g : string) (p : ProjectPlan.t) :
  reachable s -> Session.is_complete s = true -> compile (Session.stage_data s) g = inr p ->
  ProjectPlan.project_type p = "program" -> ProjectPlan.pillars p <> [].
Proof.
  intros Hr Hc (o & rc & ph & td & rg & _ & _ & Hph & _ & _ & ->)%compile_inr Hty.
  destruct (complete_lookup s PHASES_AND_MILESTONES (reachable_inv s Hr) Hc)
    as (r & Hr' & _ & Hok); [done|].
  rewrite Hph in Hr'. injection Hr' as <-.
  destruct (assemble_branches o (ConstraintsData_of_record rc) ph td rg g) as (Hty' & _ & Hprog & _).
  rewrite Hty' in Hty. destruct (Hprog Hty) as [_ ->]. intros Hnil.
  apply (f_equal (map Pillar.name)) in Hnil. rewrite program_structure_names in Hnil.
  unfold labelled_milestones in Hnil. simpl in Hok. unfold phases_has_required_fields in Hok.
  destruct (PhasesData.milestones ph); [by rewrite andb_false_r in Hok|done].
Qed.

(** ** Theorems of the plan compiler *)

(** Read the committed record of stage [st] of a complete session. *)
Ltac committed_record s st Hinv Hc :=
  let r := fresh "r" in let Hr := fresh "Hr" in let Hk := fresh "Hk" in
  destruct (complete_lookup s st Hinv Hc) as (r & Hr & Hk & _); [done|];
  try (destruct r; simpl in Hk; try discriminate Hk).

Lemma compile_complete_ok (s : Session.t) (g : string) :
  reachable s -> Session.is_complete s = true ->
  exists p, compile (Session.stage_data s) g = inr p /\ ProjectPlan.generated_at p = Some g.
Proof.
  intros Hr Hc. pose proof (reachable_inv s Hr) as Hinv.
  committed_record s DEFINE_OUTCOME Hinv Hc.
  destruct (complete_lookup s STRATEGIC_CONSTRAINTS Hinv Hc) as (rc & Hrc & _); [done|].
  committed_record s PHASES_AND_MILESTONES Hinv Hc.
  committed_record s TASKS_AND_SUBTASKS Hinv Hc.
  committed_record s RISK_AND_GOVERNANCE Hinv Hc.
  eexists. split; [apply compile_inr; eexists _, _, _, _, _; split_and!; eauto|].
  apply assemble_branches.
Qed.

(** C16: Liveness of the plan retrieval: on every reachable complete
    session, compilation succeeds (no [KeyError], no validation error) and
    stamps the plan with the clock reading. *)
Theorem compile_complete_session (s : Session.t) (g : string) :
  reachable s -> Session.is_complete s = true ->
  exists p, compile (Session.stage_data s) g = inr p /\ ProjectPlan.generated_at p = Some g.
Proof. apply compile_complete_ok. Qed.

(** C17: The task grouping is a filter by phase: the tasks under a phase
    name are the task definitions that declare that phase, in their order,
    and a phase name is a key exactly when some task declares it. *)
Theorem tasks_by_phase_spec (ts : list TaskDefinition.t) (k : string) :
  default [] (tasks_by_phase ts !! k) = filter (fun t => TaskDefinition.phase t = k) ts
  /\ (is_Some (tasks_by_phase ts !! k) <-> exists t, t ∈ ts /\ TaskDefinition.phase t = k).
Proof.
  split; [apply tasks_by_phase_default|]. rewrite tasks_by_phase_lookup_eq.
  destruct (filter _ ts) as [|t' l] eqn:Hf; split.
  - by intros [? ?].
  - intros (t & Ht & Hk). by destruct (filter_nil_not_elem_of _ _ t Hf Hk).
  - intros _. assert (Ht' : t' ∈ filter (fun t => TaskDefinition.phase t = k) ts)
      by (rewrite Hf; left). apply list_elem_of_filter in Ht'. naive_solver.
  - by eexists.
Qed.

(** C18: Program grouping: the pillars are the distinct pillar names of the
    milestones in first-seen order, and each pillar holds, in declared
    order, the milestones filed under its name. *)
Theorem program_structure_group (pd : PhasesData.t) (tbp : gmap string (list TaskDefinition.t)) :
  map Pillar.name (_build_program_structure pd tbp) = first_seen (map fst (labelled_milestones pd tbp))
  /\ (forall p, p ∈ _build_program_structure pd tbp ->
       Pillar.milestones p = map snd (filter (fun pm => pm.1 = Pillar.name p) (labelled_milestones pd tbp))).
Proof.
  split; [apply program_structure_names|]. rewrite build_program_structure_eq.
  intros p Hp. unfold group_first_seen in Hp. by apply list_elem_of_fmap in Hp as (n & -> & _).
Qed.

(** C19: No milestone is lost or duplicated by the program grouping: pillar
    names are distinct, a pillar exists exactly for the pillar names the
    milestones yield, and the pillars' milestones are a permutation of the
    labelled milestones. *)
Theorem program_structure_pillars (pd : PhasesData.t) (tbp : gmap string (list TaskDefinition.t)) :
  NoDup (map Pillar.name (_build_program_structure pd tbp))
  /\ (forall n, n ∈ map Pillar.name (_build_program_structure pd tbp)
                <-> exists ms, ms ∈ PhasesData.milestones pd /\ (pillar_and_label pd ms).1 = n)
  /\ concat (map Pillar.milestones (_build_program_structure pd tbp))
     ≡ₚ map snd (labelled_milestones pd tbp).
Proof.
  rewrite program_structure_names. split_and!.
  - apply NoDup_first_seen.
  - intros n. rewrite elem_of_first_seen. unfold labelled_milestones.
    rewrite map_map, list_elem_of_fmap. naive_solver.
  - rewrite build_program_structure_eq. apply group_first_seen_concat.
Qed.

(** C20: General plans: a compiled plan whose type is not ["program"] lists
    one milestone per milestone definition, in declared order and under the
    same name, each carrying exactly the tasks whose phase string equals
    that name, in task order (an unmatched phase string silently yields a
    milestone with no tasks). *)
Theorem compile_general (sd : gmap string StageRecord) (g : string) (p : ProjectPlan.t) :
  compile sd g = inr p -> ProjectPlan.project_type p <> "program" ->
  exists ph td,
    sd !! value PHASES_AND_MILESTONES = Some (RecPhases ph)
    /\ sd !! value TASKS_AND_SUBTASKS = Some (RecTasks td)
    /\ Forall2 (fun m ms =>
                  Milestone.name m = MilestoneDefinition.name ms
                  /\ Milestone.tasks m
                     = _build_tasks (filter (fun t => TaskDefinition.phase t = MilestoneDefinition.name ms)
                                       (TasksData.tasks td)))
               (ProjectPlan.milestones p) (PhasesData.milestones ph).
Proof.
  intros (o & rc & ph & td & rg & _ & _ & Hp & Ht & _ & ->)%compile_inr Hpt.
  destruct (assemble_branches o (ConstraintsData_of_record rc) ph td rg g) as (Hty & _ & _ & Hgen).
  rewrite Hty in Hpt. destruct (Hgen Hpt) as [_ ->].
  exists ph, td. split_and!; [done|done|].
  unfold _build_general_structure. apply Forall2_fmap_l, Forall_Forall2_diag, Forall_forall.
  intros ms _. split; [done|]. simpl. by rewrite tasks_by_phase_default.
Qed.

(** The two topologies are exclusive: a compiled ["program"] plan has
    no flat milestones, any other plan has no pillars. *)
Theorem compile_topology (sd : gmap string StageRecord) (g : string) (p : ProjectPlan.t) :
  compile sd g = inr p ->
  (ProjectPlan.project_type p = "program" -> ProjectPlan.milestones p = [])
  /\ (ProjectPlan.project_type p <> "program" -> ProjectPlan.pillars p = []).
Proof.
  intros (o & rc & ph & td & rg & _ & _ & _ & _ & _ & ->)%compile_inr.
  destruct (assemble_branches o (ConstraintsData_of_record rc) ph td rg g)
    as (-> & _ & Hprog & Hgen).
  split; [intros H; apply (Hprog H) | intros H; apply (Hgen H)].
Qed.

(** The milestone definition of the spec's assembly example. *)
Definition tech_mvp : MilestoneDefinition.t :=
  MilestoneDefinition.mk "Technology - MVP" "Deployed product" (Some "Q3") None.

(** The spec's assembly example: under project type ["program"] with no
    declared phases, the milestone ["Technology - MVP"] becomes the milestone
    ["MVP"] of the pillar ["Technology"]; under ["general"] it stays one flat
    milestone with its full name. *)
Example pillar_split_example (g : string) :
  ProjectPlan.pillars (assemble (Samples.outcome "program") ConstraintsData.default
                         (PhasesData.mk [] [tech_mvp]) (TasksData.mk []) Samples.risk_governance g)
  = [Pillar.mk "Technology" [Milestone.mk "MVP" (Some "Deployed product") (Some "Q3") None []]]
  /\ ProjectPlan.milestones (assemble (Samples.outcome "general") ConstraintsData.default
                               (PhasesData.mk [] [tech_mvp]) (TasksData.mk []) Samples.risk_governance g)
     = [Milestone.mk "Technology - MVP" (Some "Deployed product") (Some "Q3") None []]
  /\ ProjectPlan.pillars (assemble (Samples.outcome "general") ConstraintsData.default
                            (PhasesData.mk [] [tech_mvp]) (TasksData.mk []) Samples.risk_governance g)
     = [].
Proof. split_and!; vm_compute; reflexivity. Qed.

(** C23: Compilation errors: when [compile] raises, some stage's key is
    missing ([KeyError] on that key), or some stage other than the
    constraints stage holds a record of another stage (validation error);
    the constraints record never fails to validate. *)
Theorem compile_error_cases (sd : gmap string StageRecord) (g : string) (e : CompileError) :
  compile sd g = inl e ->
  exists st, st <> COMPLETE
    /\ ((sd !! value st = None /\ e = KeyError (value st))
        \/ (st <> STRATEGIC_CONSTRAINTS
            /\ exists r m, sd !! value st = Some r /\ Handlers.record_stage r <> st
                           /\ e = ValidationError m)).
Proof.
  intros H. unfold compile in H.
  repeat match goal with
  | H : sum_bind _ _ = inl _ |- _ => apply sum_bind_inl in H as [H|(? & ? & H)]
  end.
  all: match goal with
  | H : inr _ = inl _ |- _ => discriminate H
  | H : get_record _ (value ?st) = inl _ |- _ =>
      apply get_record_inl in H as [? ->]; exists st; split; [done|by left]
  | H : _ ?r = inl _, Hr : get_record _ (value ?st) = inr ?r |- _ =>
      destruct (parse_inl r e) as (P1 & P2 & P3 & P4);
      exists st; split; [done|right; split; [done|]];
      first [apply P1 in H | apply P2 in H | apply P3 in H | apply P4 in H];
      destruct H as [Hst [m ->]]; exists r, m; split_and!; [by apply get_record_inr|done|done]
  end.
Qed.

(** ** Witnesses *)

Definition sample_clock : string := "2026-03-01T09:00:00+00:00".

(** The stage data of [build_complete_session] with the given project type
    and milestone definitions. *)
Definition sample_stage_data (project_type : string) (phases : PhasesData.t)
  : gmap string StageRecord :=
  list_to_map [(value DEFINE_OUTCOME, RecOutcome (Samples.outcome project_type));
               (value STRATEGIC_CONSTRAINTS, RecConstraints (Samples.constraints (Some 5%Z)));
               (value PHASES_AND_MILESTONES, RecPhases phases);
               (value TASKS_AND_SUBTASKS, RecTasks Samples.tasks);
               (value RISK_AND_GOVERNANCE, RecRiskGovernance Samples.risk_governance)].

Definition sample_plan (project_type : string) (phases : PhasesData.t) : ProjectPlan.t :=
  assemble (Samples.outcome project_type) (Samples.constraints (Some 5%Z)) phases
    Samples.tasks Samples.risk_governance sample_clock.

Lemma compile_complete_session_witness :
  Session.is_complete sample_complete = true
  /\ exists p, compile (Session.stage_data sample_complete) sample_clock = inr p
               /\ ProjectPlan.generated_at p = Some sample_clock.
Proof.
  split; [vm_compute; reflexivity|].
  apply compile_complete_session; [apply sample_complete_reachable|vm_compute; reflexivity].
Defined.

Lemma compile_general_witness :
  compile (sample_stage_data "general" Samples.phases) sample_clock
    = inr (sample_plan "general" Samples.phases)
  /\ ProjectPlan.project_type (sample_plan "general" Samples.phases) <> "program"
  /\ exists ph td,
    sample_stage_data "general" Samples.phases !! value PHASES_AND_MILESTONES = Some (RecPhases ph)
    /\ sample_stage_data "general" Samples.phases !! value TASKS_AND_SUBTASKS = Some (RecTasks td)
    /\ Forall2 (fun m ms =>
                  Milestone.name m = MilestoneDefinition.name ms
                  /\ Milestone.tasks m
                     = _build_tasks (filter (fun t => TaskDefinition.phase t = MilestoneDefinition.name ms)
                                       (TasksData.tasks td)))
               (ProjectPlan.milestones (sample_plan "general" Samples.phases)) (PhasesData.milestones ph).
Proof.
  split; [vm_compute; reflexivity|]. split; [vm_compute; discriminate|].
  apply (compile_general (sample_stage_data "general" Samples.phases) sample_clock);
    [vm_compute; reflexivity|vm_compute; discriminate].
Defined.

Lemma compile_topology_witness :
  compile (sample_stage_data "program" Samples.program_phases) sample_clock
    = inr (sample_plan "program" Samples.program_phases)
  /\ (ProjectPlan.project_type (sample_plan "program" Samples.program_phases) = "program" ->
      ProjectPlan.milestones (sample_plan "program" Samples.program_phases) = [])
  /\ (ProjectPlan.project_type (sample_plan "program" Samples.program_phases) <> "program" ->
      ProjectPlan.pillars (sample_plan "program" Samples.program_phases) = []).
Proof.
  split; [vm_compute; reflexivity|].
  apply (compile_topology (sample_stage_data "program" Samples.program_phases) sample_clock).
  vm_compute; reflexivity.
Defined.

(** An outcome key holding a phases record. *)
Definition misfiled_stage_data : gmap string StageRecord :=
  {[value DEFINE_OUTCOME := RecPhases Samples.phases]}.

Lemma compile_error_cases_witness :
  compile misfiled_stage_data sample_clock = inl (ValidationError "OutcomeData")
  /\ exists st, st <> COMPLETE
    /\ ((misfiled_stage_data !! value st = None /\ ValidationError "OutcomeData" = KeyError (value st))
        \/ (st <> STRATEGIC_CONSTRAINTS
            /\ exists r m, misfiled_stage_data !! value st = Some r /\ Handlers.record_stage r <> st
                           /\ ValidationError "OutcomeData" = ValidationError m)).
Proof.
  split; [vm_compute; reflexivity|].
  apply (compile_error_cases misfiled_stage_data sample_clock). vm_compute; reflexivity.
Defined.

(** The program plan of the test suite: pillars [Technology] and [People],
    each with its one milestone. *)
Example program_sample_pillars :
  map Pillar.name (ProjectPlan.pillars (sample_plan "program" Samples.program_phases))
    = ["Technology"; "People"]
  /\ map (fun p => map Milestone.name (Pillar.milestones p))
       (ProjectPlan.pillars (sample_plan "program" Samples.program_phases))
     = [["MVP"]; ["Onboarding"]].
Proof. split; vm_compute; reflexivity. Qed.

(** The subtask of the test suite gets the timeline ["1d"]; a zero duration
    gets none. *)
Example subtask_timelines :
  SubTask.timeline (build_subtask (SubTaskDefinition.mk "Schedule interviews" None (Some 1%Z) [] None))
    = Some "1d"
  /\ SubTask.timeline (build_subtask (SubTaskDefinition.mk "Kickoff" None (Some 0%Z) [] None)) = None.
Proof. split; vm_compute; reflexivity. Qed.
