(* ===== verification/Renderer.v ===== *)
(** * The Markdown renderer

    [MarkdownRenderer] of [src/app/utils/markdown_renderer.py]: [render]
    builds a list of lines and joins them with newlines; a line may itself
    start with a newline (the headings of milestones, pillars and governance
    subsections). The lines are produced in three blocks: the header of
    scalar fields, the structure (pillars or flat milestones), and the
    governance section. Theorems: the governance subsections present
    exactly for the non-empty lists, the rendered structure of a compiled
    plan, and the heading collision by which a program milestone breaks the
    spec's "empty list, no header" on the text. *)

From S2P Require Import Prelude Stage StageData StateMachine Plan.
Local Open Scope pm_scope.

(** [s * n] for a string [s]. *)
Fixpoint str_repeat (s : string) (n : nat) : string :=
  match n with
  | O => EmptyString
  | S n' => s +:+ str_repeat s n'
  end.

(** [lines.append(x) if cond]: the line when the condition holds. *)
Definition line_if (cond : bool) (line : string) : list string :=
  if cond then [line] else [].

Module MarkdownRenderer.

(** The sub-task lines of [_render_milestone]. *)
Definition render_subtask (st : SubTask.t) : list string :=
  let st_parts :=
    [SubTask.name st]
    ++ (match SubTask.owner st with
        | Some o => line_if (Py.truthy o) ("Owner: " +:+ o)
        | None => []
        end)
    ++ (match SubTask.timeline st with
        | Some t => line_if (Py.truthy t) ("Timeline: " +:+ t)
        | None => []
        end) in
  ("  - " +:+ Py.join " | " st_parts)
  :: (match SubTask.deliverable st with
      | Some d => line_if (Py.truthy d) ("    - _Deliverable: " +:+ d +:+ "_")
      | None => []
      end).

(** The task lines of [_render_milestone]. *)
Definition render_task (task : Task.t) : list string :=
  let parts :=
    ["**" +:+ Task.name task +:+ "**"]
    ++ (match Task.owner task with
        | Some o => line_if (Py.truthy o) ("Owner: " +:+ o)
        | None => []
        end)
    ++ (match Task.duration_days task with
        | Some d => line_if (Py.truthy_int (Some d)) ("Duration: " +:+ Py.str_of_Z d +:+ "d")
        | None => []
        end) in
  (Py.nl +:+ "- " +:+ Py.join " | " parts)
  :: line_if (bool_decide (Task.dependencies task <> []))
       ("  - _Dependencies: " +:+ Py.join ", " (Task.dependencies task) +:+ "_")
  ++ concat (map render_subtask (Task.subtasks task)).

(** [MarkdownRenderer._render_milestone] *)
Definition _render_milestone (milestone : Milestone.t) (level : nat) : list string :=
  let hashes := str_repeat "#" level in
  (Py.nl +:+ hashes +:+ " " +:+ Milestone.name milestone)
  :: (match Milestone.deliverable milestone with
      | Some d => line_if (Py.truthy d) ("_Deliverable: " +:+ d +:+ "_")
      | None => []
      end)
  ++ (match Milestone.timeline milestone with
      | Some t => line_if (Py.truthy t) ("_Timeline: " +:+ t +:+ "_")
      | None => []
      end)
  ++ (match Milestone.owner milestone with
      | Some o => line_if (Py.truthy o) ("_Owner: " +:+ o +:+ "_")
      | None => []
      end)
  ++ concat (map render_task (Milestone.tasks milestone)).

(** The scalar header of [render], up to the rule ["---"]. *)
Definition header_lines (plan : ProjectPlan.t) : list string :=
  ["# " +:+ ProjectPlan.project_name plan;
   "**Type:** " +:+ Py.capitalize (ProjectPlan.project_type plan);
   "**Success Definition:** " +:+ ProjectPlan.success_definition plan]
  ++ (match ProjectPlan.deadline plan with
      | Some d => line_if (Py.truthy d) ("**Deadline:** " +:+ d)
      | None => []
      end)
  ++ (match ProjectPlan.budget plan with
      | Some b => line_if (Py.truthy b) ("**Budget:** " +:+ b)
      | None => []
      end)
  ++ (match ProjectPlan.team_size plan with
      | Some n => line_if (Py.truthy_int (Some n)) ("**Team Size:** " +:+ Py.str_of_Z n)
      | None => []
      end)
  ++ (match ProjectPlan.methodology plan with
      | Some m => line_if (Py.truthy m) ("**Methodology:** " +:+ m)
      | None => []
      end)
  ++ [EmptyString; "---"].

(** The lines of one pillar in the program structure. *)
Definition render_pillar (pillar : Pillar.t) : list string :=
  (Py.nl +:+ "## Pillar: " +:+ Pillar.name pillar)
  :: concat (map (fun m => _render_milestone m 3) (Pillar.milestones pillar)).

(** The branch of [render] on the project type. *)
Definition structure_lines (plan : ProjectPlan.t) : list string :=
  if String.eqb (ProjectPlan.project_type plan) "program"
     && bool_decide (ProjectPlan.pillars plan <> [])
  then "## Program Structure" :: concat (map render_pillar (ProjectPlan.pillars plan))
  else "## Project Plan" :: concat (map (fun m => _render_milestone m 2) (ProjectPlan.milestones plan)).

Definition STAKEHOLDERS_HEADER : string := Py.nl +:+ "### Stakeholders".
Definition KPIS_HEADER : string := Py.nl +:+ "### KPIs".
Definition RISKS_HEADER : string := Py.nl +:+ "### Risks".
Definition VENDORS_HEADER : string := Py.nl +:+ "### External Vendors / Dependencies".
Definition CADENCE_HEADER : string := Py.nl +:+ "### Review Cadence".

Definition render_kpi (kpi : KPI.t) : string :=
  let target_str :=
    match KPI.target kpi with
    | Some t => if Py.truthy t then " — Target: " +:+ t else EmptyString
    | None => EmptyString
    end in
  "- **" +:+ KPI.metric kpi +:+ "**" +:+ target_str.

Definition render_risk (risk : Risk.t) : list string :=
  let badge := "[" +:+ Py.upper (Risk.severity risk) +:+ "]" in
  ("- " +:+ badge +:+ " " +:+ Risk.description risk)
  :: (match Risk.mitigation risk with
      | Some m => line_if (Py.truthy m) ("  - _Mitigation: " +:+ m +:+ "_")
      | None => []
      end).

(** The governance section of [render]. *)
Definition governance_lines (gov : GovernanceInfo.t) : list string :=
  [Py.nl +:+ "---"; "## Governance & Risk"]
  ++ (if bool_decide (GovernanceInfo.stakeholders gov <> [])
      then STAKEHOLDERS_HEADER :: map (fun s => "- " +:+ s) (GovernanceInfo.stakeholders gov)
      else [])
  ++ (if bool_decide (GovernanceInfo.kpis gov <> [])
      then KPIS_HEADER :: map render_kpi (GovernanceInfo.kpis gov)
      else [])
  ++ (if bool_decide (GovernanceInfo.risks gov <> [])
      then RISKS_HEADER :: concat (map render_risk (GovernanceInfo.risks gov))
      else [])
  ++ (if bool_decide (GovernanceInfo.external_vendors gov <> [])
      then VENDORS_HEADER :: map (fun v => "- " +:+ v) (GovernanceInfo.external_vendors gov)
      else [])
  ++ (match GovernanceInfo.review_cadence gov with
      | Some c => line_if (Py.truthy c) (CADENCE_HEADER +:+ Py.nl +:+ c)
      | None => []
      end).

(** The list [lines] of [MarkdownRenderer.render] before the join. *)
Definition render_lines (plan : ProjectPlan.t) : list string :=
  header_lines plan ++ structure_lines plan
  ++ (match ProjectPlan.governance plan with
      | Some gov => governance_lines gov
      | None => []
      end).

(** [MarkdownRenderer.render] *)
Definition render (plan : ProjectPlan.t) : string := Py.join Py.nl (render_lines plan).

End MarkdownRenderer.
Import Stages PlanCompiler MarkdownRenderer.

(** ** Lines that start a section

    Every heading of the governance section starts with a newline; every
    line built from plan data there starts with ["-"] or a space. *)
Definition starts_nl (l : string) : bool :=
  match l with
  | String c _ => Ascii.eqb c (ascii_of_nat 10)
  | EmptyString => false
  end.

Section Lines.

Lemma starts_nl_app (a b : string) : a <> EmptyString -> starts_nl (a +:+ b) = starts_nl a.
Proof. destruct a as [|c a]; [done|]. by rewrite app_cons_pm. Qed.

(** A block [if cond: lines.append(header); lines += body]. *)
Lemma elem_of_block (b : bool) (h h' : string) (body : list string) :
  starts_nl h = true -> Forall (fun l => starts_nl l = false) body ->
  h ∈ (if b then h' :: body else []) <-> b = true /\ h = h'.
Proof.
  intros Hh Hbody. destruct b; [|set_solver]. rewrite elem_of_cons.
  split; [intros [->|Hin]; [done|] | intros [_ ->]; by left].
  rewrite Forall_forall in Hbody. specialize (Hbody h Hin). congruence.
Qed.

Lemma dash_lines (l : list string) :
  Forall (fun l => starts_nl l = false) (map (fun s => "- " +:+ s) l).
Proof.
  apply Forall_forall. intros x (y & -> & _)%list_elem_of_fmap. cbv beta. by rewrite app_cons_pm.
Qed.

Lemma render_kpi_dash (kpis : list KPI.t) :
  Forall (fun l => starts_nl l = false) (map render_kpi kpis).
Proof.
  apply Forall_forall. intros x (k & -> & _)%list_elem_of_fmap. cbv beta.
  unfold render_kpi. by rewrite app_cons_pm.
Qed.

Lemma render_risk_dash (risks : list Risk.t) :
  Forall (fun l => starts_nl l = false) (concat (map render_risk risks)).
Proof.
  apply Forall_concat, Forall_forall. intros ls (r & -> & _)%list_elem_of_fmap.
  unfold render_risk. constructor; [cbv beta; by rewrite app_cons_pm|].
  destruct (Risk.mitigation r) as [m|]; [|constructor].
  unfold line_if. destruct (Py.truthy m); repeat constructor. all: cbv beta; by rewrite app_cons_pm.
Qed.

Lemma strip_cadence_None (l : string) :
  starts_nl l = false -> Py.strip_prefix CADENCE_HEADER l = None.
Proof.
  unfold CADENCE_HEADER, Py.nl. rewrite app_cons_pm, app_nil_l_pm.
  destruct l as [|c l]; [done|]. cbn [starts_nl Py.strip_prefix]. intros Hc.
  destruct (Ascii.eqb _ c) eqn:E; [|done].
  apply Ascii.eqb_eq in E as <-. by rewrite Ascii.eqb_refl in Hc.
Qed.

Lemma cadence_line_ne (h c : string) :
  Py.strip_prefix CADENCE_HEADER h = None -> h <> CADENCE_HEADER +:+ Py.nl +:+ c.
Proof. intros Hh ->. by rewrite strip_prefix_app in Hh. Qed.

(** The governance headings present in the lines, for a heading that is
    none of the fixed lines and not the cadence line. *)
Lemma governance_header_iff (gov : GovernanceInfo.t) (h : string) :
  starts_nl h = true -> h <> Py.nl +:+ "---" -> h <> "## Governance & Risk" ->
  Py.strip_prefix CADENCE_HEADER h = None ->
  h ∈ governance_lines gov <->
  (GovernanceInfo.stakeholders gov <> [] /\ h = STAKEHOLDERS_HEADER)
  \/ (GovernanceInfo.kpis gov <> [] /\ h = KPIS_HEADER)
  \/ (GovernanceInfo.risks gov <> [] /\ h = RISKS_HEADER)
  \/ (GovernanceInfo.external_vendors gov <> [] /\ h = VENDORS_HEADER).
Proof.
  intros Hnl Hf1 Hf2 Hcad. unfold governance_lines.
  rewrite !elem_of_app, !elem_of_block, !bool_decide_eq_true
    by (done || apply dash_lines || apply render_kpi_dash || apply render_risk_dash).
  assert (h ∉ [Py.nl +:+ "---"; "## Governance & Risk"]) by set_solver.
  assert (h ∉ match GovernanceInfo.review_cadence gov with
              | Some c => line_if (Py.truthy c) (CADENCE_HEADER +:+ Py.nl +:+ c)
              | None => [] end).
  { destruct (GovernanceInfo.review_cadence gov) as [c|]; [|set_solver].
    unfold line_if. destruct (Py.truthy c); [|set_solver].
    rewrite list_elem_of_singleton. by apply cadence_line_ne. }
  naive_solver.
Qed.

Lemma block_no_cadence (b : bool) (h : string) (body : list string) (l : string) :
  l ∈ (if b then h :: body else []) ->
  Py.strip_prefix CADENCE_HEADER h = None -> Forall (fun l => starts_nl l = false) body ->
  Py.strip_prefix CADENCE_HEADER l = None.
Proof.
  intros Hl Hh Hbody. destruct b; [|set_solver].
  apply elem_of_cons in Hl as [->|Hl]; [done|]. apply strip_cadence_None.
  rewrite Forall_forall in Hbody. by apply Hbody.
Qed.

Lemma cadence_line_elem (gov : GovernanceInfo.t) (c : string) :
  GovernanceInfo.review_cadence gov = Some c -> Py.truthy c = true ->
  CADENCE_HEADER +:+ Py.nl +:+ c ∈ governance_lines gov.
Proof. intros Hc Ht. unfold governance_lines. rewrite Hc. unfold line_if. rewrite Ht. set_solver. Qed.

(** A substring of a governance line is a substring of the rendered text. *)
Lemma governance_line_in_render (p : ProjectPlan.t) (gov : GovernanceInfo.t) (x l : string) :
  ProjectPlan.governance p = Some gov -> Py.contains x l = true -> l ∈ governance_lines gov ->
  Py.contains x (render p) = true.
Proof.
  intros Hg Hx Hl. apply (contains_join _ _ l); [done|].
  unfold render_lines. rewrite Hg. set_solver.
Qed.

(** A line of one block of a [concat (map f l)] is a line of the whole. *)
Lemma elem_of_concat_map {A} (f : A -> list string) (l : list A) (x : A) (y : string) :
  x ∈ l -> y ∈ f x -> y ∈ concat (map f l).
Proof.
  rewrite !list_elem_of_In. intros Hx Hy. apply in_concat. exists (f x). split; [|done].
  by apply in_map.
Qed.

(** The heading line of a program milestone is in the rendered lines. *)
Lemma program_milestone_line (p : ProjectPlan.t) (pl : Pillar.t) (m : Milestone.t) :
  ProjectPlan.project_type p = "program" -> pl ∈ ProjectPlan.pillars p -> m ∈ Pillar.milestones pl ->
  Py.nl +:+ "###" +:+ " " +:+ Milestone.name m ∈ render_lines p.
Proof.
  intros Hty Hpl Hm. unfold render_lines, structure_lines. rewrite Hty.
  rewrite bool_decide_true by (intros Hnil; rewrite Hnil in Hpl; set_solver).
  rewrite String.eqb_refl. cbn [andb].
  rewrite !elem_of_app. right. left. apply elem_of_cons. right.
  apply (elem_of_concat_map _ _ pl); [done|]. unfold render_pillar. apply elem_of_cons. right.
  apply (elem_of_concat_map _ _ m); [done|]. unfold _render_milestone. by left.
Qed.

End Lines.

(** Concrete facts about the fixed headings, by evaluation. *)
Ltac heading_facts :=
  first [ vm_compute; reflexivity
        | apply String.eqb_neq; vm_compute; reflexivity ].

(** ** Theorems of the renderer *)

(** C24: Render completeness, on the governance section: each of the four
    list subsections has its heading line exactly when its list is
    non-empty, and a cadence line exactly when the cadence is a non-empty
    string. *)
Theorem render_governance_sections (gov : GovernanceInfo.t) :
  (STAKEHOLDERS_HEADER ∈ governance_lines gov <-> GovernanceInfo.stakeholders gov <> [])
  /\ (KPIS_HEADER ∈ governance_lines gov <-> GovernanceInfo.kpis gov <> [])
  /\ (RISKS_HEADER ∈ governance_lines gov <-> GovernanceInfo.risks gov <> [])
  /\ (VENDORS_HEADER ∈ governance_lines gov <-> GovernanceInfo.external_vendors gov <> [])
  /\ ((exists l, l ∈ governance_lines gov /\ is_Some (Py.strip_prefix CADENCE_HEADER l))
      <-> Py.truthy_str (GovernanceInfo.review_cadence gov) = true).
Proof.
  assert (Hne : STAKEHOLDERS_HEADER <> KPIS_HEADER /\ STAKEHOLDERS_HEADER <> RISKS_HEADER
                /\ STAKEHOLDERS_HEADER <> VENDORS_HEADER /\ KPIS_HEADER <> RISKS_HEADER
                /\ KPIS_HEADER <> VENDORS_HEADER /\ RISKS_HEADER <> VENDORS_HEADER)
    by (split_and!; heading_facts).
  destruct_and!. split_and!;
    try (rewrite governance_header_iff by heading_facts;
         split; [intros; destruct_or!; destruct_and!; congruence|intros; naive_solver]).
  split.
  - intros (l & Hl & Hpre). unfold governance_lines in Hl.
    rewrite !elem_of_app in Hl.
    destruct Hl as [Hl|[Hl|[Hl|[Hl|[Hl|Hl]]]]];
      try (exfalso; apply block_no_cadence in Hl;
           [rewrite Hl in Hpre; by destruct Hpre|heading_facts
           |first [apply dash_lines|apply render_kpi_dash|apply render_risk_dash]]).
    + exfalso. revert Hpre. repeat (apply elem_of_cons in Hl as [->|Hl]; [vm_compute; by intros []|]).
      set_solver.
    + destruct (GovernanceInfo.review_cadence gov) as [c|]; [|set_solver].
      unfold line_if in Hl. simpl. by destruct (Py.truthy c); [|set_solver].
  - destruct (GovernanceInfo.review_cadence gov) as [c|] eqn:Hc; [|done]. cbn [Py.truthy_str]. intros Ht.
    exists (CADENCE_HEADER +:+ Py.nl +:+ c). split; [by apply cadence_line_elem|].
    by rewrite strip_prefix_app.
Qed.

(** Render completeness in the text: when the plan has a governance
    block, each non-empty list puts its subsection heading in the rendered
    text, and so does a non-empty review cadence. *)
Theorem render_governance_text (p : ProjectPlan.t) (gov : GovernanceInfo.t) :
  ProjectPlan.governance p = Some gov ->
  (GovernanceInfo.stakeholders gov <> [] -> Py.contains STAKEHOLDERS_HEADER (render p) = true)
  /\ (GovernanceInfo.kpis gov <> [] -> Py.contains KPIS_HEADER (render p) = true)
  /\ (GovernanceInfo.risks gov <> [] -> Py.contains RISKS_HEADER (render p) = true)
  /\ (GovernanceInfo.external_vendors gov <> [] -> Py.contains VENDORS_HEADER (render p) = true)
  /\ (Py.truthy_str (GovernanceInfo.review_cadence gov) = true ->
      Py.contains CADENCE_HEADER (render p) = true).
Proof.
  intros Hg. split_and!;
    [intros Hne; apply (governance_line_in_render p gov _ _ Hg (contains_refl _));
     rewrite governance_header_iff by heading_facts; naive_solver..|].
  destruct (GovernanceInfo.review_cadence gov) as [c|] eqn:Hc; [|done]. intros Ht.
  apply (governance_line_in_render p gov _ _ Hg (contains_app_l _ _ (Py.nl +:+ c) (contains_refl _))).
  by apply cadence_line_elem.
Qed.

(** C26: Render completeness does not hold of the text: in every program
    plan with a pillar milestone labelled ["KPIs"] (the label of a
    milestone definition named ["<pillar> - KPIs"]) and a governance block
    with no KPIs, the governance section has no KPI heading, yet the
    rendered text contains the KPI heading line. The code renders a
    program milestone as ["### <label>"], the form of the governance
    subsection headings; the class docstring promises
    ["### Milestone: <label>"], which would not collide. *)
Theorem render_heading_collision (p : ProjectPlan.t) (pl : Pillar.t) (m : Milestone.t)
    (gov : GovernanceInfo.t) :
  ProjectPlan.project_type p = "program" -> pl ∈ ProjectPlan.pillars p ->
  m ∈ Pillar.milestones pl -> Milestone.name m = "KPIs" ->
  ProjectPlan.governance p = Some gov -> GovernanceInfo.kpis gov = [] ->
  KPIS_HEADER ∉ governance_lines gov /\ Py.contains KPIS_HEADER (render p) = true.
Proof.
  intros Hty Hpl Hm Hname Hg Hk. split.
  - assert (KPIS_HEADER <> STAKEHOLDERS_HEADER /\ KPIS_HEADER <> RISKS_HEADER
            /\ KPIS_HEADER <> VENDORS_HEADER) by (split_and!; heading_facts).
    rewrite governance_header_iff by heading_facts. naive_solver.
  - apply (contains_join _ _ KPIS_HEADER _ (contains_refl _)).
    pose proof (program_milestone_line p pl m Hty Hpl Hm) as Hl. by rewrite Hname in Hl.
Qed.

(** C27: The renderer takes the branch the compiler took: a plan compiled
    from a reachable complete session is rendered as a program structure
    exactly when its type is ["program"] (it then has a pillar), and as the
    flat milestone list otherwise. *)
Theorem render_compiled_structure (s : Session.t) (g : string) (p : ProjectPlan.t) :
  reachable s -> Session.is_complete s = true -> compile (Session.stage_data s) g = inr p ->
  structure_lines p
  = if String.eqb (ProjectPlan.project_type p) "program"
    then "## Program Structure" :: concat (map render_pillar (ProjectPlan.pillars p))
    else "## Project Plan" :: concat (map (fun m => _render_milestone m 2) (ProjectPlan.milestones p)).
Proof.
  intros Hr Hc Hp. unfold structure_lines.
  destruct (String.eqb_spec (ProjectPlan.project_type p) "program") as [Hty|]; [|done].
  rewrite bool_decide_true; [done|]. by apply (program_plan_has_pillars s g).
Qed.


(** The plan of [make_plan] in [src/tests/unit/test_markdown_renderer.py]. *)
Definition test_plan : ProjectPlan.t :=
  ProjectPlan.mk "Launch App" "general" "1000 active users" (Some "Q4 2026") None (Some 4%Z) None
    [Milestone.mk "MVP" (Some "Working app") (Some "Month 3") (Some "Tech Lead")
       [Task.mk "Build backend" (Some "Dev") None (Some 20%Z) []
          [SubTask.mk "Design DB schema" (Some "Dev") (Some "3d") None []]]]
    []
    (Some (GovernanceInfo.mk ["CEO"] [KPI.mk "DAU" (Some "1000") None]
             [Risk.mk "Scope creep" "medium" (Some "Strict backlog")] [] None))
    None.

(** The renderer's unit tests: the rendered test plan contains every
    string the tests assert. The task duration is printed as ["20d"], not
    as the docstring's ["20 days"], and the milestone heading has no
    ["Milestone:"] prefix. *)
Example render_unit_tests :
  Forall (fun x => Py.contains x (render test_plan) = true)
    ["# Launch App"; "## MVP"; "_Deliverable: Working app_"; "**Build backend**"; "Owner: Dev";
     "Duration: 20d"; "Design DB schema"; "Timeline: 3d"; "## Governance & Risk"; "CEO";
     "**DAU**"; "[MEDIUM] Scope creep"; "Strict backlog"]
  /\ Py.contains "Duration: 20 days" (render test_plan) = false
  /\ Py.contains "Milestone: MVP" (render test_plan) = false.
Proof. split_and!; [repeat constructor|..]; vm_compute; reflexivity. Qed.

(** ** Witnesses *)

(** The test conversation for a program, after five turns. *)
Definition program_complete : Session.t :=
  default (Session.new "s-1") (sample_session "program" (Some 5%Z) 5).

Definition program_complete_plan : ProjectPlan.t :=
  match compile (Session.stage_data program_complete) sample_clock with
  | inr p => p
  | inl _ => test_plan
  end.

Lemma render_compiled_structure_witness :
  reachable program_complete /\ Session.is_complete program_complete = true
  /\ compile (Session.stage_data program_complete) sample_clock = inr program_complete_plan
  /\ structure_lines program_complete_plan
     = if String.eqb (ProjectPlan.project_type program_complete_plan) "program"
       then "## Program Structure" :: concat (map render_pillar (ProjectPlan.pillars program_complete_plan))
       else "## Project Plan"
            :: concat (map (fun m => _render_milestone m 2) (ProjectPlan.milestones program_complete_plan)).
Proof.
  assert (Hr : reachable program_complete)
    by (apply (sample_session_reachable "program" (Some 5%Z) 5); vm_compute; reflexivity).
  split_and!; [exact Hr|vm_compute; reflexivity|vm_compute; reflexivity|].
  apply (render_compiled_structure program_complete sample_clock); [exact Hr|..];
    vm_compute; reflexivity.
Defined.


(** A program plan whose milestone definition ["Metrics - KPIs"] gives the
    pillar [Metrics] a milestone labelled ["KPIs"], with no KPIs recorded. *)
Definition kpi_milestone_plan : ProjectPlan.t :=
  assemble (Samples.outcome "program") ConstraintsData.default
    (PhasesData.mk ["Metrics"] [MilestoneDefinition.mk "Metrics - KPIs" "Dashboard" None None])
    (TasksData.mk [])
    (RiskGovernanceData.mk [RiskDefinition.mk "Key engineer leaves" "high" None] ["CEO"] [] [] None)
    "2026-03-01T09:00:00+00:00".

Definition kpi_milestone : Milestone.t := Milestone.mk "KPIs" (Some "Dashboard") None None [].
Definition kpi_pillar : Pillar.t := Pillar.mk "Metrics" [kpi_milestone].
Definition kpi_governance : GovernanceInfo.t :=
  GovernanceInfo.mk ["CEO"] [] [Risk.mk "Key engineer leaves" "high" None] [] None.

Lemma render_heading_collision_witness :
  ProjectPlan.project_type kpi_milestone_plan = "program"
  /\ kpi_pillar ∈ ProjectPlan.pillars kpi_milestone_plan
  /\ kpi_milestone ∈ Pillar.milestones kpi_pillar
  /\ Milestone.name kpi_milestone = "KPIs"
  /\ ProjectPlan.governance kpi_milestone_plan = Some kpi_governance
  /\ GovernanceInfo.kpis kpi_governance = []
  /\ KPIS_HEADER ∉ governance_lines kpi_governance
  /\ Py.contains KPIS_HEADER (render kpi_milestone_plan) = true.
Proof.
  assert (Hty : ProjectPlan.project_type kpi_milestone_plan = "program") by (vm_compute; reflexivity).
  assert (Hpl : kpi_pillar ∈ ProjectPlan.pillars kpi_milestone_plan).
  { assert (Hp : ProjectPlan.pillars kpi_milestone_plan = [kpi_pillar]) by (vm_compute; reflexivity).
    rewrite Hp. left. }
  assert (Hm : kpi_milestone ∈ Pillar.milestones kpi_pillar) by left.
  assert (Hg : ProjectPlan.governance kpi_milestone_plan = Some kpi_governance)
    by (vm_compute; reflexivity).
  split_and!; [exact Hty|exact Hpl|exact Hm|reflexivity|exact Hg|reflexivity|..];
    apply (render_heading_collision kpi_milestone_plan kpi_pillar kpi_milestone kpi_governance);
    first [exact Hty|exact Hpl|exact Hm|exact Hg|reflexivity].
Defined.
