(* ===== verification/Store.v ===== *)
(** * The session store

    [SessionStore] of [src/app/storage/base.py] as a class: the three
    operations [get], [save] and [delete] on an abstract store state, with
    the laws a key-value store keyed by [session_id] satisfies. The routes
    are proved against the class. [InMemorySessionStore] of
    [src/app/storage/memory_store.py] is its instance on a [gmap]: each
    operation runs under the store's lock, so it is one atomic state
    transition. [save] stores [session.model_dump(mode="json")] and [get]
    returns [Session( **data)], a fresh object: a session read from the store
    is a value, and changes to it reach the store only through [save]. *)

From S2P Require Import Prelude Stage StageData Contradiction StateMachine.
Local Open Scope pm_scope.

Module SessionStore.

(** [class SessionStore(ABC)] with its laws. *)
Class SessionStore (S : Type) := {
  get : S -> string -> option Session.t;
  save : S -> Session.t -> S;
  delete : S -> string -> S;
  get_save_same st s : get (save st s) (Session.session_id s) = Some s;
  get_save_other st s k : k <> Session.session_id s -> get (save st s) k = get st k;
  get_delete_same st k : get (delete st k) k = None;
  get_delete_other st k k' : k' <> k -> get (delete st k) k' = get st k'
}.

End SessionStore.

Module InMemorySessionStore.

(** [InMemorySessionStore._store]: the dict from session identifiers to the
    dumps of the sessions; the dump of a session parses back to it. *)
Record t := mk { _store : gmap string Session.t }.

(** [InMemorySessionStore()] *)
Definition new : t := mk ∅.

(** [InMemorySessionStore.get]: [Session( **data) if data else None]; a
    session's dump is a non-empty dict. *)
Definition get (st : t) (session_id : string) : option Session.t := _store st !! session_id.

(** [InMemorySessionStore.save] *)
Definition save (st : t) (session : Session.t) : t :=
  mk (<[Session.session_id session := session]> (_store st)).

(** [InMemorySessionStore.delete]: [self._store.pop(session_id, None)]. *)
Definition delete (st : t) (session_id : string) : t :=
  mk (base.delete session_id (_store st)).

End InMemorySessionStore.

(** The in-memory store implements the interface. *)
#[export] Instance in_memory_store : SessionStore.SessionStore InMemorySessionStore.t.
Proof.
  refine {| SessionStore.get := InMemorySessionStore.get;
           SessionStore.save := InMemorySessionStore.save;
           SessionStore.delete := InMemorySessionStore.delete |}.
  - intros st s. apply lookup_insert_eq.
  - intros st s k Hk. by apply lookup_insert_ne.
  - intros st k. apply lookup_delete_eq.
  - intros st k k' Hk. by apply lookup_delete_ne.
Defined.
