(* ===== verification/Api.v ===== *)
(** * The HTTP routes over the session store

    The route handlers of [src/app/api/routes] with the request and response
    schemas of [src/app/models/api_schemas.py], written against the
    [SessionStore] class: [chat] (load or create the session, run a turn,
    save), [get_plan], [get_session] and [delete_session]. An error response
    is an [HTTPException] with its status code; an exception the route does
    not catch becomes a 500 response ([RouteUnhandled]). The chat route
    awaits three times: [store.get] (or [store.save] of a new session), the
    model calls of [process_message], and [store.save]; two requests can
    interleave at these points, so [chat] is also given as two atomic store
    steps, [chat_load] and [chat_finish], and the concurrent system runs any
    interleaving of them. Theorems: the store invariant over every
    interleaving, refinement of the turn relation by the chat route, the
    error responses, the plan route on stored sessions, the lost update
    between two concurrent turns on one session, and that turns handled one
    after the other keep both exchanges. *)

From S2P Require Import Prelude Stage StageData Contradiction StateMachine Plan Renderer Store.
Import Stages Handlers PlanningStateMachine PlanCompiler MarkdownRenderer.
Local Open Scope pm_scope.

Module ChatRequest.
Record t := mk { session_id : option string; message : string }.
End ChatRequest.

Module ChatResponse.
Record t := mk {
  session_id : string;
  reply : string;
  current_stage : PlanningStage;
  stage_label : string;
  is_complete : bool;
  progress_percent : Z }.
End ChatResponse.

Module SessionSummary.
(** [SessionSummary]; the clock fields [created_at] and [updated_at] are
    not modelled. *)
Record t := mk {
  session_id : string;
  current_stage : PlanningStage;
  is_complete : bool }.
End SessionSummary.

Module PlanResponse.
Record t := mk {
  session_id : string;
  plan_json : ProjectPlan.t;
  plan_markdown : string }.
End PlanResponse.

(** What a route answers: its response model, an [HTTPException], or an
    exception it does not catch (a 500 response). *)
Inductive RouteResult (A : Type) :=
  | RouteOk (body : A)
  | RouteHTTPError (status_code : Z) (detail : string)
  | RouteUnhandled (exception : string).
Arguments RouteOk {A} body.
Arguments RouteHTTPError {A} status_code detail.
Arguments RouteUnhandled {A} exception.

Definition SESSION_NOT_FOUND {A} : RouteResult A := RouteHTTPError 404 "Session not found".

Module Routes.
Section Routes.
Context {S : Type} `{!SessionStore.SessionStore S}.

(** The [except] clauses of [chat] around [process_message]. *)
Definition chat_error {A} (e : APIError) : RouteResult A :=
  match e with
  | APIStatusError status_code message =>
      if (status_code =? 400)%Z && Py.contains "credit" (Py.lower message)
      then RouteHTTPError 503
             ("The AI service is unavailable: insufficient API credits. " +:+
              "Please add credits at console.anthropic.com.")
      else RouteHTTPError 502 ("AI service error: " +:+ message)
  | APIConnectionError => RouteHTTPError 503 "Could not reach the AI service. Please retry."
  | OtherException name => RouteUnhandled name
  end.

(** The [ChatResponse(...)] of [chat] for the saved session. *)
Definition chat_response (reply : string) (s : Session.t) : ChatResponse.t :=
  ChatResponse.mk (Session.session_id s) reply (Session.current_stage s)
    (default EmptyString (STAGE_LABELS (value (Session.current_stage s))))
    (Session.is_complete s) (_progress (value (Session.current_stage s))).

(** The first part of [chat], up to [process_message]: the session named by
    the request, or a new session (identifier [fresh_id]) saved at once. *)
Definition chat_load (st : S) (request : ChatRequest.t) (fresh_id : string)
  : RouteResult ChatResponse.t + Session.t * S :=
  let create := inr (Session.new fresh_id, SessionStore.save st (Session.new fresh_id)) in
  match ChatRequest.session_id request with
  | Some id =>
      if Py.truthy id then
        match SessionStore.get st id with
        | Some session => inr (session, st)
        | None => inl SESSION_NOT_FOUND
        end
      else create
  | None => create
  end.

(** The rest of [chat]: the turn on the loaded session, then
    [store.save(updated_session)] on the store as it is when the turn
    returns. *)
Definition chat_finish (st : S) (oracle : Oracle) (session : Session.t) (message : string)
  : RouteResult ChatResponse.t * S :=
  match process_message oracle session message with
  | TurnRaised e _ => (chat_error e, st)
  | TurnOk reply updated_session =>
      (RouteOk (chat_response reply updated_session), SessionStore.save st updated_session)
  end.

(** [chat], run without interleaving. *)
Definition chat (st : S) (oracle : Oracle) (request : ChatRequest.t) (fresh_id : string)
  : RouteResult ChatResponse.t * S :=
  match chat_load st request fresh_id with
  | inl err => (err, st)
  | inr (session, st1) => chat_finish st1 oracle session (ChatRequest.message request)
  end.

Definition compile_error_name (e : CompileError) : string :=
  match e with
  | KeyError _ => "KeyError"
  | ValidationError _ => "ValidationError"
  end.

(** [get_plan]; [generated_at] is the clock reading of [compile]. *)
Definition get_plan (st : S) (session_id : string) (generated_at : string)
  : RouteResult PlanResponse.t :=
  match SessionStore.get st session_id with
  | None => SESSION_NOT_FOUND
  | Some session =>
      if negb (Session.is_complete session) then
        RouteHTTPError 422
          ("Plan not yet complete. Currently at stage: " +:+
           value (Session.current_stage session) +:+ ". " +:+
           "Continue the conversation to finish all 5 stages.")
      else
        match compile (Session.stage_data session) generated_at with
        | inl e => RouteUnhandled (compile_error_name e)
        | inr plan => RouteOk (PlanResponse.mk session_id plan (render plan))
        end
  end.

(** [get_session] *)
Definition get_session (st : S) (session_id : string) : RouteResult SessionSummary.t :=
  match SessionStore.get st session_id with
  | None => SESSION_NOT_FOUND
  | Some session =>
      RouteOk (SessionSummary.mk (Session.session_id session) (Session.current_stage session)
                 (Session.is_complete session))
  end.

(** [delete_session] *)
Definition delete_session (st : S) (session_id : string) : RouteResult unit * S :=
  match SessionStore.get st session_id with
  | None => (SESSION_NOT_FOUND, st)
  | Some _ => (RouteOk tt, SessionStore.delete st session_id)
  end.

End Routes.
End Routes.
Import Routes.

(** ** The concurrent system

    A state of the service is the store and the sessions loaded by chat
    requests that have not yet saved. A step is one atomic store action of
    a request: the load of a chat (which may save a new session), the final
    save of a pending chat (on the store as it is then), or a deletion; the
    read-only routes do not change the state. *)
Section Concurrent.
Context {S : Type} `{!SessionStore.SessionStore S}.

Inductive step : S * list Session.t -> S * list Session.t -> Prop :=
  | step_load (st st' : S) (pending : list Session.t) (request : ChatRequest.t)
      (fresh_id : string) (session : Session.t) :
      chat_load st request fresh_id = inr (session, st') ->
      step (st, pending) (st', session :: pending)
  | step_finish (st st' : S) (pending1 pending2 : list Session.t) (session : Session.t)
      (oracle : Oracle) (message : string) (result : RouteResult ChatResponse.t) :
      chat_finish st oracle session message = (result, st') ->
      step (st, pending1 ++ session :: pending2) (st', pending1 ++ pending2)
  | step_delete (st st' : S) (pending : list Session.t) (session_id : string)
      (result : RouteResult unit) :
      delete_session st session_id = (result, st') ->
      step (st, pending) (st', pending).

(** Every stored session is reachable by turns and stored under its own
    identifier. *)
Definition store_inv (st : S) : Prop :=
  forall k s, SessionStore.get st k = Some s -> reachable s /\ Session.session_id s = k.

Lemma process_message_session_id (oracle : Oracle) (s : Session.t) (u r : string) (s' : Session.t) :
  process_message oracle s u = TurnOk r s' -> Session.session_id s' = Session.session_id s.
Proof.
  intros (s2 & -> & [->|(h & d & reply & _ & _ & _ & _ & Hc)])%process_message_ok_cases; [done|].
  unfold commit in Hc. destruct (decide _); by injection Hc as _ ->.
Qed.

Lemma store_inv_save (st : S) (s : Session.t) :
  store_inv st -> reachable s -> store_inv (SessionStore.save st s).
Proof.
  intros Hinv Hr k s'. destruct (decide (k = Session.session_id s)) as [->|Hk].
  - rewrite SessionStore.get_save_same. by intros [= <-].
  - rewrite SessionStore.get_save_other by done. apply Hinv.
Qed.

Lemma store_inv_delete (st : S) (k : string) : store_inv st -> store_inv (SessionStore.delete st k).
Proof.
  intros Hinv k' s'. destruct (decide (k' = k)) as [->|Hk].
  - by rewrite SessionStore.get_delete_same.
  - rewrite SessionStore.get_delete_other by done. apply Hinv.
Qed.

Lemma chat_load_inv (st st' : S) (request : ChatRequest.t) (fresh_id : string) (s : Session.t) :
  store_inv st -> chat_load st request fresh_id = inr (s, st') -> store_inv st' /\ reachable s.
Proof.
  intros Hinv. unfold chat_load.
  assert (Hnew : store_inv (SessionStore.save st (Session.new fresh_id)) /\ reachable (Session.new fresh_id))
    by (split; [apply store_inv_save|]; auto using reachable_new).
  destruct (ChatRequest.session_id request) as [id|]; [|by intros [= <- <-]].
  destruct (Py.truthy id); [|by intros [= <- <-]].
  destruct (SessionStore.get st id) as [s0|] eqn:Hget; [|done].
  intros [= <- <-]. split; [done|]. by apply (Hinv id).
Qed.

Lemma chat_finish_inv (st st' : S) (oracle : Oracle) (s : Session.t) (u : string)
    (result : RouteResult ChatResponse.t) :
  store_inv st -> reachable s -> chat_finish st oracle s u = (result, st') -> store_inv st'.
Proof.
  intros Hinv Hr. unfold chat_finish.
  destruct (process_message oracle s u) as [r s'|e s'] eqn:Hpm; intros [= _ <-]; [|done].
  apply store_inv_save; [done|]. by apply (reachable_turn s oracle u r s').
Qed.

Lemma step_inv (x y : S * list Session.t) :
  step x y -> store_inv x.1 /\ Forall reachable x.2 -> store_inv y.1 /\ Forall reachable y.2.
Proof.
  destruct 1 as [st st' ps req fresh s Hload|st st' ps1 ps2 s oracle u res Hfin|st st' ps id res Hdel];
    simpl; intros [Hinv Hps].
  - destruct (chat_load_inv _ _ _ _ _ Hinv Hload). by split; [|constructor].
  - rewrite Forall_app, Forall_cons in Hps. destruct Hps as (Hps1 & Hs & Hps2).
    split; [by apply (chat_finish_inv st st' oracle s u res)|by apply Forall_app].
  - unfold delete_session in Hdel. destruct (SessionStore.get st id); injection Hdel as _ <-;
      [split; [by apply store_inv_delete|done]|done].
Qed.

End Concurrent.

(** ** Theorems of the routes *)
Section RouteTheorems.
Context {S : Type} `{!SessionStore.SessionStore S}.

(** C30: Invariant of the service under every interleaving of requests:
    starting from an empty store, every session in the store and every
    session a pending chat has loaded is reachable by turns, and each
    stored session is stored under its own identifier. *)
Theorem concurrent_store_inv (st0 st : S) (pending : list Session.t) :
  (forall k, SessionStore.get st0 k = None) ->
  rtc step (st0, []) (st, pending) ->
  store_inv st /\ Forall reachable pending.
Proof.
  intros Hempty Hrtc.
  change (store_inv (st, pending).1 /\ Forall reachable (st, pending).2).
  apply (rtc_ind_r (R := step) (fun x => store_inv x.1 /\ Forall reachable x.2) (st0, [])); [..|exact Hrtc].
  - split; [intros k s; by rewrite Hempty|constructor].
  - intros y z _ Hyz IH. by apply (step_inv y z).
Qed.

(** C31: The plan route on a store that satisfies the invariant never
    fails with an unhandled exception: it answers 404 for an unknown
    session, 422 for an incomplete one, and otherwise the compiled plan with
    its rendering. *)
Theorem get_plan_cases (st : S) (session_id g : string) :
  store_inv st ->
  match SessionStore.get st session_id with
  | None => get_plan st session_id g = SESSION_NOT_FOUND
  | Some s =>
      if Session.is_complete s
      then exists p, compile (Session.stage_data s) g = inr p
                     /\ get_plan st session_id g = RouteOk (PlanResponse.mk session_id p (render p))
      else exists detail, get_plan st session_id g = RouteHTTPError 422 detail
  end.
Proof.
  intros Hinv. unfold get_plan.
  destruct (SessionStore.get st session_id) as [s|] eqn:Hget; [|done].
  destruct (Session.is_complete s) eqn:Hc; simpl; [|by eexists].
  destruct (compile_complete_ok s g) as (p & Hp & _); [by apply (Hinv session_id)|done|].
  exists p. by rewrite Hp.
Qed.

(** C32: Refinement of the turn relation by the chat route: on a stored
    session, the route succeeds exactly when the turn returns; it then
    answers with the turn's reply and the new session's stage, label,
    completion flag and progress, stores the new session under the same
    identifier, which is a [turn] of the stored one, and leaves every other
    stored session unchanged. *)
Theorem chat_refines_turn (st : S) (oracle : Oracle) (id u fresh_id : string) (s : Session.t) :
  store_inv st -> Py.truthy id = true -> SessionStore.get st id = Some s ->
  ((exists resp st', chat st oracle (ChatRequest.mk (Some id) u) fresh_id = (RouteOk resp, st'))
   <-> (exists r s', process_message oracle s u = TurnOk r s'))
  /\ (forall resp st', chat st oracle (ChatRequest.mk (Some id) u) fresh_id = (RouteOk resp, st') ->
      exists r s', process_message oracle s u = TurnOk r s'
        /\ resp = chat_response r s' /\ turn s s'
        /\ SessionStore.get st' id = Some s'
        /\ (forall k, k <> id -> SessionStore.get st' k = SessionStore.get st k)).
Proof.
  intros Hinv Hid Hget. destruct (Hinv id s Hget) as [_ Hsid].
  unfold chat, chat_load. simpl. rewrite Hid, Hget. unfold chat_finish.
  destruct (process_message oracle s u) as [r s'|e s'] eqn:Hpm.
  - pose proof (process_message_session_id _ _ _ _ _ Hpm) as Hsid'.
    split; [naive_solver|]. intros resp st' [= <- <-].
    exists r, s'. split_and!; [done|done|by exists oracle, u, r| |].
    + rewrite <- Hsid, <- Hsid'. apply SessionStore.get_save_same.
    + intros k Hk. apply SessionStore.get_save_other. congruence.
  - split; [|intros resp st' Hc; destruct e; simpl in Hc;
             repeat case_match; simplify_eq].
    split; [intros (resp & st' & Hc)|intros (r & s'' & [=])].
    destruct e; simpl in Hc; repeat case_match; simplify_eq.
Qed.

(** C33: A model call that raises leaves a stored session as it was: the
    turn's changes (the user's message) are not saved, and the route answers
    with the error response of the exception. *)
Theorem chat_model_error (st : S) (oracle : Oracle) (id u fresh_id : string)
    (s s1 : Session.t) (e : APIError) :
  Py.truthy id = true -> SessionStore.get st id = Some s ->
  process_message oracle s u = TurnRaised e s1 ->
  chat st oracle (ChatRequest.mk (Some id) u) fresh_id = (chat_error e, st).
Proof.
  intros Hid Hget Hpm. unfold chat, chat_load. simpl. rewrite Hid, Hget.
  unfold chat_finish. by rewrite Hpm.
Qed.

(** C34: A first message whose model call raises leaves an orphan: the
    new session is saved before the turn, so the store holds it, while the
    client receives only the error response, without its identifier. *)
Theorem chat_new_session_error (st : S) (oracle : Oracle) (u fresh_id : string)
    (s1 : Session.t) (e : APIError) :
  process_message oracle (Session.new fresh_id) u = TurnRaised e s1 ->
  chat st oracle (ChatRequest.mk None u) fresh_id
    = (chat_error e, SessionStore.save st (Session.new fresh_id))
  /\ SessionStore.get (SessionStore.save st (Session.new fresh_id)) fresh_id
     = Some (Session.new fresh_id).
Proof.
  intros Hpm. split.
  - unfold chat, chat_load. simpl. unfold chat_finish. by rewrite Hpm.
  - apply (SessionStore.get_save_same st (Session.new fresh_id)).
Qed.

(** The session routes: for an unknown identifier both answer 404 and
    nothing changes; for a stored session [get_session] reports its
    identifier, stage and completion flag, and [delete_session] answers 204
    and removes exactly that session. *)
Theorem session_routes_spec (st : S) (id : string) :
  match SessionStore.get st id with
  | None => get_session st id = SESSION_NOT_FOUND /\ delete_session st id = (SESSION_NOT_FOUND, st)
  | Some s =>
      get_session st id
        = RouteOk (SessionSummary.mk (Session.session_id s) (Session.current_stage s)
                     (Session.is_complete s))
      /\ (delete_session st id).1 = RouteOk tt
      /\ SessionStore.get (delete_session st id).2 id = None
      /\ (forall k, k <> id -> SessionStore.get (delete_session st id).2 k = SessionStore.get st k)
  end.
Proof.
  unfold get_session, delete_session.
  destruct (SessionStore.get st id) as [s|]; [|done]. split_and!; [done|done| |].
  - apply SessionStore.get_delete_same.
  - intros k Hk. by apply SessionStore.get_delete_other.
Qed.

(** The chat route on a stored session whose turn returns: the turn's
    response, and the successor saved under the same identifier. *)
Lemma chat_stored_ok (st : S) (oracle : Oracle) (id u fresh_id r : string) (s s' : Session.t) :
  store_inv st -> Py.truthy id = true -> SessionStore.get st id = Some s ->
  process_message oracle s u = TurnOk r s' ->
  chat_load st (ChatRequest.mk (Some id) u) fresh_id = inr (s, st)
  /\ chat_finish st oracle s u = (RouteOk (chat_response r s'), SessionStore.save st s')
  /\ Session.session_id s' = id.
Proof.
  intros Hinv Ht Hg Hpm. destruct (Hinv id s Hg) as [_ Hsid].
  unfold chat_load, chat_finish. simpl. rewrite Ht, Hg, Hpm. split_and!; [done|done|].
  rewrite <- Hsid. by apply (process_message_session_id oracle s u r s').
Qed.

(** C35: Lost update between two concurrent turns on one session: when
    two chat requests both load a stored session before either saves, both
    answer with their turn's reply, but the store ends with the second
    turn's successor of the loaded session, whose log holds the loaded
    messages and the second exchange only: the first user message and its
    reply are lost. *)
Theorem concurrent_chats_lose_turn (st : S) (id u1 u2 r1 r2 : string) (s s1 s2 : Session.t)
    (o1 o2 : Oracle) :
  store_inv st -> Py.truthy id = true -> SessionStore.get st id = Some s ->
  process_message o1 s u1 = TurnOk r1 s1 -> process_message o2 s u2 = TurnOk r2 s2 ->
  rtc step (st, []) (SessionStore.save (SessionStore.save st s1) s2, [])
  /\ (chat_finish st o1 s u1).1 = RouteOk (chat_response r1 s1)
  /\ (chat_finish (SessionStore.save st s1) o2 s u2).1 = RouteOk (chat_response r2 s2)
  /\ SessionStore.get (SessionStore.save (SessionStore.save st s1) s2) id = Some s2
  /\ Session.messages s2 = Session.messages s ++
       [ConversationMessage.mk "user" u2; ConversationMessage.mk "assistant" r2].
Proof.
  intros Hinv Ht Hg H1 H2.
  destruct (chat_stored_ok st o1 id u1 EmptyString r1 s s1 Hinv Ht Hg H1) as (Hl1 & Hf1 & _).
  destruct (chat_stored_ok st o2 id u2 EmptyString r2 s s2 Hinv Ht Hg H2) as (Hl2 & _ & Hid2).
  assert (Hf2 : chat_finish (SessionStore.save st s1) o2 s u2
                = (RouteOk (chat_response r2 s2), SessionStore.save (SessionStore.save st s1) s2))
    by (unfold chat_finish; by rewrite H2).
  split_and!.
  - eapply rtc_l; [exact (step_load _ _ [] _ _ _ Hl1)|].
    eapply rtc_l; [exact (step_load _ _ [s] _ _ _ Hl2)|].
    eapply rtc_l; [exact (step_finish _ _ [] [s] _ _ _ _ Hf1)|].
    eapply rtc_l; [exact (step_finish _ _ [] [] _ _ _ _ Hf2)|].
    apply rtc_refl.
  - by rewrite Hf1.
  - by rewrite Hf2.
  - rewrite <- Hid2. apply SessionStore.get_save_same.
  - by apply (process_message_ok_messages o2 s u2 r2 s2).
Qed.

(** C36: Turns on one session run one after the other keep both: when the
    second chat request is handled after the first has saved, it loads the
    first turn's successor, and the store ends with a session whose log
    holds both exchanges in order. *)
Theorem sequential_chats_keep_turns (st : S) (id u1 u2 f1 f2 r1 r2 : string)
    (s s1 s2 : Session.t) (o1 o2 : Oracle) :
  store_inv st -> Py.truthy id = true -> SessionStore.get st id = Some s ->
  process_message o1 s u1 = TurnOk r1 s1 -> process_message o2 s1 u2 = TurnOk r2 s2 ->
  let '(res1, st1) := chat st o1 (ChatRequest.mk (Some id) u1) f1 in
  let '(res2, st2) := chat st1 o2 (ChatRequest.mk (Some id) u2) f2 in
  res1 = RouteOk (chat_response r1 s1) /\ res2 = RouteOk (chat_response r2 s2)
  /\ SessionStore.get st2 id = Some s2
  /\ Session.messages s2 = Session.messages s ++
       [ConversationMessage.mk "user" u1; ConversationMessage.mk "assistant" r1;
        ConversationMessage.mk "user" u2; ConversationMessage.mk "assistant" r2].
Proof.
  intros Hinv Ht Hg H1 H2.
  destruct (chat_stored_ok st o1 id u1 f1 r1 s s1 Hinv Ht Hg H1) as (Hl1 & Hf1 & Hid1).
  assert (Hg1 : SessionStore.get (SessionStore.save st s1) id = Some s1)
    by (rewrite <- Hid1; apply SessionStore.get_save_same).
  assert (Hinv1 : store_inv (SessionStore.save st s1)).
  { apply (chat_finish_inv st _ o1 s u1 (RouteOk (chat_response r1 s1))); [done| |done].
    by apply (Hinv id s Hg). }
  destruct (chat_stored_ok _ o2 id u2 f2 r2 s1 s2 Hinv1 Ht Hg1 H2) as (Hl2 & Hf2 & Hid2).
  unfold chat. rewrite Hl1. cbn [ChatRequest.message]. rewrite Hf1. cbn [ChatRequest.message].
  rewrite Hl2. cbn [ChatRequest.message]. rewrite Hf2. split_and!; [done|done| |].
  - rewrite <- Hid2. apply SessionStore.get_save_same.
  - rewrite (process_message_ok_messages o2 s1 u2 r2 s2 H2), (process_message_ok_messages o1 s u1 r1 s1 H1).
    by rewrite <- app_assoc.
Qed.

End RouteTheorems.

(** ** Concrete runs on the in-memory store *)

Lemma store_inv_empty {S} `{!SessionStore.SessionStore S} (st : S) :
  (forall k, SessionStore.get st k = None) -> store_inv st.
Proof. intros Hempty k s. by rewrite Hempty. Qed.

Definition empty_store : InMemorySessionStore.t := InMemorySessionStore.new.

(** The store after a first request without a session id: the new session
    ["s-1"] is saved. *)
Definition store_s1 : InMemorySessionStore.t :=
  SessionStore.save empty_store (Session.new "s-1").

Lemma store_s1_inv : store_inv store_s1.
Proof.
  apply store_inv_save; [apply store_inv_empty; intros k; reflexivity|apply reachable_new].
Qed.

(** An oracle whose reply call raises [e]. *)
Definition failing_oracle (e : APIError) : Oracle :=
  {| generate_reply := fun _ _ => inl e; extract := fun _ _ => NoToolUse |}.

(** ** Witnesses *)

Lemma concurrent_store_inv_witness :
  (forall k, SessionStore.get empty_store k = None)
  /\ rtc step (empty_store, []) (store_s1, [Session.new "s-1"])
  /\ store_inv store_s1 /\ Forall reachable [Session.new "s-1"].
Proof.
  assert (He : forall k, SessionStore.get empty_store k = None) by (intros k; reflexivity).
  assert (Hr : rtc step (empty_store, []) (store_s1, [Session.new "s-1"])).
  { apply rtc_once.
    apply (step_load empty_store store_s1 [] (ChatRequest.mk None "hello") "s-1" (Session.new "s-1")).
    reflexivity. }
  split; [exact He|]. split; [exact Hr|]. exact (concurrent_store_inv empty_store _ _ He Hr).
Defined.

Lemma get_plan_cases_witness :
  store_inv store_s1
  /\ match SessionStore.get store_s1 "s-1" with
     | None => get_plan store_s1 "s-1" sample_clock = SESSION_NOT_FOUND
     | Some s =>
         if Session.is_complete s
         then exists p, compile (Session.stage_data s) sample_clock = inr p
                        /\ get_plan store_s1 "s-1" sample_clock
                           = RouteOk (PlanResponse.mk "s-1" p (render p))
         else exists detail, get_plan store_s1 "s-1" sample_clock = RouteHTTPError 422 detail
     end.
Proof. split; [apply store_s1_inv|]. apply get_plan_cases. apply store_s1_inv. Defined.

Lemma chat_refines_turn_witness :
  store_inv store_s1 /\ Py.truthy "s-1" = true
  /\ SessionStore.get store_s1 "s-1" = Some (Session.new "s-1")
  /\ ((exists resp st', chat store_s1 (sample_oracle (Some 5%Z)) (ChatRequest.mk (Some "s-1") "hello") "s-2"
                        = (RouteOk resp, st'))
      <-> (exists r s', process_message (sample_oracle (Some 5%Z)) (Session.new "s-1") "hello" = TurnOk r s'))
  /\ (forall resp st', chat store_s1 (sample_oracle (Some 5%Z)) (ChatRequest.mk (Some "s-1") "hello") "s-2"
                       = (RouteOk resp, st') ->
      exists r s', process_message (sample_oracle (Some 5%Z)) (Session.new "s-1") "hello" = TurnOk r s'
        /\ resp = chat_response r s' /\ turn (Session.new "s-1") s'
        /\ SessionStore.get st' "s-1" = Some s'
        /\ (forall k, k <> "s-1" -> SessionStore.get st' k = SessionStore.get store_s1 k)).
Proof.
  split_and!; [apply store_s1_inv|reflexivity|reflexivity|..];
    apply chat_refines_turn; [apply store_s1_inv|reflexivity|reflexivity|apply store_s1_inv|reflexivity|reflexivity].
Defined.

Lemma chat_model_error_witness :
  Py.truthy "s-1" = true /\ SessionStore.get store_s1 "s-1" = Some (Session.new "s-1")
  /\ process_message (failing_oracle APIConnectionError) (Session.new "s-1") "hello"
     = TurnRaised APIConnectionError (Session.append_message (Session.new "s-1") "user" "hello")
  /\ chat store_s1 (failing_oracle APIConnectionError) (ChatRequest.mk (Some "s-1") "hello") "s-2"
     = (chat_error APIConnectionError, store_s1).
Proof.
  split_and!; [reflexivity..|].
  apply (chat_model_error store_s1 (failing_oracle APIConnectionError) "s-1" "hello" "s-2"
           (Session.new "s-1") (Session.append_message (Session.new "s-1") "user" "hello"));
    reflexivity.
Defined.

Lemma chat_new_session_error_witness :
  process_message (failing_oracle (APIStatusError 400 "Your credit balance is too low"))
    (Session.new "s-1") "hello"
  = TurnRaised (APIStatusError 400 "Your credit balance is too low")
      (Session.append_message (Session.new "s-1") "user" "hello")
  /\ chat empty_store (failing_oracle (APIStatusError 400 "Your credit balance is too low"))
       (ChatRequest.mk None "hello") "s-1"
     = (chat_error (APIStatusError 400 "Your credit balance is too low"),
        SessionStore.save empty_store (Session.new "s-1"))
  /\ SessionStore.get (SessionStore.save empty_store (Session.new "s-1")) "s-1"
     = Some (Session.new "s-1").
Proof.
  split; [reflexivity|].
  apply (chat_new_session_error empty_store _ "hello" "s-1"
           (Session.append_message (Session.new "s-1") "user" "hello")).
  reflexivity.
Defined.

(** The reply and the successor of a turn that returns. *)
Definition turn_result (oracle : Oracle) (s : Session.t) (u : string) : string * Session.t :=
  match process_message oracle s u with
  | TurnOk r s' => (r, s')
  | TurnRaised _ s' => (EmptyString, s')
  end.

Definition first_turn : string * Session.t :=
  turn_result (sample_oracle (Some 5%Z)) (Session.new "s-1") "first".
Definition second_turn : string * Session.t :=
  turn_result (sample_oracle (Some 5%Z)) (Session.new "s-1") "second".
Definition second_after_first : string * Session.t :=
  turn_result (sample_oracle (Some 5%Z)) first_turn.2 "second".

Lemma concurrent_chats_lose_turn_witness :
  store_inv store_s1 /\ Py.truthy "s-1" = true
  /\ SessionStore.get store_s1 "s-1" = Some (Session.new "s-1")
  /\ process_message (sample_oracle (Some 5%Z)) (Session.new "s-1") "first"
     = TurnOk first_turn.1 first_turn.2
  /\ process_message (sample_oracle (Some 5%Z)) (Session.new "s-1") "second"
     = TurnOk second_turn.1 second_turn.2
  /\ SessionStore.get (SessionStore.save (SessionStore.save store_s1 first_turn.2) second_turn.2) "s-1"
     = Some second_turn.2.
Proof.
  assert (H1 : process_message (sample_oracle (Some 5%Z)) (Session.new "s-1") "first"
               = TurnOk first_turn.1 first_turn.2) by (vm_compute; reflexivity).
  assert (H2 : process_message (sample_oracle (Some 5%Z)) (Session.new "s-1") "second"
               = TurnOk second_turn.1 second_turn.2) by (vm_compute; reflexivity).
  split_and!; [apply store_s1_inv|reflexivity|reflexivity|exact H1|exact H2|].
  destruct (concurrent_chats_lose_turn store_s1 "s-1" "first" "second" _ _ _ _ _ _ _
              store_s1_inv eq_refl eq_refl H1 H2) as (_ & _ & _ & H & _).
  exact H.
Defined.

Lemma sequential_chats_keep_turns_witness :
  store_inv store_s1 /\ Py.truthy "s-1" = true
  /\ SessionStore.get store_s1 "s-1" = Some (Session.new "s-1")
  /\ process_message (sample_oracle (Some 5%Z)) (Session.new "s-1") "first"
     = TurnOk first_turn.1 first_turn.2
  /\ process_message (sample_oracle (Some 5%Z)) first_turn.2 "second"
     = TurnOk second_after_first.1 second_after_first.2
  /\ Session.messages second_after_first.2 = Session.messages (Session.new "s-1") ++
       [ConversationMessage.mk "user" "first"; ConversationMessage.mk "assistant" first_turn.1;
        ConversationMessage.mk "user" "second"; ConversationMessage.mk "assistant" second_after_first.1].
Proof.
  assert (H1 : process_message (sample_oracle (Some 5%Z)) (Session.new "s-1") "first"
               = TurnOk first_turn.1 first_turn.2) by (vm_compute; reflexivity).
  assert (H2 : process_message (sample_oracle (Some 5%Z)) first_turn.2 "second"
               = TurnOk second_after_first.1 second_after_first.2) by (vm_compute; reflexivity).
  split_and!; [apply store_s1_inv|reflexivity|reflexivity|exact H1|exact H2|].
  pose proof (sequential_chats_keep_turns store_s1 "s-1" "first" "second" "s-2" "s-3" _ _ _ _ _ _ _
                store_s1_inv eq_refl eq_refl H1 H2) as H.
  destruct (chat store_s1 _ _ _) as [res1 st1].
  destruct (chat st1 _ _ _) as [res2 st2].
  destruct H as (_ & _ & _ & H). exact H.
Defined.
