(* ===== verification/App.v ===== *)
(** * The application: main.py, dependencies.py and utils/logging.py

    How the service is put together around the routes of [Api]:
    - Module [Logging]: [configure_logging] of utils/logging.py, which
      passes [getattr(logging, level.upper(), logging.INFO)] to
      [logging.basicConfig], with the part of Python 3.11's [logging] it
      reaches ([basicConfig] on the root logger, [_checkLevel], the
      module's upper-case attributes) and the [INFO] records the
      [lifespan] of main.py writes at start-up and shut-down.
    - Module [Routing]: the route table of main.py and of the three
      routers, and the way the web framework picks a route: the routes
      are tried in order, the first one whose path and method match is
      called, a route whose path matches with another method makes a 405,
      and a path that matches nothing is redirected (307) when it matches
      with its trailing slash toggled, else answered 404.
    - Module [Main]: [handle], one request to the application: the route
      the table picks, called with the store singleton of dependencies.py
      and, for [chat], the oracle the handlers build from the settings and
      the client of [get_claude_client]; and [serve], a sequence of
      requests handled one after the other.
    Theorems: the level [configure_logging] sets and when it makes the
    start-up fail, the API paths reach their route handler, the other
    methods and trailing slashes, and the store invariant under every
    sequence of requests. *)

From S2P Require Import Prelude Stage StageData Contradiction StateMachine Adapter Plan Renderer Store Api.
Import Stages PlanningStateMachine PlanCompiler Routes.
Local Open Scope pm_scope.

Module Logging.
Local Open Scope Z_scope.

(** The values [getattr(logging, name)] gives for the names with no
    lower-case letter, the only names [level.upper()] can produce:
    the level constants, [BASIC_FORMAT] (a string) and [_STYLES] (a
    dict). [None] is a name the module does not define. *)
Inductive Attr :=
  | AttrInt (z : Z)
  | AttrStr (s : string)
  | AttrDict.

Definition BASIC_FORMAT : string := "%(levelname)s:%(name)s:%(message)s".

Definition upper_attrs : list (string * Attr) :=
  [("BASIC_FORMAT", AttrStr BASIC_FORMAT); ("CRITICAL", AttrInt 50); ("DEBUG", AttrInt 10);
   ("ERROR", AttrInt 40); ("FATAL", AttrInt 50); ("INFO", AttrInt 20);
   ("NOTSET", AttrInt 0); ("WARN", AttrInt 30); ("WARNING", AttrInt 30);
   ("_STYLES", AttrDict)].

Definition upper_attr (name : string) : option Attr := Py.assoc name upper_attrs.

(** [logging._nameToLevel] *)
Definition _nameToLevel : list (string * Z) :=
  [("CRITICAL", 50); ("FATAL", 50); ("ERROR", 40); ("WARN", 30); ("WARNING", 30);
   ("INFO", 20); ("DEBUG", 10); ("NOTSET", 0)].

Definition INFO : Z := 20.

(** The exceptions of [_checkLevel]. *)
Inductive LoggingError :=
  | UnknownLevel (level : string)
  | LevelNotInteger.

(** [logging._checkLevel] *)
Definition _checkLevel (level : Attr) : LoggingError + Z :=
  match level with
  | AttrInt z => inr z
  | AttrStr s =>
      match Py.assoc s _nameToLevel with
      | Some z => inr z
      | None => inl (UnknownLevel s)
      end
  | AttrDict => inl LevelNotInteger
  end.

(** The root logger: its handlers and its level. *)
Record Handler := StreamHandler { stream : string; format : string }.
Record Root := mkRoot { handlers : list Handler; level : Z }.

(** The root logger before any configuration: no handler, [WARNING]. *)
Definition root0 : Root := mkRoot [] 30.

(** [logging.basicConfig(stream=..., level=..., format=...)]: nothing when
    the root logger has a handler already; otherwise the handler is added,
    then [root.setLevel(level)] checks the level, which may raise. *)
Definition basicConfig (stream format : string) (lvl : Attr) (root : Root)
  : option LoggingError * Root :=
  match handlers root with
  | _ :: _ => (None, root)
  | [] =>
      let root1 := mkRoot [StreamHandler stream format] (level root) in
      match _checkLevel lvl with
      | inl e => (Some e, root1)
      | inr z => (None, mkRoot (handlers root1) z)
      end
  end.

Definition LOG_FORMAT : string := "%(asctime)s %(levelname)s %(name)s %(message)s".

(** [configure_logging(level)] *)
Definition configure_logging (lvl : string) (root : Root) : option LoggingError * Root :=
  basicConfig "sys.stdout" LOG_FORMAT
    (default (AttrInt INFO) (upper_attr (Py.upper lvl))) root.

(** A record written by a handler: the level name, the logger and the
    message. *)
Record LogRecord := mkRecord { levelname : string; name : string; message : string }.

(** [logging.getLogger(name).info(msg)] for a logger of level [NOTSET]
    (its effective level is the root's): one record per root handler when
    [INFO] is enabled. *)
Definition info (root : Root) (logger msg : string) : list LogRecord :=
  if (level root <=? INFO)%Z
  then map (fun _ => mkRecord "INFO" logger msg) (handlers root)
  else [].

(** The start-up line of [lifespan]. *)
Definition startup_message (settings : Settings.t) : string :=
  "Starting Project Planning Agent | env=" +:+ Settings.app_env settings +:+
  " | store=" +:+ Settings.session_store settings.

(** The start-up half of [lifespan] (before its [yield]): configure the
    logging from the settings, then log the start-up line. An exception
    aborts the start-up. *)
Definition lifespan_startup (settings : Settings.t) (root : Root)
  : option LoggingError * Root * list LogRecord :=
  match configure_logging (Settings.log_level settings) root with
  | (Some e, root1) => (Some e, root1, [])
  | (None, root1) =>
      (None, root1,
       info root1 "app.main" (startup_message settings))
  end.

(** The shut-down half of [lifespan] (after its [yield]). *)
Definition lifespan_shutdown (root : Root) : list LogRecord :=
  info root "app.main" "Shutting down".

End Logging.

Module Routing.

(** The endpoints of the application: the four pages [FastAPI()] adds with
    its default [openapi_url], [docs_url] and [redoc_url], [health_check]
    and [serve_ui] of main.py, the [StaticFiles] mount, and the route
    handlers of api/routes. *)
Inductive Endpoint :=
  | EOpenAPI | EDocs | EDocsRedirect | EReDoc
  | EHealthCheck | EServeUI | EStatic
  | EChat | EGetSession | EDeleteSession | EGetPlan.

#[export] Instance Endpoint_eq_dec : EqDecision Endpoint.
Proof. solve_decision. Defined.

(** A piece of a route path: literal text, or a parameter ["{name}"],
    which matches one non-empty piece of the request path. *)
Inductive Segment :=
  | Lit (s : string)
  | Param (name : string).

(** A piece ["{name}"] of a route path is the parameter [name]. *)
Definition compile_segment (x : string) : Segment :=
  match x with
  | String a r =>
      if Ascii.eqb a "{"%char && Py.endswith_char "}"%char r
      then Param (String.substring 0 (String.length r - 1) r)
      else Lit x
  | EmptyString => Lit x
  end.

(** The route path compiled: its pieces between slashes. *)
Definition compile_path (path : string) : list Segment :=
  map compile_segment (Py.split_char "/" path).

(** A route: an [APIRoute] with its path, methods and endpoint, or a
    [Mount] of an application under a path prefix. *)
Inductive Route :=
  | APIRoute (path : string) (methods : list string) (endpoint : Endpoint)
  | Mount (path : string) (endpoint : Endpoint).

Definition route_endpoint (r : Route) : Endpoint :=
  match r with
  | APIRoute _ _ e | Mount _ e => e
  end.

(** The pieces of a request path against a compiled route path: the
    parameters, when every literal is equal and every parameter non-empty. *)
Fixpoint match_segments (ps : list Segment) (xs : list string)
  : option (list (string * string)) :=
  match ps, xs with
  | [], [] => Some []
  | Lit l :: ps', x :: xs' => if String.eqb l x then match_segments ps' xs' else None
  | Param n :: ps', x :: xs' =>
      if Py.truthy x then (fun m => (n, x) :: m) <$> match_segments ps' xs' else None
  | _, _ => None
  end.

Inductive Match :=
  | Full (params : list (string * string))
  | Partial
  | NoMatch.

(** [Route.matches]: the path matches and the method is one of the
    route's (full), the path matches only (partial), or no match. A mount
    matches every method on [prefix + "/" + rest], with the parameter
    [path] set to ["/" + rest]. *)
Definition matches (r : Route) (method path : string) : Match :=
  match r with
  | APIRoute p methods _ =>
      match match_segments (compile_path p) (Py.split_char "/" path) with
      | None => NoMatch
      | Some params => if bool_decide (method ∈ methods) then Full params else Partial
      end
  | Mount p _ =>
      match Py.strip_prefix (p +:+ "/") path with
      | Some rest => Full [("path", "/" +:+ rest)]
      | None => NoMatch
      end
  end.

(** What the router does with a request. *)
Inductive Dispatch :=
  | Call (e : Endpoint) (params : list (string * string))
  | MethodNotAllowed
  | Redirect (location : string)
  | NotFound.

Fixpoint first_full (routes : list Route) (method path : string)
  : option (Endpoint * list (string * string)) :=
  match routes with
  | [] => None
  | r :: rs =>
      match matches r method path with
      | Full ps => Some (route_endpoint r, ps)
      | _ => first_full rs method path
      end
  end.

Definition is_partial (m : Match) : bool := if m is Partial then true else false.
Definition is_match (m : Match) : bool := if m is NoMatch then false else true.

(** The path with its trailing slash toggled: [path.rstrip("/")] when it
    ends with one, else [path + "/"]. *)
Definition redirect_path (path : string) : string :=
  if Py.endswith_char "/"%char path then Py.rstrip_char "/"%char path else path +:+ "/".

(** [Router.app]: the first full match is called; else a partial match
    answers 405; else, for a path other than ["/"], a route matching the
    path with its trailing slash toggled makes a redirect; else 404. *)
Definition dispatch (routes : list Route) (method path : string) : Dispatch :=
  match first_full routes method path with
  | Some (e, ps) => Call e ps
  | None =>
      if existsb (fun r => is_partial (matches r method path)) routes then MethodNotAllowed
      else if negb (String.eqb path "/")
              && existsb (fun r => is_match (matches r method (redirect_path path))) routes
      then Redirect (redirect_path path)
      else NotFound
  end.

(** The routes of the three [APIRouter]s. *)
Definition chat_router : list Route := [APIRoute "/chat" ["POST"] EChat].

Definition sessions_router : list Route :=
  [APIRoute "/session/{session_id}" ["GET"] EGetSession;
   APIRoute "/session/{session_id}" ["DELETE"] EDeleteSession].

Definition plans_router : list Route :=
  [APIRoute "/session/{session_id}/plan" ["GET"] EGetPlan].

(** [app.include_router(router, prefix=prefix)]: the router's routes,
    their paths prefixed. *)
Definition include_router (prefix : string) (router : list Route) : list Route :=
  map (fun r => match r with
                | APIRoute p ms e => APIRoute (prefix +:+ p) ms e
                | Mount p e => Mount (prefix +:+ p) e
                end) router.

(** The routes [FastAPI()] registers when it is built. *)
Definition fastapi_default_routes : list Route :=
  [APIRoute "/openapi.json" ["GET"; "HEAD"] EOpenAPI;
   APIRoute "/docs" ["GET"; "HEAD"] EDocs;
   APIRoute "/docs/oauth2-redirect" ["GET"; "HEAD"] EDocsRedirect;
   APIRoute "/redoc" ["GET"; "HEAD"] EReDoc].

(** [app.routes] in the order main.py registers them. *)
Definition app_routes : list Route :=
  fastapi_default_routes ++
  [APIRoute "/health" ["GET"] EHealthCheck;
   APIRoute "/" ["GET"] EServeUI;
   Mount "/static" EStatic] ++
  include_router "/api/v1" chat_router ++
  include_router "/api/v1" sessions_router ++
  include_router "/api/v1" plans_router.

End Routing.

Module Main.
Import Routing.

(** The objects of dependencies.py and config.py a request uses: the
    cached [Settings], the [AsyncAnthropic] constructor, and pydantic. *)
Record Deps := mkDeps {
  settings : Settings.t;
  AsyncAnthropic : string -> Anthropic.Client;
  pydantic : Pydantic }.

(** [get_claude_client()]: a client for the settings' API key. *)
Definition get_claude_client (deps : Deps) : Anthropic.Client :=
  AsyncAnthropic deps (Settings.anthropic_api_key (settings deps)).

(** The oracle of the [PlanningStateMachine] the chat route builds. *)
Definition chat_oracle (deps : Deps) : Oracle :=
  BaseStageHandler.oracle_of
    (BaseStageHandler.config_of_settings (get_claude_client deps) (settings deps))
    (pydantic deps).

(** A request: its method, its path and, for the chat route, its JSON body
    as [ChatRequest] validates it ([None]: the body does not validate). *)
Record Request := mkRequest { method : string; path : string; body : option ChatRequest.t }.

(** What the environment gives a request: the [uuid4] of a new session
    and the clock reading of a compiled plan. *)
Record Env := mkEnv { fresh_id : string; generated_at : string }.

(** The application's answers: a route handler's result, the health
    check's [{"status": "ok"}], the UI page, a static file or documentation
    page (served by the framework), a request validation error (422), or
    the router's 405, 307 and 404. *)
Inductive Response :=
  | ChatResp (r : RouteResult ChatResponse.t)
  | SessionResp (r : RouteResult SessionSummary.t)
  | DeleteResp (r : RouteResult unit)
  | PlanResp (r : RouteResult PlanResponse.t)
  | HealthResp
  | IndexResp
  | StaticResp (method path : string)
  | DocsResp (e : Endpoint)
  | RequestValidationError
  | MethodNotAllowedResp
  | RedirectResp (location : string)
  | NotFoundResp.

(** [_session_store] of dependencies.py: the one store every request
    uses, empty when the process starts. *)
Definition _session_store : InMemorySessionStore.t := InMemorySessionStore.new.

Section Main.
Context {S : Type} `{!SessionStore.SessionStore S}.

(** A route with a path parameter: 422 when the parameter is missing. *)
Definition with_param (ps : list (string * string)) (name : string) (st : S)
    (k : string -> Response * S) : Response * S :=
  match Py.assoc name ps with
  | Some v => k v
  | None => (RequestValidationError, st)
  end.

(** One request to the application, on the store singleton [st] of
    dependencies.py. *)
Definition handle (deps : Deps) (st : S) (env : Env) (req : Request) : Response * S :=
  match dispatch app_routes (method req) (path req) with
  | Call EChat _ =>
      match body req with
      | None => (RequestValidationError, st)
      | Some b =>
          let '(r, st') := chat st (chat_oracle deps) b (fresh_id env) in (ChatResp r, st')
      end
  | Call EGetSession ps =>
      with_param ps "session_id" st (fun id => (SessionResp (get_session st id), st))
  | Call EDeleteSession ps =>
      with_param ps "session_id" st (fun id =>
        let '(r, st') := delete_session st id in (DeleteResp r, st'))
  | Call EGetPlan ps =>
      with_param ps "session_id" st (fun id =>
        (PlanResp (get_plan st id (generated_at env)), st))
  | Call EHealthCheck _ => (HealthResp, st)
  | Call EServeUI _ => (IndexResp, st)
  | Call EStatic ps => (StaticResp (method req) (default "/" (Py.assoc "path" ps)), st)
  | Call e _ => (DocsResp e, st)
  | MethodNotAllowed => (MethodNotAllowedResp, st)
  | Redirect location => (RedirectResp location, st)
  | NotFound => (NotFoundResp, st)
  end.

(** Requests handled one after the other: the responses in order and the
    final store. *)
Fixpoint serve (deps : Deps) (st : S) (reqs : list (Env * Request)) : list Response * S :=
  match reqs with
  | [] => ([], st)
  | (env, req) :: reqs' =>
      let '(resp, st1) := handle deps st env req in
      let '(resps, st2) := serve deps st1 reqs' in
      (resp :: resps, st2)
  end.

End Main.
End Main.

(** ** Lemmas of the route table *)
Module RoutingFacts.
Import Routing.

Lemma app_routes_literal : app_routes =
  [APIRoute "/openapi.json" ["GET"; "HEAD"] EOpenAPI;
   APIRoute "/docs" ["GET"; "HEAD"] EDocs;
   APIRoute "/docs/oauth2-redirect" ["GET"; "HEAD"] EDocsRedirect;
   APIRoute "/redoc" ["GET"; "HEAD"] EReDoc;
   APIRoute "/health" ["GET"] EHealthCheck;
   APIRoute "/" ["GET"] EServeUI;
   Mount "/static" EStatic;
   APIRoute "/api/v1/chat" ["POST"] EChat;
   APIRoute "/api/v1/session/{session_id}" ["GET"] EGetSession;
   APIRoute "/api/v1/session/{session_id}" ["DELETE"] EDeleteSession;
   APIRoute "/api/v1/session/{session_id}/plan" ["GET"] EGetPlan].
Proof. reflexivity. Qed.

Lemma static_prefix_literal : "/static" +:+ "/" = "/static/".
Proof. reflexivity. Qed.

Lemma bool_decide_elem_cons (x y : string) (l : list string) :
  bool_decide (x ∈ y :: l) = bool_decide (x = y) || bool_decide (x ∈ l).
Proof.
  apply Bool.eq_iff_eq_true. rewrite orb_true_iff, !bool_decide_eq_true.
  apply elem_of_cons.
Qed.

Lemma bool_decide_elem_nil (x : string) : bool_decide (x ∈ @nil string) = false.
Proof. apply bool_decide_eq_false_2. set_solver. Qed.

(** Membership of a method in a route's list, as equalities. *)
Ltac methods_simpl := rewrite ?bool_decide_elem_cons, ?bool_decide_elem_nil, ?orb_false_r.

(** Run [dispatch] on the literal route table for a path [q] whose pieces
    are [Hs] and which is not under the static mount ([Hm]); [Ht] says the
    session identifier is non-empty; the table is already unfolded. The
    pieces are rewritten before the literals are compared, which keeps the
    goal small. *)
Ltac dispatch_at Hs Hm Ht :=
  cbn [first_full existsb matches];
  rewrite Hs, Hm; cbn -[bool_decide]; rewrite ?Ht; cbn -[bool_decide];
  methods_simpl; repeat case_bool_decide; simpl; congruence.

Lemma split_session (id : string) :
  Py.contains "/" id = false ->
  Py.split_char "/" ("/api/v1/session/" +:+ id) = [""; "api"; "v1"; "session"; id].
Proof.
  intros Hid. autorewrite with pm_rw. cbn [Py.split_char Ascii.eqb Bool.eqb andb].
  by rewrite split_char_no_sep.
Qed.

Lemma split_plan (id : string) :
  Py.contains "/" id = false ->
  Py.split_char "/" ("/api/v1/session/" +:+ id +:+ "/plan")
  = [""; "api"; "v1"; "session"; id; "plan"].
Proof.
  intros Hid. autorewrite with pm_rw. cbn [Py.split_char Ascii.eqb Bool.eqb andb].
  by rewrite split_char_app_sep.
Qed.

Lemma not_static (x : string) :
  Py.strip_prefix ("/static" +:+ "/") ("/api/v1/session/" +:+ x) = None.
Proof. by autorewrite with pm_rw. Qed.

Lemma dispatch_chat (m : string) :
  dispatch app_routes m "/api/v1/chat"
  = if bool_decide (m = "POST") then Call EChat [] else MethodNotAllowed.
Proof.
  unfold dispatch. rewrite app_routes_literal. lazy -[bool_decide elem_of].
  methods_simpl. repeat case_bool_decide; simpl; congruence.
Qed.

Lemma dispatch_session (m id : string) :
  Py.truthy id = true -> Py.contains "/" id = false ->
  dispatch app_routes m ("/api/v1/session/" +:+ id)
  = if bool_decide (m = "GET") then Call EGetSession [("session_id", id)]
    else if bool_decide (m = "DELETE") then Call EDeleteSession [("session_id", id)]
    else MethodNotAllowed.
Proof.
  intros Ht Hid. pose proof (split_session id Hid) as Hs. pose proof (not_static id) as Hm.
  set (q := "/api/v1/session/" +:+ id) in *. clearbody q.
  unfold dispatch. rewrite app_routes_literal. dispatch_at Hs Hm Ht.
Qed.

Lemma dispatch_plan (m id : string) :
  Py.truthy id = true -> Py.contains "/" id = false ->
  dispatch app_routes m ("/api/v1/session/" +:+ id +:+ "/plan")
  = if bool_decide (m = "GET") then Call EGetPlan [("session_id", id)] else MethodNotAllowed.
Proof.
  intros Ht Hid. pose proof (split_plan id Hid) as Hs. pose proof (not_static (id +:+ "/plan")) as Hm.
  set (q := "/api/v1/session/" +:+ id +:+ "/plan") in *. clearbody q.
  unfold dispatch. rewrite app_routes_literal. dispatch_at Hs Hm Ht.
Qed.


Lemma dispatch_chat_slash (m : string) :
  dispatch app_routes m "/api/v1/chat/" = Redirect "/api/v1/chat".
Proof.
  unfold dispatch. rewrite app_routes_literal. lazy -[bool_decide elem_of].
  methods_simpl. repeat case_bool_decide; reflexivity.
Qed.

Lemma dispatch_session_empty (m : string) :
  dispatch app_routes m "/api/v1/session/" = NotFound
  /\ dispatch app_routes m "/api/v1/session//plan" = NotFound.
Proof. unfold dispatch. rewrite app_routes_literal. split; reflexivity. Qed.

End RoutingFacts.

(** ** Lemmas of the logging set-up *)
Module LoggingFacts.
Import Logging.

(** Every level name of [_nameToLevel] is a module constant with that
    value. *)
Lemma nameToLevel_attr (n : string) (z : Z) :
  Py.assoc n _nameToLevel = Some z -> upper_attr n = Some (AttrInt z).
Proof.
  unfold upper_attr. cbn [Py.assoc _nameToLevel upper_attrs]. intros H.
  repeat match goal with
         | H : context [String.eqb n ?x] |- _ => destruct (String.eqb_spec n x) as [->|?]; cbn in *
         end; by simplify_eq.
Qed.

(** The root logger once [basicConfig] has run on an unconfigured root. *)
Definition root1 (z : Z) : Root := mkRoot [StreamHandler "sys.stdout" LOG_FORMAT] z.

Lemma configure_logging_fresh (lvl : string) :
  configure_logging lvl root0
  = match _checkLevel (default (AttrInt INFO) (upper_attr (Py.upper lvl))) with
    | inl e => (Some e, root1 30)
    | inr z => (None, root1 z)
    end.
Proof. unfold configure_logging, basicConfig. simpl. by destruct (_checkLevel _). Qed.

End LoggingFacts.

(** ** The store under the application *)
Module AppFacts.
Import Routing RoutingFacts Main.

Section AppFacts.
Context {S : Type} `{!SessionStore.SessionStore S}.

Lemma chat_inv (st : S) (oracle : Oracle) (req : ChatRequest.t) (fresh : string) :
  store_inv st -> store_inv (chat st oracle req fresh).2.
Proof.
  intros Hinv. unfold chat.
  destruct (chat_load st req fresh) as [err|[s st1]] eqn:Hl; [done|].
  destruct (chat_load_inv _ _ _ _ _ Hinv Hl) as [Hinv1 Hr].
  destruct (chat_finish st1 oracle s (ChatRequest.message req)) as [res st2] eqn:Hf.
  by apply (chat_finish_inv st1 st2 oracle s (ChatRequest.message req) res).
Qed.

(** Whether the route a request reaches may write the store. *)
Definition writes_store (d : Dispatch) : bool :=
  match d with
  | Call EChat _ | Call EDeleteSession _ => true
  | _ => false
  end.

(** Every request keeps the store invariant, and a request that reaches
    neither the chat nor the delete route leaves the store as it was. *)
Lemma handle_inv (deps : Deps) (st : S) (env : Env) (req : Request) :
  (store_inv st -> store_inv (handle deps st env req).2)
  /\ (writes_store (dispatch app_routes (method req) (path req)) = false ->
      (handle deps st env req).2 = st).
Proof.
  unfold handle, with_param.
  destruct (dispatch app_routes (method req) (path req)) as [[] ps| | |]; try done; simpl.
  - destruct (body req) as [b|]; [|done]. split; [|done].
    destruct (chat st (chat_oracle deps) b (fresh_id env)) as [r st'] eqn:Hc.
    intros Hinv. pose proof (chat_inv st (chat_oracle deps) b (fresh_id env) Hinv) as Hc'.
    by rewrite Hc in Hc'.
  - by destruct (Py.assoc "session_id" ps).
  - destruct (Py.assoc "session_id" ps) as [id|]; [|done]. split; [|done].
    unfold delete_session. destruct (SessionStore.get st id); [|done].
    apply store_inv_delete.
  - by destruct (Py.assoc "session_id" ps).
Qed.

Lemma serve_inv (deps : Deps) (st : S) (reqs : list (Env * Request)) :
  store_inv st -> store_inv (serve deps st reqs).2.
Proof.
  revert st. induction reqs as [|[env req] reqs IH]; intros st Hinv; [done|]. simpl.
  destruct (handle deps st env req) as [resp st1] eqn:Hh.
  destruct (serve deps st1 reqs) as [resps st2] eqn:Hs.
  pose proof (proj1 (handle_inv deps st env req) Hinv) as H1. rewrite Hh in H1.
  specialize (IH st1 H1). by rewrite Hs in IH.
Qed.

End AppFacts.
End AppFacts.

(** ** Theorems of the application *)
Module AppTheorems.
Import Routing RoutingFacts Logging LoggingFacts Main AppFacts.

Section AppTheorems.
Context {S : Type} `{!SessionStore.SessionStore S}.

(** C14: The application refines the routes: for every non-empty session
    identifier without a slash, [POST /api/v1/chat] runs [chat] with the
    oracle built from the settings and the client of [get_claude_client],
    [GET] and [DELETE /api/v1/session/{id}] run [get_session] and
    [delete_session], and [GET /api/v1/session/{id}/plan] runs [get_plan]
    with the request's clock reading, each on the store singleton, whatever
    the earlier routes of the table. *)
Theorem handle_api_routes (deps : Deps) (st : S) (env : Env) (id : string)
    (b : ChatRequest.t) (bo : option ChatRequest.t) :
  Py.truthy id = true -> Py.contains "/" id = false ->
  handle deps st env (mkRequest "POST" "/api/v1/chat" (Some b))
    = (let '(r, st') := chat st (chat_oracle deps) b (fresh_id env) in (ChatResp r, st'))
  /\ handle deps st env (mkRequest "GET" ("/api/v1/session/" +:+ id) bo)
     = (SessionResp (get_session st id), st)
  /\ handle deps st env (mkRequest "DELETE" ("/api/v1/session/" +:+ id) bo)
     = (DeleteResp (delete_session st id).1, (delete_session st id).2)
  /\ handle deps st env (mkRequest "GET" ("/api/v1/session/" +:+ id +:+ "/plan") bo)
     = (PlanResp (get_plan st id (generated_at env)), st).
Proof.
  intros Ht Hid. unfold handle; cbn [method path body].
  rewrite dispatch_chat, !dispatch_session, dispatch_plan by done.
  repeat case_bool_decide; try congruence. cbn.
  split_and!; [done|done| |done]. by destruct (delete_session st id).
Qed.

(** C22: What the router answers outside the API's routes, without
    touching the store: 405 for a method the path's routes do not accept,
    a 307 redirect from ["/api/v1/chat/"] to ["/api/v1/chat"], 404 for an
    empty session identifier, and 422 for a chat body that does not
    validate. *)
Theorem handle_route_errors (deps : Deps) (st : S) (env : Env) (id m : string)
    (bo : option ChatRequest.t) :
  Py.truthy id = true -> Py.contains "/" id = false ->
  (m <> "POST" ->
   handle deps st env (mkRequest m "/api/v1/chat" bo) = (MethodNotAllowedResp, st))
  /\ (m <> "GET" -> m <> "DELETE" ->
      handle deps st env (mkRequest m ("/api/v1/session/" +:+ id) bo) = (MethodNotAllowedResp, st))
  /\ (m <> "GET" ->
      handle deps st env (mkRequest m ("/api/v1/session/" +:+ id +:+ "/plan") bo)
      = (MethodNotAllowedResp, st))
  /\ handle deps st env (mkRequest m "/api/v1/chat/" bo) = (RedirectResp "/api/v1/chat", st)
  /\ handle deps st env (mkRequest m "/api/v1/session/" bo) = (NotFoundResp, st)
  /\ handle deps st env (mkRequest m "/api/v1/session//plan" bo) = (NotFoundResp, st)
  /\ handle deps st env (mkRequest "POST" "/api/v1/chat" None) = (RequestValidationError, st).
Proof.
  intros Ht Hid. unfold handle; cbn [method path body].
  rewrite dispatch_chat, !dispatch_session, dispatch_plan, dispatch_chat_slash by done.
  destruct (dispatch_session_empty m) as [-> ->].
  split_and!; try done; intros; repeat case_bool_decide; congruence.
Qed.

End AppTheorems.

(** C28: Invariant of the running service: from the empty store singleton
    of dependencies.py, after any sequence of requests handled one after
    the other, every stored session is reachable by turns and stored under
    its own identifier; and a request that reaches neither the chat nor
    the delete route leaves the store unchanged. *)
Theorem app_store_inv (deps : Deps) (reqs : list (Env * Request)) :
  store_inv (serve deps _session_store reqs).2
  /\ (forall (st : InMemorySessionStore.t) env req,
        writes_store (dispatch app_routes (method req) (path req)) = false ->
        (handle deps st env req).2 = st).
Proof.
  split.
  - apply serve_inv, store_inv_empty. intros k. reflexivity.
  - intros st env req. apply handle_inv.
Qed.

(** C25: The start-up of [lifespan] on an unconfigured root logger: a
    level name in any case sets the root to its level, and the start-up
    line is written exactly when that level lets [INFO] through; a name the
    [logging] module does not define falls back to [INFO]; [basic_format]
    and [_styles] name non-level attributes, and the start-up fails with
    [ValueError] or [TypeError] before anything is logged. A root logger
    configured before is left as it was. *)
Theorem lifespan_logging (settings : Settings.t) :
  let lvl := Py.upper (Settings.log_level settings) in
  let line := mkRecord "INFO" "app.main" (startup_message settings) in
  (forall z, Py.assoc lvl _nameToLevel = Some z ->
     lifespan_startup settings root0 = (None, root1 z, if (z <=? INFO)%Z then [line] else []))
  /\ (upper_attr lvl = None -> lifespan_startup settings root0 = (None, root1 INFO, [line]))
  /\ (lvl = "BASIC_FORMAT" ->
      lifespan_startup settings root0 = (Some (UnknownLevel BASIC_FORMAT), root1 30, []))
  /\ (lvl = "_STYLES" -> lifespan_startup settings root0 = (Some LevelNotInteger, root1 30, []))
  /\ (forall root, handlers root <> [] ->
      configure_logging (Settings.log_level settings) root = (None, root)).
Proof.
  intros lvl line. unfold lifespan_startup. rewrite configure_logging_fresh. fold lvl.
  split_and!.
  - intros z Hz. rewrite (nameToLevel_attr _ _ Hz). reflexivity.
  - intros ->. reflexivity.
  - intros ->. reflexivity.
  - intros ->. reflexivity.
  - intros [[|h hs] lv] Hh; [done|]. reflexivity.
Qed.

End AppTheorems.

(** ** Witnesses *)
Module AppWitnesses.
Import Routing Logging LoggingFacts Main AppFacts AppTheorems.

(** The dependencies of a test process: default settings, a client whose
    calls answer no content, a pydantic that rejects every input. *)
Definition test_deps : Deps :=
  mkDeps (Settings.defaults "sk-test") (fun _ => empty_client)
    rejecting_pydantic.

Definition test_env : Env := mkEnv "s-1" "2026-01-01T00:00:00".

Lemma handle_api_routes_witness :
  Py.truthy "abc" = true /\ Py.contains "/" "abc" = false
  /\ handle test_deps _session_store test_env
       (mkRequest "GET" ("/api/v1/session/" +:+ "abc" +:+ "/plan") None)
     = (PlanResp (get_plan _session_store "abc" "2026-01-01T00:00:00"), _session_store).
Proof.
  split; [reflexivity|split; [reflexivity|]].
  destruct (handle_api_routes test_deps _session_store test_env "abc"
              (ChatRequest.mk None "hello") None eq_refl eq_refl) as (_ & _ & _ & H).
  exact H.
Defined.

Lemma handle_route_errors_witness :
  Py.truthy "abc" = true /\ Py.contains "/" "abc" = false /\ "PUT" <> "GET" /\ "PUT" <> "DELETE"
  /\ handle test_deps _session_store test_env (mkRequest "PUT" ("/api/v1/session/" +:+ "abc") None)
     = (MethodNotAllowedResp, _session_store).
Proof.
  split_and!; [reflexivity|reflexivity|done|done|].
  destruct (handle_route_errors test_deps _session_store test_env "abc" "PUT" None eq_refl eq_refl)
    as (_ & H & _).
  apply H; done.
Defined.

Lemma app_store_inv_witness :
  writes_store (dispatch app_routes "GET" "/health") = false
  /\ (handle test_deps _session_store test_env (mkRequest "GET" "/health" None)).2 = _session_store.
Proof.
  split; [reflexivity|].
  apply (proj2 (app_store_inv test_deps [])). reflexivity.
Defined.

Definition settings_with_level (lvl : string) : Settings.t :=
  Settings.mk "development" lvl "sk-test" "memory" "claude-opus-4-6" 2048.

Lemma lifespan_logging_witness :
  lifespan_startup (settings_with_level "debug") root0
    = (None, root1 10,
       [mkRecord "INFO" "app.main" (startup_message (settings_with_level "debug"))])
  /\ lifespan_startup (settings_with_level "error") root0 = (None, root1 40, [])
  /\ lifespan_startup (settings_with_level "verbose") root0
     = (None, root1 INFO,
        [mkRecord "INFO" "app.main" (startup_message (settings_with_level "verbose"))])
  /\ lifespan_startup (settings_with_level "basic_format") root0
     = (Some (UnknownLevel BASIC_FORMAT), root1 30, []).
Proof.
  split_and!.
  - destruct (lifespan_logging (settings_with_level "debug")) as (H & _). by apply H.
  - destruct (lifespan_logging (settings_with_level "error")) as (H & _). by apply H.
  - destruct (lifespan_logging (settings_with_level "verbose")) as (_ & H & _). by apply H.
  - destruct (lifespan_logging (settings_with_level "basic_format")) as (_ & _ & H & _). by apply H.
Defined.

End AppWitnesses.
